(** * A Cartesi rollup back end: the balance ledger and its request loop

    The repository holds three generations of one JavaScript program, a
    back end that polls a rollup host for inputs, keeps an in-memory table
    of balances and answers with notices, reports and vouchers:

    - [Part001] (src/unnamed/part_001): JSON actions [deposit] and
      [transfer] over JavaScript numbers;
    - [IndexJs] (src/src/index.js): binary deposit notifications over
      BigInt balances;
    - [Part000] (src/unnamed/part_000): binary deposits, and the JSON
      input [{win, loss}] that pays the loser's balance out as a voucher.

    Each module below embeds its source file function by function, under
    the source's names.  What the program takes from its libraries (viem,
    ethers) and from the JavaScript runtime is collected first. *)

From Stdlib Require Import ZArith List String Ascii Bool Lia.
From Stdlib Require Strings.Byte.
From Stdlib Require Import Floats.
From stdpp Require Import base gmap strings list fin_maps.

Import ListNotations.
Local Open Scope string_scope.
Local Open Scope list_scope.
Local Open Scope Z_scope.

(* ===================================================================== *)
(** ** Keccak-256, the hash under viem's [checksumAddress] *)
(* ===================================================================== *)

Module Keccak.

Definition mask64 : Z := Z.ones 64.

Definition rotl64 (w : Z) (n : Z) : Z :=
  Z.land (Z.lor (Z.shiftl w n) (Z.shiftr w (64 - n))) mask64.

Definition lane (st : list Z) (i : Z) : Z := nth (Z.to_nat i) st 0.

Definition indices25 : list Z := map Z.of_nat (seq 0 25).
Definition indices5 : list Z := map Z.of_nat (seq 0 5).

(** Rotation offsets, lane [x + 5 y]. *)
Definition rho_offsets : list Z :=
  [ 0;  1; 62; 28; 27;
   36; 44;  6; 55; 20;
    3; 10; 43; 25; 39;
   41; 45; 15; 21;  8;
   18;  2; 61; 56; 14].

Definition round_constants : list Z :=
  [0x0000000000000001; 0x0000000000008082; 0x800000000000808A;
   0x8000000080008000; 0x000000000000808B; 0x0000000080000001;
   0x8000000080008081; 0x8000000000008009; 0x000000000000008A;
   0x0000000000000088; 0x0000000080008009; 0x000000008000000A;
   0x000000008000808B; 0x800000000000008B; 0x8000000000008089;
   0x8000000000008003; 0x8000000000008002; 0x8000000000000080;
   0x000000000000800A; 0x800000008000000A; 0x8000000080008081;
   0x8000000000008080; 0x0000000080000001; 0x8000000080008008].

Definition theta (a : list Z) : list Z :=
  let c x := fold_left Z.lxor (map (fun y => lane a (x + 5 * y)) indices5) 0 in
  let cs := map c indices5 in
  let d x := Z.lxor (lane cs ((x + 4) mod 5)) (rotl64 (lane cs ((x + 1) mod 5)) 1) in
  map (fun i => Z.lxor (lane a i) (d (i mod 5))) indices25.

(** rho and pi together: the lane that lands on [(X, Y)] comes from
    [(x, y)] with [y = X] and [2 x + 3 y = Y] modulo 5. *)
Definition rho_pi (a : list Z) : list Z :=
  map (fun j =>
         let X := j mod 5 in
         let Y := j / 5 in
         let x := (X + 3 * Y) mod 5 in
         let src := x + 5 * X in
         rotl64 (lane a src) (lane rho_offsets src)) indices25.

Definition chi (b : list Z) : list Z :=
  map (fun i =>
         let x := i mod 5 in
         let y := i / 5 in
         let b1 := lane b ((x + 1) mod 5 + 5 * y) in
         let b2 := lane b ((x + 2) mod 5 + 5 * y) in
         Z.lxor (lane b i) (Z.land (Z.lxor b1 mask64) b2)) indices25.

Definition iota (rc : Z) (a : list Z) : list Z :=
  match a with
  | [] => []
  | a0 :: rest => Z.lxor a0 rc :: rest
  end.

Definition round (a : list Z) (rc : Z) : list Z :=
  iota rc (chi (rho_pi (theta a))).

Definition keccak_f (a : list Z) : list Z := fold_left round round_constants a.

(** Little-endian bytes to a lane and back. *)
Definition lane_of_bytes (bs : list Z) : Z :=
  fold_right (fun b acc => b + 256 * acc) 0 bs.

Fixpoint bytes_of_lane (n : nat) (w : Z) : list Z :=
  match n with
  | O => []
  | S n' => Z.land w 255 :: bytes_of_lane n' (Z.shiftr w 8)
  end.

Fixpoint chunks (fuel : nat) (size : nat) (bs : list Z) : list (list Z) :=
  match fuel with
  | O => []
  | S fuel' =>
      match bs with
      | [] => []
      | _ => firstn size bs :: chunks fuel' size (skipn size bs)
      end
  end.

Definition rate : nat := 136.

(** Keccak's pad10*1 with the domain byte 0x01 (not SHA-3's 0x06). *)
Definition pad (msg : list Z) : list Z :=
  let q := (rate - (length msg mod rate))%nat in
  if (q =? 1)%nat then msg ++ [0x81]
  else msg ++ [0x01] ++ repeat 0 (q - 2)%nat ++ [0x80].

Definition absorb (st : list Z) (block : list Z) : list Z :=
  let lanes := map lane_of_bytes (chunks 17 8 block) ++ repeat 0 8 in
  keccak_f (map (fun p => Z.lxor (fst p) (snd p)) (combine st lanes)).

Definition keccak256_Z (msg : list Z) : list Z :=
  let padded := pad msg in
  let blocks := chunks (S (length padded)) rate padded in
  let st := fold_left absorb blocks (repeat 0 25) in
  firstn 32 (flat_map (bytes_of_lane 8) st).

Definition keccak256 (msg : list Byte.byte) : list Byte.byte :=
  omap (fun z => Byte.of_N (Z.to_N z))
       (keccak256_Z (map (fun b => Z.of_N (Byte.to_N b)) msg)).

End Keccak.

(* ===================================================================== *)
(** ** JavaScript values and the operators the handlers apply to them *)
(* ===================================================================== *)

Module JS.

#[local] Set Warnings "-register-all".

(** What [JSON.parse] and a property read can produce.  A number is an
    IEEE binary64 ([float]); [VNative k] is the built-in reached by
    reading the member [k] of [Object.prototype] through an object that
    does not define it (a function, or the prototype itself for
    [__proto__]). *)
Inductive value : Type :=
| VUndefined
| VNull
| VBool (b : bool)
| VNumber (f : float)
| VString (s : string)
| VArray (elements : list value)
| VObject (fields : list (string * value))
| VNative (name : string).

(** Exceptions raised inside a library or by the runtime, kept by kind;
    their message text is the library's. *)
Inductive fault : Type :=
| InvalidAddressError (address : value)       (* viem getAddress *)
| BigIntSyntaxError (literal : string)        (* BigInt("0x") *)
| NumericFault (v : Z) (width : nat)          (* ethers toBeHex *)
| JSONSyntaxError (source : string)           (* JSON.parse *)
| TypeError (what : string).

(** The text of a message, as the template literal that builds it:
    literal parts and the values spliced in between. *)
Inductive piece : Type :=
| Lit (s : string)
| OfValue (v : value)
| OfBigInt (n : Z)
| OfFault (f : fault).

Definition text : Type := list piece.

(** [Error m] is [new Error(m)] thrown by the program itself. *)
Inductive exn : Type :=
| Error (message : text)
| Fault (f : fault).

(** [err.message] *)
Definition message (e : exn) : text :=
  match e with
  | Error m => m
  | Fault f => [OfFault f]
  end.

(** A call that returns or throws. *)
Definition result (A : Type) : Type := (exn + A)%type.

Definition ret {A} (a : A) : result A := inr a.
Definition throw {A} (e : exn) : result A := inl e.
Definition rbind {A B} (r : result A) (k : A -> result B) : result B :=
  match r with
  | inl e => inl e
  | inr a => k a
  end.

(** The members every ordinary object inherits from [Object.prototype]
    (Node.js, Annex B included). *)
Definition Object_prototype_names : list string :=
  ["constructor"; "__defineGetter__"; "__defineSetter__"; "hasOwnProperty";
   "__lookupGetter__"; "__lookupSetter__"; "isPrototypeOf";
   "propertyIsEnumerable"; "toString"; "valueOf"; "__proto__";
   "toLocaleString"].

Definition inherited (k : string) : bool :=
  existsb (String.eqb k) Object_prototype_names.

Definition is_nan (f : float) : bool := negb (PrimFloat.eqb f f).

(** ToBoolean *)
Definition truthy (v : value) : bool :=
  match v with
  | VUndefined | VNull => false
  | VBool b => b
  | VNumber f => negb (PrimFloat.eqb f PrimFloat.zero || is_nan f)
  | VString s => negb (String.eqb s "")
  | VArray _ | VObject _ | VNative _ => true
  end.

(** [v == null] *)
Definition nullish (v : value) : bool :=
  match v with
  | VUndefined | VNull => true
  | _ => false
  end.

(** [v === s] for a string literal [s] *)
Definition is_string (v : value) (s : string) : bool :=
  match v with
  | VString a => String.eqb a s
  | _ => false
  end.

(** [typeof v === "object"] *)
Definition typeof_object (v : value) : bool :=
  match v with
  | VNull | VArray _ | VObject _ => true
  | VNative name => String.eqb name "__proto__"
  | _ => false
  end.

(** An object built by [JSON.parse] keeps, for a repeated key, the last
    value. *)
Fixpoint own (fields : list (string * value)) (k : string) : option value :=
  match fields with
  | [] => None
  | (k', v) :: rest =>
      match own rest k with
      | Some v' => Some v'
      | None => if String.eqb k' k then Some v else None
      end
  end.

(** [v.k] for the member names the handlers read ([win], [loss],
    [action], [user], [sender], [amount], [from], [to]): none of them
    is inherited by an object, an array, a string, a number or a
    function, so the read sees an own property or [undefined]; on
    [undefined] and [null] it throws. *)
Definition getProp (v : value) (k : string) : result value :=
  match v with
  | VUndefined | VNull => throw (Fault (TypeError "Cannot read properties"))
  | VObject fields =>
      match own fields k with
      | Some x => ret x
      | None => ret VUndefined
      end
  | _ => ret VUndefined
  end.

(** The parts of the runtime that are taken as given: the UTF-8 decoder,
    the JSON parser, the conversions between numbers and strings, the
    source text the engine prints for a built-in, the order on strings,
    and whether viem's caches hold a text at the moment [getAddress] is
    given a value that is not a string (that depends on the calls made
    before).  Every theorem below holds whatever they are. *)
Class Runtime : Type := {
  TextDecoder_decode : list Byte.byte -> string;
  JSON_parse : string -> option value;
  Number_toString : float -> string;
  StringToNumber : string -> float;
  native_text : string -> string;
  String_lessThan : string -> string -> bool;
  viem_cached : string -> bool
}.

Section Coercions.
Context `{Runtime}.

Definition join_with (sep : string) (parts : list string) : string :=
  match parts with
  | [] => ""
  | p :: ps => fold_left (fun acc x => acc +:+ sep +:+ x) ps p
  end.

(** ToString.  An object from [JSON.parse] has no callable member of
    its own, so OrdinaryToPrimitive reaches the inherited [toString]
    unless an own property of that name hides it, and then throws; an
    array goes through [Array.prototype.join]. *)
Fixpoint ToString (v : value) : result string :=
  match v with
  | VUndefined => ret "undefined"
  | VNull => ret "null"
  | VBool true => ret "true"
  | VBool false => ret "false"
  | VNumber f => ret (Number_toString f)
  | VString s => ret s
  | VArray elements =>
      let fix go (l : list value) : result (list string) :=
        match l with
        | [] => ret []
        | x :: rest =>
            rbind (match x with
                   | VUndefined | VNull => ret ""
                   | _ => ToString x
                   end)
                  (fun s => rbind (go rest) (fun ss => ret (s :: ss)))
        end in
      rbind (go elements) (fun parts => ret (join_with "," parts))
  | VObject fields =>
      match own fields "toString" with
      | Some _ => throw (Fault (TypeError "Cannot convert object to primitive value"))
      | None => ret "[object Object]"
      end
  | VNative name => ret (native_text name)
  end.

(** ToPrimitive: primitives are left alone, objects become strings. *)
Definition ToPrimitive (v : value) : result value :=
  match v with
  | VArray _ | VObject _ | VNative _ => rbind (ToString v) (fun s => ret (VString s))
  | _ => ret v
  end.

(** ToNumber on a primitive. *)
Definition number_of_primitive (p : value) : float :=
  match p with
  | VUndefined => PrimFloat.nan
  | VNull => PrimFloat.zero
  | VBool true => PrimFloat.one
  | VBool false => PrimFloat.zero
  | VNumber f => f
  | VString s => StringToNumber s
  | _ => PrimFloat.nan
  end.

(** [Number(v)] *)
Definition Number (v : value) : result float :=
  rbind (ToPrimitive v) (fun p => ret (number_of_primitive p)).

(** ToPropertyKey: the name under which [obj[v]] looks. *)
Definition ToPropertyKey (v : value) : result string := ToString v.

(** [a + b] *)
Definition add (a b : value) : result value :=
  rbind (ToPrimitive a) (fun pa =>
  rbind (ToPrimitive b) (fun pb =>
    match pa, pb with
    | VString _, _ | _, VString _ =>
        rbind (ToString pa) (fun sa =>
        rbind (ToString pb) (fun sb => ret (VString (sa +:+ sb))))
    | _, _ =>
        ret (VNumber (PrimFloat.add (number_of_primitive pa) (number_of_primitive pb)))
    end)).

(** [a - b] *)
Definition sub (a b : value) : result value :=
  rbind (Number a) (fun na =>
  rbind (Number b) (fun nb => ret (VNumber (PrimFloat.sub na nb)))).

(** [a < b]: strings compare as strings, everything else as numbers,
    and a comparison with NaN is false. *)
Definition lessThan (a b : value) : result bool :=
  rbind (ToPrimitive a) (fun pa =>
  rbind (ToPrimitive b) (fun pb =>
    match pa, pb with
    | VString sa, VString sb => ret (String_lessThan sa sb)
    | _, _ => ret (PrimFloat.ltb (number_of_primitive pa) (number_of_primitive pb))
    end)).

(** A template literal converts every value it splices in, left to
    right, and throws where a conversion does. *)
Fixpoint interpolate (ps : list piece) : result text :=
  match ps with
  | [] => ret []
  | OfValue v :: rest =>
      rbind (ToString v) (fun _ =>
      rbind (interpolate rest) (fun t => ret (OfValue v :: t)))
  | p :: rest => rbind (interpolate rest) (fun t => ret (p :: t))
  end.

End Coercions.

End JS.

(* ===================================================================== *)
(** ** The library calls: ethers' byte and hex helpers, viem's addresses *)
(* ===================================================================== *)

Module Lib.
Import JS.

Definition byte_val (b : Byte.byte) : Z := Z.of_N (Byte.to_N b).

(** Nibble to lower-case hexadecimal digit. *)
Definition hex_digit (n : Z) : ascii :=
  ascii_of_N (Z.to_N (if n <? 10 then 48 + n else 87 + n)).

Definition code (c : ascii) : Z := Z.of_N (N_of_ascii c).

(** Value of a hexadecimal digit of either case. *)
Definition nibble (c : ascii) : option Z :=
  let n := code c in
  if (48 <=? n) && (n <=? 57) then Some (n - 48)
  else if (97 <=? n) && (n <=? 102) then Some (n - 87)
  else if (65 <=? n) && (n <=? 70) then Some (n - 55)
  else None.

Definition is_hex (c : ascii) : bool :=
  match nibble c with Some _ => true | None => false end.

Definition lower (c : ascii) : ascii :=
  let n := code c in
  if (65 <=? n) && (n <=? 90) then ascii_of_N (Z.to_N (n + 32)) else c.

Definition upper (c : ascii) : ascii :=
  let n := code c in
  if (97 <=? n) && (n <=? 122) then ascii_of_N (Z.to_N (n - 32)) else c.

Fixpoint smap (f : ascii -> ascii) (s : string) : string :=
  match s with
  | EmptyString => EmptyString
  | String c rest => String (f c) (smap f rest)
  end.

(** [s.toLowerCase()] on ASCII text. *)
Definition toLowerCase (s : string) : string := smap lower s.

Fixpoint hex_of_bytes (bs : list Byte.byte) : string :=
  match bs with
  | [] => EmptyString
  | b :: rest =>
      String (hex_digit (byte_val b / 16))
             (String (hex_digit (byte_val b mod 16)) (hex_of_bytes rest))
  end.

(** [ethers.hexlify(bytes)] *)
Definition hexlify (bs : list Byte.byte) : string :=
  String "0" (String "x" (hex_of_bytes bs)).

(** The digits of a hexadecimal literal, most significant first. *)
Fixpoint hex_value (acc : Z) (s : string) : option Z :=
  match s with
  | EmptyString => Some acc
  | String c rest =>
      match nibble c with
      | Some d => hex_value (16 * acc + d) rest
      | None => None
      end
  end.

(** [BigInt(s)] for the text the program passes, a [0x] literal from
    [hexlify]: the prefix alone is a SyntaxError. *)
Definition BigInt (s : string) : result Z :=
  match s with
  | String "0" (String "x" (String c rest)) =>
      match hex_value 0 (String c rest) with
      | Some n => ret n
      | None => throw (Fault (BigIntSyntaxError s))
      end
  | _ => throw (Fault (BigIntSyntaxError s))
  end.

(** [n.toString(16)] for [n >= 0], by halving the digit count bound. *)
Fixpoint hex_digits (fuel : nat) (n : Z) (acc : string) : string :=
  match fuel with
  | O => acc
  | S fuel' =>
      let acc' := String (hex_digit (n mod 16)) acc in
      if n / 16 =? 0 then acc' else hex_digits fuel' (n / 16) acc'
  end.

Definition toString16 (n : Z) : string :=
  hex_digits (S (Z.to_nat (Z.log2 n))) n EmptyString.

Fixpoint zeros (k : nat) (s : string) : string :=
  match k with
  | O => s
  | S k' => String "0" (zeros k' s)
  end.

(** [ethers.toBeHex(value, width)]: the value must be non-negative and
    fit [width] bytes; it is padded with zeros on the left. *)
Definition toBeHex (v : Z) (width : nat) : result string :=
  if v <? 0 then throw (Fault (NumericFault v width))
  else
    let digits := toString16 v in
    if (String.length digits <=? width * 2)%nat
    then ret (String "0" (String "x"
                (zeros (width * 2 - String.length digits) digits)))
    else throw (Fault (NumericFault v width)).

Fixpoint all_hex (s : string) : bool :=
  match s with
  | EmptyString => true
  | String c rest => is_hex c && all_hex rest
  end.

(** viem's [isAddress(a, {strict: false})]: [/^0x[a-fA-F0-9]{40}$/]. *)
Definition isAddress (a : string) : bool :=
  match a with
  | String "0" (String "x" body) =>
      (String.length body =? 40)%nat && all_hex body
  | _ => false
  end.

(** The EIP-55 casing: digit [i] of the address goes to upper case when
    nibble [i] of the hash of the lower-case text is 8 or more. *)
Fixpoint checksum_digits (hash : list Byte.byte) (digits : string) : string :=
  match digits, hash with
  | String c0 (String c1 rest), h :: hash' =>
      String (if 8 <=? byte_val h / 16 then upper c0 else c0)
             (String (if 8 <=? byte_val h mod 16 then upper c1 else c1)
                     (checksum_digits hash' rest))
  | _, _ => digits
  end.

(** viem's [checksumAddress(address)] *)
Definition checksumAddress (a : string) : string :=
  let hexAddress := toLowerCase (String.substring 2 (String.length a - 2) a) in
  let hash := Keccak.keccak256 (list_byte_of_string hexAddress) in
  String "0" (String "x" (checksum_digits hash hexAddress)).

(** viem's [getAddress(address)].  A string that passes [isAddress]
    is returned in checksummed casing, any other string makes it throw
    InvalidAddressError.  A value that is not a string is first turned
    into text, by the pattern test and by the key of viem's caches: an
    array or an object goes through [ToString], which can throw; the
    text of [undefined], [null], a boolean, a number or a built-in is
    no address.  When the text is no address the call throws
    InvalidAddressError; when it is one, the call returns the checksum
    kept for that text if the caches hold it, and otherwise calls a
    string method on the value, a TypeError. *)
Section Address.
Context `{Runtime}.

Definition getAddress (a : value) : result string :=
  match a with
  | VString s =>
      if isAddress s then ret (checksumAddress s)
      else throw (Fault (InvalidAddressError a))
  | VArray _ | VObject _ =>
      rbind (ToString a) (fun s =>
        if isAddress s
        then
          if viem_cached s then ret (checksumAddress s)
          else throw (Fault (TypeError "is not a function"))
        else throw (Fault (InvalidAddressError a)))
  | _ => throw (Fault (InvalidAddressError a))
  end.

End Address.

(** The unsigned big-endian integer a byte string spells. *)
Definition be_uint (bs : list Byte.byte) : Z :=
  fold_left (fun acc b => 256 * acc + byte_val b) bs 0.

End Lib.

(* ===================================================================== *)
(** ** The rollup host: what a handler posts, and the request envelope *)
(* ===================================================================== *)

Module Host.
Import JS.

(** One POST to the host.  A notice and a report carry their message
    (hex-encoded on the wire by [stringToHex]); a voucher carries its
    destination and its hexadecimal payload. *)
Inductive event : Type :=
| Notice (message : text)
| Report (message : text)
| Voucher (destination : string) (payload : string).

(** The [data] of a request: the payload is the byte string its [0x]
    hexadecimal text spells; [metadata] is absent on inspect requests. *)
Record requestData : Type := {
  payload : list Byte.byte;
  metadata : option string  (* metadata.msg_sender *)
}.

(** A computation over the balance table [S] that posts events and
    returns or throws.  The table keeps what was written before a throw,
    as the JavaScript object does.  A POST is taken to reach the host:
    a rejected [fetch] is outside the model. *)
Definition M (S A : Type) : Type := S -> result A * S * list event.

Definition mret {S A} (a : A) : M S A := fun s => (inr a, s, []).

Definition mthrow {S A} (e : exn) : M S A := fun s => (inl e, s, []).

Definition mbind {S A B} (c : M S A) (k : A -> M S B) : M S B :=
  fun s =>
    match c s with
    | (inl e, s', out) => (inl e, s', out)
    | (inr a, s', out) =>
        let '(r, s'', out') := k a s' in (r, s'', out ++ out')
    end.

Definition lift {S A} (r : result A) : M S A := fun s => (r, s, []).

Definition get {S} : M S S := fun s => (inr s, s, []).

Definition put {S} (s' : S) : M S unit := fun _ => (inr tt, s', []).

Definition emit {S} (e : event) : M S unit := fun s => (inr tt, s, [e]).

(** [try { body } catch (err) { handler(err) }] *)
Definition try_catch {S A} (body : M S A) (handler : exn -> M S A) : M S A :=
  fun s =>
    match body s with
    | (inl e, s', out) =>
        let '(r, s'', out') := handler e s' in (r, s'', out ++ out')
    | done => done
    end.

(** The same for a function without effects. *)
Definition try_result {A} (body : result A) (handler : exn -> result A) : result A :=
  match body with
  | inl e => handler e
  | done => done
  end.

Declare Scope host_scope.
Delimit Scope host_scope with host.
Notation "'let*' x ':=' c 'in' k" := (mbind c (fun x => k))
  (at level 10, x binder, c at level 200, k at level 200) : host_scope.

(** The parts of an outcome. *)
Definition status_of {S A} (o : result A * S * list event) : result A := fst (fst o).
Definition ledger_of {S A} (o : result A * S * list event) : S := snd (fst o).
Definition events_of {S A} (o : result A * S * list event) : list event := snd o.

(** An outcome with its ledger listed, key by key. *)
Definition listing {V A} (o : result A * gmap string V * list event)
    : result A * list (string * V) * list event :=
  (status_of o, map_to_list (ledger_of o), events_of o).

(** The answer to [POST /finish]. *)
Inductive finishResp : Type :=
| NoInput                                           (* status 202 *)
| Request (request_type : string) (data : requestData).

(** What the loop did with the answer to one [/finish] call. *)
Inductive followup : Type :=
| Waited (ms : Z)                      (* 202: setTimeout, then again *)
| Handled (status : string) (out : list event)  (* a handler ran *)
| Skipped                              (* unknown request_type *)
| Dropped                              (* the answer is not read *)
| Crashed (e : exn) (out : list event) (* a handler threw: the loop dies *)
| Pending.                             (* the host has not answered *)

(** One [/finish] call: the status posted and what followed. *)
Record exchange : Type := {
  sent : string;
  got : followup
}.





(** A handler that always returns. *)
Definition total_handler {S} (h : requestData -> M S string) : Prop :=
  forall requestData balances,
    exists status after out, h requestData balances = (inr status, after, out).

(** No handler threw. *)
Definition never_crashed (log : list exchange) : Prop :=
  forall e ex out, In e log -> got e <> Crashed ex out.

(** The request loop of part_000 and of src/index.js, which share its
    text, run against the answers the host gives to the successive
    [/finish] calls.  [resultStatus] lives across iterations. *)
Section Loop.
Context {S : Type}.
Variables handleAdvance handleInspect : requestData -> M S string.

Definition dispatch (request_type : string) (data : requestData)
    (balances : S) : option (result string * S * list event) :=
  if String.eqb request_type "advance_state" then Some (handleAdvance data balances)
  else if String.eqb request_type "inspect_state" then Some (handleInspect data balances)
  else None.

Fixpoint loop (resultStatus : string) (balances : S)
    (answers : list finishResp) : list exchange :=
  match answers with
  | [] => [{| sent := resultStatus; got := Pending |}]
  | NoInput :: rest =>
      {| sent := resultStatus; got := Waited 1000 |}
        :: loop resultStatus balances rest
  | Request request_type data :: rest =>
      match dispatch request_type data balances with
      | Some (inr status, balances', out) =>
          {| sent := resultStatus; got := Handled status out |}
            :: loop status balances' rest
      | Some (inl e, _, out) =>
          [{| sent := resultStatus; got := Crashed e out |}]
      | None =>
          {| sent := resultStatus; got := Skipped |}
            :: loop resultStatus balances rest
      end
  end.

(** The ledger the loop holds once the answers are used up. *)
Fixpoint ledger_after (balances : S) (answers : list finishResp) : S :=
  match answers with
  | [] => balances
  | NoInput :: rest => ledger_after balances rest
  | Request request_type data :: rest =>
      match dispatch request_type data balances with
      | Some (_, balances', _) => ledger_after balances' rest
      | None => ledger_after balances rest
      end
  end.
End Loop.

End Host.

(* ===================================================================== *)
(** ** src/unnamed/part_000: binary deposits and voucher settlement *)
(* ===================================================================== *)

Module Part000.
Import JS Lib Host.
Local Open Scope host_scope.

(** [balances]: the own properties of the object, BigInt values under
    the addresses [getAddress] returned. *)
Abbreviation ledger := (gmap string Z).

(** [bytes.slice(a, b)] *)
Definition slice {A} (a b : nat) (l : list A) : list A :=
  firstn (b - a) (skipn a l).

(** [!balances[k]] for an address [k]: unset, or zero. *)
Definition falsy (b : option Z) : bool :=
  match b with
  | Some n => n =? 0
  | None => true
  end.

(** [balances[k] || BigInt(0)] for an address [k]. *)
Definition balanceOf (balances : ledger) (k : string) : Z :=
  match balances !! k with
  | Some n => n
  | None => 0
  end.

(** The sum of the balances on record. *)
Definition total (balances : ledger) : Z :=
  map_fold (fun _ n acc => n + acc) 0 balances.

(** No balance on record is negative. *)
Definition nonneg (balances : ledger) : Prop :=
  forall k n, balances !! k = Some n -> 0 <= n.

(** What one Advance request can do to the ledger, and post: credit a
    deposit, pay a balance out, report and accept, or report and
    reject. *)
Inductive advance_step (balances : ledger) : string -> ledger -> list event -> Prop :=
| step_deposit (recipient : string) (amount : Z) :
    0 <= amount ->
    advance_step balances "accept"
      (<[recipient := balanceOf balances recipient + amount]> balances)
      [Notice [Lit "Deposit OK: recipient="; Lit recipient; Lit ", newBalance=";
               OfBigInt (balanceOf balances recipient + amount)]]
| step_voucher (winner loser voucher : string) :
    0 < balanceOf balances loser ->
    toBeHex (balanceOf balances loser) 32 = inr voucher ->
    advance_step balances "accept" (<[loser := 0]> balances)
      [Voucher winner voucher;
       Notice [Lit "Voucher issued: "; Lit winner; Lit " gets ";
               OfBigInt (balanceOf balances loser); Lit " wei"]]
| step_report (m : text) :
    advance_step balances "accept" balances [Report m]
| step_reject (m : text) :
    advance_step balances "reject" balances [Report (Lit "Error: " :: m)].

(** What one Inspect request can do: nothing to the ledger. *)
Inductive inspect_step : string -> list event -> Prop :=
| inspect_silent : inspect_step "accept" []
| inspect_report (m : text) : inspect_step "accept" [Report m]
| inspect_reject (m : text) : inspect_step "reject" [Report (Lit "Error: " :: m)].

(** [`${balances[k]}`] *)
Definition shown (balances : ledger) (k : string) : piece :=
  match balances !! k with
  | Some n => OfBigInt n
  | None => OfValue VUndefined
  end.

Section Program.
Context `{Runtime}.

Definition sendNotice (message : text) : M ledger unit :=
  emit (Notice message).

Definition sendReport (message : text) : M ledger unit :=
  emit (Report message).

Definition generateVoucher (recipient : string) (amount : Z) : M ledger unit :=
  let* payload := lift (toBeHex amount 32) in
  emit (Voucher recipient payload).

Definition parseDepositPayload (payload : list Byte.byte) : result (string * Z) :=
  try_result
    (let bytes := payload in
     if (length bytes <? 52)%nat
     then throw (Error [Lit "Payload too short for a deposit."])
     else
       let addressData := slice 0 20 bytes in
       let amountData := slice 20 52 bytes in
       rbind (getAddress (VString (hexlify addressData))) (fun recipient =>
       rbind (BigInt (hexlify amountData)) (fun amount =>
       ret (recipient, amount))))
    (fun error =>
       throw (Error (Lit "Error parsing deposit payload: " :: message error))).

(** [recipient] is an address from [getAddress] and [amount] a
    BigInt, as the caller passes them; such a [recipient] names no
    member of [Object.prototype], so [balances[recipient]] is an own
    property or undefined. *)
Definition processDeposit (recipient : string) (amount : Z) : M ledger unit :=
  if negb (truthy (VString recipient))
  then mthrow (Error [Lit "Missing recipient or amount in deposit request."])
  else
    let* balances := get in
    let* _ := (if falsy (balances !! recipient)
               then put (<[recipient := 0]> balances)
               else mret tt) in
    let* balances := get in
    match balances !! recipient with
    | Some n => put (<[recipient := n + amount]> balances)
    | None => mthrow (Fault (TypeError "Cannot mix BigInt and other types"))
    end.

Definition handleAdvance (requestData : requestData) : M ledger string :=
  try_catch
    (let decodedString := TextDecoder_decode (payload requestData) in
     let '(parsed, isJson) :=
       match JSON_parse decodedString with
       | Some v => (v, true)
       | None => (VUndefined, false)
       end in
     let* _ :=
       if isJson && truthy parsed && typeof_object parsed
       then
         let* win := lift (getProp parsed "win") in
         let* loss := lift (getProp parsed "loss") in
         if truthy win && truthy loss
         then
           let* winner := lift (getAddress win) in
           let* loser := lift (getAddress loss) in
           let* balances := get in
           let loserBalance := balanceOf balances loser in
           if 0 <? loserBalance
           then
             let* _ := generateVoucher winner loserBalance in
             let* _ := put (<[loser := 0]> balances) in
             sendNotice [Lit "Voucher issued: "; Lit winner; Lit " gets ";
                         OfBigInt loserBalance; Lit " wei"]
           else
             sendReport [Lit "Loser "; Lit loser;
                         Lit " has no balance to transfer."]
         else
           sendReport [Lit "Unrecognized JSON structure: "; Lit decodedString]
       else
         let* '(recipient, amount) :=
           lift (parseDepositPayload (payload requestData)) in
         let* sender :=
           lift (match metadata requestData with
                 | Some msg_sender => ret msg_sender
                 | None => throw (Fault (TypeError "Cannot read properties of undefined"))
                 end) in
         let* _ := processDeposit recipient amount in
         let* balances := get in
         sendNotice [Lit "Deposit OK: recipient="; Lit recipient;
                     Lit ", newBalance="; shown balances recipient] in
     mret "accept")
    (fun err =>
       let* _ := sendReport (Lit "Error: " :: message err) in
       mret "reject").

(** The test of the first [if] of [handleAdvance], as a function of
    the request: the parsed value when the payload is taken for JSON
    ([isJson && parsed && typeof parsed === "object"]), nothing when
    it is taken for a deposit. *)
Definition as_json (requestData : requestData) : option value :=
  match JSON_parse (TextDecoder_decode (payload requestData)) with
  | Some parsed => if truthy parsed && typeof_object parsed then Some parsed else None
  | None => None
  end.

(** [balances[k] || BigInt(0)] for any key: an own property, else
    what [Object.prototype] has under that name, else zero. *)
Definition lookup_or_zero (balances : ledger) (k : string) : piece :=
  match balances !! k with
  | Some n => OfBigInt n
  | None => if inherited k then OfValue (VNative k) else OfBigInt 0
  end.

Definition handleInspect (requestData : requestData) : M ledger string :=
  try_catch
    (let decodedString := TextDecoder_decode (payload requestData) in
     let* parsed :=
       lift (match JSON_parse decodedString with
             | Some v => ret v
             | None => throw (Fault (JSONSyntaxError decodedString))
             end) in
     let* action := lift (getProp parsed "action") in
     let* user := lift (getProp parsed "user") in
     let* _ :=
       if is_string action "balance" && truthy user
       then
         let* key := lift (ToPropertyKey user) in
         let* balances := get in
         let userBalance := lookup_or_zero balances key in
         sendReport [Lit "Balance of "; OfValue user; Lit " = ";
                     userBalance; Lit " wei"]
       else mret tt in
     mret "accept")
    (fun err =>
       let* _ := sendReport (Lit "Error: " :: message err) in
       mret "reject").

Definition mainLoop (answers : list finishResp) : list exchange :=
  loop handleAdvance handleInspect "accept" ∅ answers.

End Program.
End Part000.

(* ===================================================================== *)
(** ** src/src/index.js: binary deposits only *)
(* ===================================================================== *)

Module IndexJs.
Import JS Lib Host.
Local Open Scope host_scope.

Abbreviation ledger := (gmap string Z).

Section Program.
Context `{Runtime}.

Definition sendNotice (message : text) : M ledger unit :=
  emit (Notice message).

Definition sendReport (message : text) : M ledger unit :=
  emit (Report message).

(** Both slices are taken before any check; a slice past the end is
    short, or empty. *)
Definition parseDepositPayload (payload : list Byte.byte) : result (string * Z) :=
  try_result
    (let addressData := Part000.slice 0 20 payload in
     let amountData := Part000.slice 20 52 payload in
     if negb (length addressData =? 20)%nat
     then throw (Error [Lit "Invalid deposit payload: Address extraction failed."])
     else
       rbind (getAddress (VString (hexlify addressData))) (fun recipient =>
       rbind (BigInt (hexlify amountData)) (fun amount =>
       ret (recipient, amount))))
    (fun error =>
       throw (Error (Lit "Error parsing deposit payload: " :: message error))).

(** The text of [processDeposit] is that of part_000. *)
Definition processDeposit (recipient : string) (amount : Z) : M ledger unit :=
  if negb (truthy (VString recipient))
  then mthrow (Error [Lit "Missing recipient or amount in deposit request."])
  else
    let* balances := get in
    let* _ := (if Part000.falsy (balances !! recipient)
               then put (<[recipient := 0]> balances)
               else mret tt) in
    let* balances := get in
    match balances !! recipient with
    | Some n => put (<[recipient := n + amount]> balances)
    | None => mthrow (Fault (TypeError "Cannot mix BigInt and other types"))
    end.

Definition handleAdvance (requestData : requestData) : M ledger string :=
  try_catch
    (let* sender :=
       lift (match metadata requestData with
             | Some msg_sender => ret msg_sender
             | None => throw (Fault (TypeError "Cannot read properties of undefined"))
             end) in
     let* '(recipient, amount) :=
       lift (parseDepositPayload (payload requestData)) in
     let* _ := processDeposit recipient amount in
     let* balances := get in
     let* _ := sendNotice [Lit "Deposit OK: recipient="; Lit recipient;
                           Lit ", newBalance="; Part000.shown balances recipient] in
     mret "accept")
    (fun err =>
       let* _ := sendReport (Lit "Error: " :: message err) in
       mret "reject").

Definition handleInspect (requestData : requestData) : M ledger string :=
  try_catch
    (let decodedString := TextDecoder_decode (payload requestData) in
     let* parsed :=
       lift (match JSON_parse decodedString with
             | Some v => ret v
             | None => throw (Fault (JSONSyntaxError decodedString))
             end) in
     let* action := lift (getProp parsed "action") in
     let* user := lift (getProp parsed "user") in
     let* _ :=
       if is_string action "balance" && truthy user
       then
         let* key := lift (ToPropertyKey user) in
         let* balances := get in
         let userBalance := Part000.lookup_or_zero balances key in
         sendReport [Lit "Balance of "; OfValue user; Lit " = ";
                     userBalance; Lit " wei"]
       else mret tt in
     mret "accept")
    (fun err =>
       let* _ := sendReport (Lit "Error: " :: message err) in
       mret "reject").

Definition mainLoop (answers : list finishResp) : list exchange :=
  loop handleAdvance handleInspect "accept" ∅ answers.

End Program.
End IndexJs.

(* ===================================================================== *)
(** ** src/unnamed/part_001: JSON actions over JavaScript numbers *)
(* ===================================================================== *)

Module Part001.
Import JS Lib Host.
Local Open Scope host_scope.

(** [balances]: the own properties of the object. *)
Abbreviation ledger := (gmap string value).

(** [balances[k]]: an own property, else what [Object.prototype] has
    under that name, else undefined. *)
Definition balances_get (balances : ledger) (k : string) : value :=
  match balances !! k with
  | Some v => v
  | None => if inherited k then VNative k else VUndefined
  end.

(** [balances[k] = v] for a primitive [v] (the program stores numbers
    and strings): the [__proto__] setter ignores it, any other name
    gets an own property. *)
Definition balances_set (k : string) (v : value) (balances : ledger) : ledger :=
  if String.eqb k "__proto__" then balances else <[k := v]> balances.

(** [v || 0] *)
Definition or_zero (v : value) : value :=
  if truthy v then v else VNumber PrimFloat.zero.

(** The ledger operations of the specification (section 4.2) over a
    table of numbers.  [held] is the balance a key counts for: the
    number on record, and zero when there is none or when it is falsy
    (zero or NaN).  [credit] adds to it, [debit] takes from it. *)
Definition held (balances : ledger) (k : string) : float :=
  match balances !! k with
  | Some (VNumber b) => if truthy (VNumber b) then b else PrimFloat.zero
  | _ => PrimFloat.zero
  end.

Definition credit (k : string) (amount : float) (balances : ledger) : ledger :=
  <[k := VNumber (PrimFloat.add (held balances k) amount)]> balances.

Definition debit (k : string) (amount : float) (balances : ledger) : ledger :=
  <[k := VNumber (PrimFloat.sub (held balances k) amount)]> balances.

(** A key under which the table holds a number, or nothing. *)
Definition numeric (balances : ledger) (k : string) : Prop :=
  balances !! k = None \/ exists b, balances !! k = Some (VNumber b).

(** A key a wallet address can be: a non-empty string that names no
    member of [Object.prototype]. *)
Definition plain_key (k : string) : Prop :=
  truthy (VString k) = true /\ inherited k = false.

Section Program.
Context `{Runtime}.

Definition sendNotice (message : text) : M ledger unit :=
  emit (Notice message).

Definition sendReport (message : text) : M ledger unit :=
  emit (Report message).

Definition processDeposit (parsed : value) : M ledger unit :=
  let* sender := lift (getProp parsed "sender") in
  let* amount := lift (getProp parsed "amount") in
  if negb (truthy sender) || nullish amount
  then mthrow (Error [Lit "Missing 'sender' or 'amount' in deposit input"])
  else
    let* key := lift (ToPropertyKey sender) in
    let* balances := get in
    let* _ := (if negb (truthy (balances_get balances key))
               then put (balances_set key (VNumber PrimFloat.zero) balances)
               else mret tt) in
    let* balances := get in
    let current := balances_get balances key in
    let* n := lift (Number amount) in
    let* total := lift (add current (VNumber n)) in
    put (balances_set key total balances).

Definition processTransfer (parsed : value) : M ledger unit :=
  let* from := lift (getProp parsed "from") in
  let* to := lift (getProp parsed "to") in
  let* amount := lift (getProp parsed "amount") in
  if negb (truthy from) || negb (truthy to) || nullish amount
  then mthrow (Error [Lit "Missing 'from', 'to' or 'amount' in transfer input"])
  else
    let* kfrom := lift (ToPropertyKey from) in
    let* balances := get in
    let current := balances_get balances kfrom in
    let* short :=
      (if negb (truthy current) then mret true
       else lift (lessThan current amount)) in
    if (short : bool)
    then
      let* m := lift (interpolate
                        [Lit "Insufficient balance in "; OfValue from;
                         Lit ". Current: "; OfValue (or_zero current);
                         Lit ", needed: "; OfValue amount]) in
      mthrow (Error m)
    else
      let* n := lift (Number amount) in
      let* rest := lift (sub current (VNumber n)) in
      let* _ := put (balances_set kfrom rest balances) in
      let* kto := lift (ToPropertyKey to) in
      let* balances := get in
      let* _ := (if negb (truthy (balances_get balances kto))
                 then put (balances_set kto (VNumber PrimFloat.zero) balances)
                 else mret tt) in
      let* balances := get in
      let* n := lift (Number amount) in
      let* total := lift (add (balances_get balances kto) (VNumber n)) in
      put (balances_set kto total balances).

Definition handleAdvance (requestData : requestData) : M ledger string :=
  try_catch
    (let decodedString := TextDecoder_decode (payload requestData) in
     let* parsed :=
       lift (match JSON_parse decodedString with
             | Some v => ret v
             | None => throw (Fault (JSONSyntaxError decodedString))
             end) in
     let* action := lift (getProp parsed "action") in
     let* _ :=
       if is_string action "deposit"
       then
         let* _ := processDeposit parsed in
         let* sender := lift (getProp parsed "sender") in
         let* key := lift (ToPropertyKey sender) in
         let* balances := get in
         let* m := lift (interpolate
                           [Lit "Deposit OK: sender="; OfValue sender;
                            Lit ", newBalance="; OfValue (balances_get balances key)]) in
         sendNotice m
       else if is_string action "transfer"
       then
         let* _ := processTransfer parsed in
         let* from := lift (getProp parsed "from") in
         let* to := lift (getProp parsed "to") in
         let* amount := lift (getProp parsed "amount") in
         let* m := lift (interpolate
                           [Lit "Transfer OK: from="; OfValue from;
                            Lit ", to="; OfValue to;
                            Lit ", amount="; OfValue amount]) in
         sendNotice m
       else mret tt in
     mret "accept")
    (fun err =>
       let* _ := sendReport (Lit "Error: " :: message err) in
       mret "reject").

(** The [catch] of this handler logs to the console and reports
    nothing. *)
Definition handleInspect (requestData : requestData) : M ledger string :=
  try_catch
    (let decodedString := TextDecoder_decode (payload requestData) in
     let* parsed :=
       lift (match JSON_parse decodedString with
             | Some v => ret v
             | None => throw (Fault (JSONSyntaxError decodedString))
             end) in
     let* action := lift (getProp parsed "action") in
     let* user := lift (getProp parsed "user") in
     let* _ :=
       if is_string action "balance" && truthy user
       then
         let* key := lift (ToPropertyKey user) in
         let* balances := get in
         let bal := or_zero (balances_get balances key) in
         let* m := lift (interpolate
                           [Lit "Balance of "; OfValue user; Lit " = "; OfValue bal]) in
         sendReport m
       else mret tt in
     mret "accept")
    (fun err => mret "reject").

(** This loop always polls with "accept" and posts the handler's
    status in a second [/finish] call, whose answer it does not read. *)
Fixpoint loop (balances : ledger) (answers : list finishResp) : list exchange :=
  match answers with
  | [] => [{| sent := "accept"; got := Pending |}]
  | NoInput :: rest =>
      {| sent := "accept"; got := Waited 1000 |} :: loop balances rest
  | Request request_type data :: rest =>
      let finish (resultStatus : string) (balances' : ledger) : list exchange :=
        match rest with
        | [] => [{| sent := resultStatus; got := Pending |}]
        | _ :: rest' =>
            {| sent := resultStatus; got := Dropped |} :: loop balances' rest'
        end in
      match dispatch handleAdvance handleInspect request_type data balances with
      | Some (inr status, balances', out) =>
          {| sent := "accept"; got := Handled status out |}
            :: finish status balances'
      | Some (inl e, _, out) =>
          [{| sent := "accept"; got := Crashed e out |}]
      | None =>
          {| sent := "accept"; got := Skipped |} :: finish "accept" balances
      end
  end.

Definition mainLoop (answers : list finishResp) : list exchange :=
  loop ∅ answers.

End Program.
End Part001.


(* ===================================================================== *)
(** ** A reference runtime, for running the handlers on concrete inputs *)
(* ===================================================================== *)

Module Reference.
Import JS Lib.

(** *** Decimal literals to binary64, rounded to nearest even *)

Definition float_of_SF (neg : bool) (x : SpecFloat.spec_float) : float :=
  SF2Prim (if neg then SpecFloat.SFopp x else x).

(** The double nearest to [m * 10 ^ e10], for [m >= 0].  A quotient is
    cut with 64 bits to spare and a sticky bit for what is left. *)
Definition float_of_decimal (neg : bool) (m e10 : Z) : float :=
  if m =? 0 then float_of_SF neg (SpecFloat.S754_zero false)
  else if 400 <? e10 then float_of_SF neg (SpecFloat.S754_infinity false)
  else if e10 + Z.log2 m + 1 <? -400 then float_of_SF neg (SpecFloat.S754_zero false)
  else if 0 <=? e10
  then float_of_SF neg (SpecFloat.binary_normalize prec emax (m * 10 ^ e10) 0 false)
  else
    let d := 10 ^ (- e10) in
    let s := Z.log2_up d + 64 in
    let q := (m * 2 ^ s) / d in
    let r := (m * 2 ^ s) mod d in
    let q' := 2 * q + (if r =? 0 then 0 else 1) in
    float_of_SF neg (SpecFloat.binary_normalize prec emax q' (- s - 1) false).

(** *** JSON text *)

Definition is_ws (c : ascii) : bool :=
  let n := code c in (n =? 32) || (n =? 9) || (n =? 10) || (n =? 13).

Definition is_digit (c : ascii) : bool :=
  let n := code c in (48 <=? n) && (n <=? 57).

Fixpoint skip_ws (s : string) : string :=
  match s with
  | String c rest => if is_ws c then skip_ws rest else s
  | EmptyString => s
  end.

Fixpoint strip_prefix (p s : string) : option string :=
  match p, s with
  | EmptyString, _ => Some s
  | String a p', String b s' => if Ascii.eqb a b then strip_prefix p' s' else None
  | _, EmptyString => None
  end.

(** A run of digits: their value after [acc], how many, and the rest. *)
Fixpoint digits (s : string) (acc : Z) (count : Z) : Z * Z * string :=
  match s with
  | String c rest =>
      if is_digit c then digits rest (10 * acc + (code c - 48)) (count + 1)
      else (acc, count, s)
  | EmptyString => (acc, count, s)
  end.

(** The UTF-8 bytes of a code point (a lone surrogate is written the
    same way). *)
Definition utf8 (cp : Z) : string :=
  let b n := ascii_of_N (Z.to_N n) in
  if cp <? 128 then String (b cp) EmptyString
  else if cp <? 2048
  then String (b (192 + cp / 64)) (String (b (128 + cp mod 64)) EmptyString)
  else if cp <? 65536
  then String (b (224 + cp / 4096))
         (String (b (128 + (cp / 64) mod 64))
            (String (b (128 + cp mod 64)) EmptyString))
  else String (b (240 + cp / 262144))
         (String (b (128 + (cp / 4096) mod 64))
            (String (b (128 + (cp / 64) mod 64))
               (String (b (128 + cp mod 64)) EmptyString))).

Definition hex4 (s : string) : option (Z * string) :=
  match s with
  | String a (String b (String c (String d rest))) =>
      match nibble a, nibble b, nibble c, nibble d with
      | Some x, Some y, Some z, Some w => Some (((x * 16 + y) * 16 + z) * 16 + w, rest)
      | _, _, _, _ => None
      end
  | _ => None
  end.

(** The characters of a string literal after its opening quote. *)
Fixpoint string_body (fuel : nat) (s : string) (acc : string) : option (string * string) :=
  match fuel with
  | O => None
  | S fuel' =>
      match s with
      | EmptyString => None
      | String c rest =>
          if Ascii.eqb c "034" then Some (acc, rest)
          else if Ascii.eqb c "\" then
            match rest with
            | String e rest' =>
                let plain (n : Z) :=
                  string_body fuel' rest' (acc +:+ String (ascii_of_N (Z.to_N n)) EmptyString) in
                if Ascii.eqb e "034" then plain 34
                else if Ascii.eqb e "\" then plain 92
                else if Ascii.eqb e "/" then plain 47
                else if Ascii.eqb e "b" then plain 8
                else if Ascii.eqb e "f" then plain 12
                else if Ascii.eqb e "n" then plain 10
                else if Ascii.eqb e "r" then plain 13
                else if Ascii.eqb e "t" then plain 9
                else if Ascii.eqb e "u" then
                  match hex4 rest' with
                  | Some (hi, after) =>
                      let single := string_body fuel' after (acc +:+ utf8 hi) in
                      if (55296 <=? hi) && (hi <=? 56319) then
                        match after with
                        | String "\" (String "u" low) =>
                            match hex4 low with
                            | Some (lo, after') =>
                                if (56320 <=? lo) && (lo <=? 57343)
                                then string_body fuel' after'
                                       (acc +:+ utf8 (65536 + (hi - 55296) * 1024 + (lo - 56320)))
                                else single
                            | None => single
                            end
                        | _ => single
                        end
                      else single
                  | None => None
                  end
                else None
            | EmptyString => None
            end
          else if code c <? 32 then None
          else string_body fuel' rest (acc +:+ String c EmptyString)
      end
  end.

(** [-? int frac? exp?] *)
Definition number (s : string) : option (float * string) :=
  let '(neg, s1) :=
    match s with
    | String "-" rest => (true, rest)
    | _ => (false, s)
    end in
  match s1 with
  | String c _ =>
      if is_digit c then
        let '(ip, icount, s2) := digits s1 0 0 in
        if Ascii.eqb c "0" && (1 <? icount) then None
        else
          let after_frac :=
            match s2 with
            | String "." rest =>
                let '(m, fcount, s3) := digits rest ip 0 in
                if fcount =? 0 then None else Some (m, fcount, s3)
            | _ => Some (ip, 0, s2)
            end in
          match after_frac with
          | None => None
          | Some (m, fcount, s3) =>
              let with_exp (esign : Z) (rest : string) :=
                let '(e, ecount, s4) := digits rest 0 0 in
                if ecount =? 0 then None
                else Some (float_of_decimal neg m (esign * e - fcount), s4) in
              match s3 with
              | String x rest =>
                  if Ascii.eqb x "e" || Ascii.eqb x "E" then
                    match rest with
                    | String "+" rest' => with_exp 1 rest'
                    | String "-" rest' => with_exp (-1) rest'
                    | _ => with_exp 1 rest
                    end
                  else Some (float_of_decimal neg m (- fcount), s3)
              | EmptyString => Some (float_of_decimal neg m (- fcount), s3)
              end
          end
      else None
  | EmptyString => None
  end.

Fixpoint parse_value (fuel : nat) (s : string) : option (value * string) :=
  match fuel with
  | O => None
  | S fuel' =>
      let elements :=
        fix elements (n : nat) (s : string) (acc : list value) : option (value * string) :=
          match n with
          | O => None
          | S n' =>
              match parse_value fuel' s with
              | Some (v, rest) =>
                  match skip_ws rest with
                  | String "," rest' => elements n' rest' (acc ++ [v])
                  | String "]" rest' => Some (VArray (acc ++ [v]), rest')
                  | _ => None
                  end
              | None => None
              end
          end in
      let members :=
        fix members (n : nat) (s : string) (acc : list (string * value)) : option (value * string) :=
          match n with
          | O => None
          | S n' =>
              match skip_ws s with
              | String "034" body =>
                  match string_body (S (String.length body)) body EmptyString with
                  | Some (k, rest) =>
                      match skip_ws rest with
                      | String ":" rest' =>
                          match parse_value fuel' rest' with
                          | Some (v, rest'') =>
                              match skip_ws rest'' with
                              | String "," after => members n' after (acc ++ [(k, v)])
                              | String "}" after => Some (VObject (acc ++ [(k, v)]), after)
                              | _ => None
                              end
                          | None => None
                          end
                      | _ => None
                      end
                  | None => None
                  end
              | _ => None
              end
          end in
      match skip_ws s with
      | String "{" rest =>
          match skip_ws rest with
          | String "}" after => Some (VObject [], after)
          | _ => members fuel' rest []
          end
      | String "[" rest =>
          match skip_ws rest with
          | String "]" after => Some (VArray [], after)
          | _ => elements fuel' rest []
          end
      | String "034" body =>
          match string_body (S (String.length body)) body EmptyString with
          | Some (str, rest) => Some (VString str, rest)
          | None => None
          end
      | String _ _ as s' =>
          match strip_prefix "null" s', strip_prefix "true" s', strip_prefix "false" s' with
          | Some after, _, _ => Some (VNull, after)
          | _, Some after, _ => Some (VBool true, after)
          | _, _, Some after => Some (VBool false, after)
          | _, _, _ =>
              match number s' with
              | Some (f, after) => Some (VNumber f, after)
              | None => None
              end
          end
      | EmptyString => None
      end
  end.

(** [JSON.parse(text)]: one value, white space around it, nothing else. *)
Definition parse (s : string) : option value :=
  match parse_value (S (String.length s)) s with
  | Some (v, rest) =>
      match skip_ws rest with
      | EmptyString => Some v
      | _ => None
      end
  | None => None
  end.

(** *** Numbers to text and back *)

Fixpoint decimal_digits (fuel : nat) (n : Z) (acc : string) : string :=
  match fuel with
  | O => acc
  | S fuel' =>
      let acc' := String (ascii_of_N (Z.to_N (48 + n mod 10))) acc in
      if n / 10 =? 0 then acc' else decimal_digits fuel' (n / 10) acc'
  end.

(** The decimal digits of [n >= 0]. *)
Definition decimal (n : Z) : string :=
  decimal_digits (S (Z.to_nat (Z.log2 n))) n EmptyString.

(** [num / den] against [10 ^ j]. *)
Definition below_pow10 (num den j : Z) : bool :=
  if 0 <=? j then num <? 10 ^ j * den else num * 10 ^ (- j) <? den.

(** The [n] with [10 ^ (n - 1) <= num / den < 10 ^ n]. *)
Definition magnitude (num den : Z) : Z :=
  let guess := ((Z.log2 num - Z.log2 den) * 30103) / 100000 in
  let fix up (fuel : nat) (n : Z) : Z :=
    match fuel with
    | O => n
    | S fuel' => if below_pow10 num den n then n else up fuel' (n + 1)
    end in
  let fix down (fuel : nat) (n : Z) : Z :=
    match fuel with
    | O => n
    | S fuel' => if below_pow10 num den (n - 1) then down fuel' (n - 1) else n
    end in
  down 8%nat (up 8%nat guess).

(** The shortest digit string [s] (of [k] digits) and exponent [n] with
    [s * 10 ^ (n - k)] rounding to the double [num / den], the closest
    such [s] when two qualify. *)
Definition shortest (x : float) (num den : Z) : Z * Z * Z :=
  let n := magnitude num den in
  let fits (c k : Z) : bool := PrimFloat.eqb (float_of_decimal false c (n - k)) x in
  (* |c * 10^(n-k) - num/den|, over the common denominator *)
  let gap (c k : Z) : Z :=
    if 0 <=? n - k
    then Z.abs (c * 10 ^ (n - k) * den - num)
    else Z.abs (c * den - num * 10 ^ (k - n)) in
  let floor_scaled (k : Z) : Z :=
    if 0 <=? k - n then (num * 10 ^ (k - n)) / den else num / (den * 10 ^ (n - k)) in
  let fix search (fuel : nat) (k : Z) : Z * Z * Z :=
    match fuel with
    | O => (floor_scaled k, n, k)
    | S fuel' =>
        let lo := floor_scaled k in
        let hi := lo + 1 in
        let pick (c : Z) := if c =? 10 ^ k then (10 ^ (k - 1), n + 1, k) else (c, n, k) in
        match fits lo k, fits hi k with
        | true, true => if gap hi k <? gap lo k then pick hi else pick lo
        | true, false => pick lo
        | false, true => pick hi
        | false, false => search fuel' (k + 1)
        end
    end in
  search 17%nat 1.

Fixpoint strip_zeros (fuel : nat) (s k : Z) : Z * Z :=
  match fuel with
  | O => (s, k)
  | S fuel' => if (1 <? k) && (s mod 10 =? 0) then strip_zeros fuel' (s / 10) (k - 1) else (s, k)
  end.

(** Number::toString of a positive finite double. *)
Definition positive_toString (x : float) (num den : Z) : string :=
  let '(s0, n, k0) := shortest x num den in
  let '(s, k) := strip_zeros 20%nat s0 k0 in
  let ds := decimal s in
  if (k <=? n) && (n <=? 21) then ds +:+ zeros (Z.to_nat (n - k)) EmptyString
  else if (0 <? n) && (n <=? 21)
  then String.substring 0 (Z.to_nat n) ds +:+ "." +:+
       String.substring (Z.to_nat n) (Z.to_nat (k - n)) ds
  else if (-6 <? n) && (n <=? 0)
  then "0." +:+ zeros (Z.to_nat (- n)) ds
  else
    let e := n - 1 in
    let es := (if e <? 0 then "-" else "+") +:+ decimal (Z.abs e) in
    if k =? 1 then ds +:+ "e" +:+ es
    else String.substring 0 1 ds +:+ "." +:+
         String.substring 1 (Z.to_nat (k - 1)) ds +:+ "e" +:+ es.

(** Number::toString *)
Definition toString (x : float) : string :=
  match Prim2SF x with
  | SpecFloat.S754_nan => "NaN"
  | SpecFloat.S754_zero _ => "0"
  | SpecFloat.S754_infinity neg => if neg then "-Infinity" else "Infinity"
  | SpecFloat.S754_finite neg m e =>
      let num := if 0 <=? e then Z.pos m * 2 ^ e else Z.pos m in
      let den := if 0 <=? e then 1 else 2 ^ (- e) in
      (if neg then "-" else "") +:+ positive_toString (PrimFloat.abs x) num den
  end.

Definition is_space (c : ascii) : bool :=
  let n := code c in ((9 <=? n) && (n <=? 13)) || (n =? 32).

Fixpoint trim_left (s : string) : string :=
  match s with
  | String c rest => if is_space c then trim_left rest else s
  | EmptyString => s
  end.

Fixpoint rev_string (s acc : string) : string :=
  match s with
  | String c rest => rev_string rest (String c acc)
  | EmptyString => acc
  end.

Definition trim (s : string) : string :=
  rev_string (trim_left (rev_string (trim_left s) EmptyString)) EmptyString.

(** Digits of base [b] to the end of the text. *)
Fixpoint radix_value (b : Z) (s : string) (acc : Z) : option Z :=
  match s with
  | EmptyString => Some acc
  | String c rest =>
      match nibble c with
      | Some d => if d <? b then radix_value b rest (b * acc + d) else None
      | None => None
      end
  end.

(** StringToNumber on ASCII text: a StrNumericLiteral between white
    space, or NaN. *)
Definition toNumber (text : string) : float :=
  let s := trim text in
  let radix (b : Z) (body : string) : float :=
    match body, radix_value b body 0 with
    | String _ _, Some n => float_of_decimal false n 0
    | _, _ => PrimFloat.nan
    end in
  match s with
  | EmptyString => PrimFloat.zero
  | String "0" (String "x" body) | String "0" (String "X" body) => radix 16 body
  | String "0" (String "o" body) | String "0" (String "O" body) => radix 8 body
  | String "0" (String "b" body) | String "0" (String "B" body) => radix 2 body
  | _ =>
      let '(neg, s1) :=
        match s with
        | String "-" rest => (true, rest)
        | String "+" rest => (false, rest)
        | _ => (false, s)
        end in
      if String.eqb s1 "Infinity"
      then (if neg then PrimFloat.neg_infinity else PrimFloat.infinity)
      else
        let '(ip, icount, s2) := digits s1 0 0 in
        let '(m, fcount, s3) :=
          match s2 with
          | String "." rest => digits rest ip 0
          | _ => (ip, 0, s2)
          end in
        if icount + fcount =? 0 then PrimFloat.nan
        else
          let finish (e : Z) (rest : string) : float :=
            match rest with
            | EmptyString => float_of_decimal neg m (e - fcount)
            | _ => PrimFloat.nan
            end in
          let with_exp (esign : Z) (rest : string) : float :=
            let '(e, ecount, s4) := digits rest 0 0 in
            if ecount =? 0 then PrimFloat.nan else finish (esign * e) s4 in
          match s3 with
          | String x rest =>
              if Ascii.eqb x "e" || Ascii.eqb x "E" then
                match rest with
                | String "+" rest' => with_exp 1 rest'
                | String "-" rest' => with_exp (-1) rest'
                | _ => with_exp 1 rest
                end
              else PrimFloat.nan
          | EmptyString => finish 0 s3
          end
  end.

(** Byte-wise order, which is the order of code points. *)
Fixpoint lessThan (a b : string) : bool :=
  match a, b with
  | _, EmptyString => false
  | EmptyString, String _ _ => true
  | String x a', String y b' =>
      if code x <? code y then true
      else if code y <? code x then false
      else lessThan a' b'
  end.

(** What V8 prints for a member of [Object.prototype]: the prototype
    itself under [__proto__], the function [Object] under
    [constructor], and a function of the member's name otherwise. *)
Definition native (k : string) : string :=
  if String.eqb k "__proto__" then "[object Object]"
  else if String.eqb k "constructor" then "function Object() { [native code] }"
  else "function " +:+ k +:+ "() { [native code] }".

(** The reference runtime: text is taken as its UTF-8 bytes (exact for
    well-formed input without a byte-order mark), and viem's caches are
    empty, as in a process that has made no call yet. *)
#[export] Instance runtime : Runtime := {|
  TextDecoder_decode := string_of_list_byte;
  JSON_parse := parse;
  Number_toString := toString;
  StringToNumber := toNumber;
  native_text := native;
  String_lessThan := lessThan;
  viem_cached := fun _ => false
|}.

End Reference.

(* ===================================================================== *)
(** ** Concrete requests, for the worked examples *)
(* ===================================================================== *)

Module Examples.
Import JS Lib Host.

Definition quote : string := String "034" EmptyString.

Definition alice : string := "0x1111111111111111111111111111111111111111".
Definition bob : string := "0x2222222222222222222222222222222222222222".

Definition alice_bytes : list Byte.byte := repeat Byte.x11 20.

(** The bytes of the address whose checksummed form is
    [0x5aAeb6053F3E94C9b9A09f33669435E7Ef1BeAed] (an EIP-55 test case). *)
Definition carol_bytes : list Byte.byte :=
  [Byte.x5a; Byte.xae; Byte.xb6; Byte.x05; Byte.x3f; Byte.x3e; Byte.x94;
   Byte.xc9; Byte.xb9; Byte.xa0; Byte.x9f; Byte.x33; Byte.x66; Byte.x94;
   Byte.x35; Byte.xe7; Byte.xef; Byte.x1b; Byte.xea; Byte.xed].

Definition carol : string := "0x5aAeb6053F3E94C9b9A09f33669435E7Ef1BeAed".
Definition carol_lower : string := "0x5aaeb6053f3e94c9b9a09f33669435e7ef1beaed".

(** A request whose payload is the UTF-8 text [s]. *)
Definition text_request (s : string) : requestData :=
  {| payload := list_byte_of_string s; metadata := Some bob |}.

(** [{"k1":"v1","k2":"v2"}] *)
Definition json2 (k1 v1 k2 v2 : string) : string :=
  "{" +:+ quote +:+ k1 +:+ quote +:+ ":" +:+ quote +:+ v1 +:+ quote +:+ ","
      +:+ quote +:+ k2 +:+ quote +:+ ":" +:+ quote +:+ v2 +:+ quote +:+ "}".

(** [{"win": win, "loss": loss}] *)
Definition settle_request (win loss : string) : requestData :=
  text_request (json2 "win" win "loss" loss).

(** [{"action":"balance","user": user}] *)
Definition balance_request (user : string) : requestData :=
  text_request (json2 "action" "balance" "user" user).

(** The 32 bytes of an amount below [2 ^ 256], big-endian. *)
Definition amount_bytes (n : Z) : list Byte.byte :=
  omap (fun i => Byte.of_N (Z.to_N ((n / 256 ^ (31 - Z.of_nat i)) mod 256))) (seq 0 32).

(** The binary deposit of [n] to the address [who] spells. *)
Definition deposit_request (who : list Byte.byte) (n : Z) : requestData :=
  {| payload := who ++ amount_bytes n; metadata := Some bob |}.

(** [{"action": action, k1: "v1", k2: "v2", "amount": amount}], the
    amount given as JSON text. *)
Definition action_request (action k1 v1 k2 v2 amount : string) : requestData :=
  text_request
    ("{" +:+ quote +:+ "action" +:+ quote +:+ ":" +:+ quote +:+ action +:+ quote +:+ ","
         +:+ quote +:+ k1 +:+ quote +:+ ":" +:+ quote +:+ v1 +:+ quote +:+ ","
         +:+ quote +:+ k2 +:+ quote +:+ ":" +:+ quote +:+ v2 +:+ quote +:+ ","
         +:+ quote +:+ "amount" +:+ quote +:+ ":" +:+ amount +:+ "}").

(** [{"action":"deposit","sender": sender,"memo":"","amount": amount}] *)
Definition json_deposit (sender amount : string) : requestData :=
  action_request "deposit" "sender" sender "memo" "" amount.

(** [{"action":"transfer","from": from,"to": to,"amount": amount}] *)
Definition json_transfer (from to amount : string) : requestData :=
  action_request "transfer" "from" from "to" to amount.

(** Fifty-two digits [1]: a JSON number, and 52 bytes. *)
Definition digits52 : requestData :=
  {| payload := repeat Byte.x31 52; metadata := Some bob |}.

(** The ledger of part_000 after a deposit of 1000 to Carol. *)
Definition carol_funded : gmap string Z :=
  ledger_of (Part000.handleAdvance (H := Reference.runtime)
               (deposit_request carol_bytes 1000) ∅).

(** Twenty-one bytes: Alice's address and one byte of amount. *)
Definition short_deposit : requestData :=
  {| payload := alice_bytes ++ [Byte.x01]; metadata := Some bob |}.

(** Two deposits of [2 ^ 255] to Alice, through part_000's handler. *)
Definition big_deposit : requestData := deposit_request alice_bytes (2 ^ 255).

Definition after_big_deposits : gmap string Z :=
  ledger_of (Part000.handleAdvance (H := Reference.runtime) big_deposit
    (ledger_of (Part000.handleAdvance (H := Reference.runtime) big_deposit ∅))).

End Examples.

(* ===================================================================== *)
(** ** What the theorems observe: payouts, canonical keys, silence *)

Module Views.
Import JS Lib Host.

(** The amount a voucher's payload spells; any other event pays
    nothing. *)
Definition paid (e : event) : Z :=
  match e with
  | Voucher _ payload =>
      match BigInt payload with
      | inr n => n
      | inl _ => 0
      end
  | _ => 0
  end.

(** What the vouchers among the events pay, in all. *)
Definition paid_out (out : list event) : Z :=
  fold_right (fun e acc => paid e + acc) 0 out.

(** Every key is an address in the casing [getAddress] gives it. *)
Definition canonical_keys `{Runtime} (balances : gmap string Z) : Prop :=
  forall k n, balances !! k = Some n -> getAddress (VString k) = inr k.

(** The answers of the host that carry an Advance request. *)
Definition is_advance (a : finishResp) : bool :=
  match a with
  | Request request_type _ => String.eqb request_type "advance_state"
  | NoInput => false
  end.

(** A computation that posts nothing, whatever it returns. *)
Definition silent {L A} (c : M L A) : Prop :=
  forall s, events_of (c s) = [].

(** A computation that has posted nothing when it throws. *)
Definition quiet_failure {L A} (c : M L A) : Prop :=
  forall s e s' out, c s = (inl e, s', out) -> out = [].

End Views.

(** ** Further sample requests *)

Module Samples.
Import JS Lib Host Examples.

(** [{"action":"transfer","from": from,"to":{"toString":1},"amount": amount}]:
    a destination that is an object with a [toString] of its own. *)
Definition transfer_to_object (from amount : string) : requestData :=
  text_request
    ("{" +:+ quote +:+ "action" +:+ quote +:+ ":" +:+ quote +:+ "transfer" +:+ quote +:+ ","
         +:+ quote +:+ "from" +:+ quote +:+ ":" +:+ quote +:+ from +:+ quote +:+ ","
         +:+ quote +:+ "to" +:+ quote +:+ ":{" +:+ quote +:+ "toString" +:+ quote +:+ ":1},"
         +:+ quote +:+ "amount" +:+ quote +:+ ":" +:+ amount +:+ "}").

(** A deposit whose amount is the text [abc]. *)
Definition deposit_of_text (sender : string) : requestData :=
  json_deposit sender (quote +:+ "abc" +:+ quote).


End Samples.

(* ===================================================================== *)
(** * Properties *)
(* ===================================================================== *)

(** ** Bytes, hexadecimal text and addresses *)

Section LibFacts.
Import JS Lib.
Context `{Runtime}.

Lemma byte_val_range (b : Byte.byte) : 0 <= byte_val b < 256.
Proof.
  unfold byte_val. pose proof (Byte.to_N_bounded b). lia.
Qed.

Lemma nibble_hex_digit (n : Z) : 0 <= n < 16 -> nibble (hex_digit n) = Some n.
Proof.
  intros Hn.
  destruct n as [| p | p]; [reflexivity | | lia].
  do 5 (destruct p as [p | p |]; try lia; try reflexivity).
Qed.

Lemma lower_hex_digit (n : Z) : 0 <= n < 16 -> lower (hex_digit n) = hex_digit n.
Proof.
  intros Hn.
  destruct n as [| p | p]; [reflexivity | | lia].
  do 5 (destruct p as [p | p |]; try lia; try reflexivity).
Qed.

Lemma byte_nibbles (b : Byte.byte) :
  0 <= byte_val b / 16 < 16 /\ 0 <= byte_val b mod 16 < 16.
Proof.
  pose proof (byte_val_range b). split.
  - split; [apply Z.div_pos; lia | apply Z.div_lt_upper_bound; lia].
  - apply Z.mod_pos_bound. lia.
Qed.

(** Reading back the digits [hexlify] wrote gives the big-endian value. *)
Lemma hex_value_hex_of_bytes (bs : list Byte.byte) (acc : Z) :
  hex_value acc (hex_of_bytes bs)
  = Some (fold_left (fun a b => 256 * a + byte_val b) bs acc).
Proof.
  revert acc. induction bs as [| b bs IH]; intros acc; [reflexivity |].
  destruct (byte_nibbles b) as [Hhi Hlo].
  cbn [hex_of_bytes hex_value fold_left].
  rewrite (nibble_hex_digit _ Hhi), (nibble_hex_digit _ Hlo), IH.
  do 2 f_equal. pose proof (Z.div_mod (byte_val b) 16). lia.
Qed.

Lemma BigInt_hexlify (bs : list Byte.byte) :
  bs <> [] -> BigInt (hexlify bs) = inr (be_uint bs).
Proof.
  destruct bs as [| b bs]; [congruence | intros _].
  unfold BigInt, hexlify.
  change (hex_of_bytes (b :: bs))
    with (String (hex_digit (byte_val b / 16))
            (String (hex_digit (byte_val b mod 16)) (hex_of_bytes bs))).
  cbv iota beta.
  change (String (hex_digit (byte_val b / 16))
            (String (hex_digit (byte_val b mod 16)) (hex_of_bytes bs)))
    with (hex_of_bytes (b :: bs)).
  now rewrite hex_value_hex_of_bytes.
Qed.

Lemma BigInt_hexlify_nil : BigInt (hexlify []) = inl (Fault (BigIntSyntaxError "0x")).
Proof. reflexivity. Qed.

Lemma be_uint_nonneg (bs : list Byte.byte) : 0 <= be_uint bs.
Proof.
  unfold be_uint.
  assert (Hgen : forall acc, 0 <= acc ->
            0 <= fold_left (fun a b => 256 * a + byte_val b) bs acc).
  { induction bs as [| b bs IH]; intros acc Hacc; [exact Hacc |].
    cbn [fold_left]. apply IH. pose proof (byte_val_range b). lia. }
  apply Hgen. lia.
Qed.

Lemma length_hex_of_bytes (bs : list Byte.byte) :
  String.length (hex_of_bytes bs) = (2 * length bs)%nat.
Proof.
  induction bs as [| b bs IH]; [reflexivity |].
  cbn [hex_of_bytes String.length length]. rewrite IH. lia.
Qed.

Lemma all_hex_hex_of_bytes (bs : list Byte.byte) : all_hex (hex_of_bytes bs) = true.
Proof.
  induction bs as [| b bs IH]; [reflexivity |].
  destruct (byte_nibbles b) as [Hhi Hlo].
  cbn [hex_of_bytes all_hex]. unfold is_hex.
  now rewrite (nibble_hex_digit _ Hhi), (nibble_hex_digit _ Hlo), IH.
Qed.

(** Twenty bytes always spell an address. *)
Lemma isAddress_hexlify (bs : list Byte.byte) :
  length bs = 20%nat -> isAddress (hexlify bs) = true.
Proof.
  intros Hlen. unfold isAddress, hexlify.
  rewrite length_hex_of_bytes, Hlen, all_hex_hex_of_bytes. reflexivity.
Qed.

Lemma getAddress_hexlify (bs : list Byte.byte) :
  length bs = 20%nat ->
  getAddress (VString (hexlify bs)) = inr (checksumAddress (hexlify bs)).
Proof.
  intros Hlen. unfold getAddress. now rewrite isAddress_hexlify.
Qed.

(** What [getAddress] returns starts with [0x]: it names no member of
    [Object.prototype], and it is not the empty string. *)
Lemma getAddress_inv (a : value) (r : string) :
  getAddress a = inr r -> exists s, isAddress s = true /\ r = checksumAddress s.
Proof.
  unfold getAddress. destruct a as [| | b | f | s | elements | fields | name];
    try discriminate.
  - destruct (isAddress s) eqn:Hs; [| discriminate]. intros [= <-]. eauto.
  - destruct (ToString (VArray elements)) as [e | s]; [discriminate |]. cbn [rbind].
    destruct (isAddress s) eqn:Hs; [| discriminate].
    destruct (viem_cached s); [| discriminate]. intros [= <-]. eauto.
  - destruct (ToString (VObject fields)) as [e | s]; [discriminate |]. cbn [rbind].
    destruct (isAddress s) eqn:Hs; [| discriminate].
    destruct (viem_cached s); [| discriminate]. intros [= <-]. eauto.
Qed.

Lemma getAddress_shape (a : value) (r : string) :
  getAddress a = inr r -> exists body, r = String "0" (String "x" body).
Proof.
  intros Hr. destruct (getAddress_inv _ _ Hr) as (s & _ & ->).
  unfold checksumAddress. eauto.
Qed.

Lemma getAddress_not_inherited (a : value) (r : string) :
  getAddress a = inr r -> inherited r = false /\ truthy (VString r) = true.
Proof.
  intros Hr. destruct (getAddress_shape _ _ Hr) as [body ->]. split; reflexivity.
Qed.

(** Changing the accumulator shifts the value read. *)
Lemma hex_value_acc (s : string) (a b va : Z) :
  hex_value a s = Some va ->
  hex_value b s = Some (va + (b - a) * 16 ^ Z.of_nat (String.length s)).
Proof.
  revert a b va. induction s as [| c s IH]; intros a b va Ha.
  - cbn in *. injection Ha as <-. f_equal. lia.
  - cbn [hex_value String.length] in *.
    destruct (nibble c) as [d |]; [| discriminate].
    rewrite (IH _ (16 * b + d) _ Ha). f_equal.
    rewrite Nat2Z.inj_succ, Z.pow_succ_r by lia. lia.
Qed.

(** The digits [toString(16)] writes in front of [acc] read back as
    the number, above what [acc] reads as. *)
Lemma hex_value_hex_digits (fuel : nat) (n : Z) (acc : string) (v : Z) :
  0 <= n < 16 ^ Z.of_nat fuel ->
  hex_value 0 acc = Some v ->
  hex_value 0 (hex_digits fuel n acc)
  = Some (n * 16 ^ Z.of_nat (String.length acc) + v).
Proof.
  revert n acc v. induction fuel as [| fuel IH]; intros n acc v Hn Hacc.
  - cbn in *. rewrite Hacc. f_equal. lia.
  - cbn [hex_digits].
    assert (Hmod : 0 <= n mod 16 < 16) by (apply Z.mod_pos_bound; lia).
    assert (Hhead : hex_value 0 (String (hex_digit (n mod 16)) acc)
                    = Some (v + (n mod 16) * 16 ^ Z.of_nat (String.length acc))).
    { cbn [hex_value]. rewrite (nibble_hex_digit _ Hmod).
      rewrite (hex_value_acc _ _ (16 * 0 + n mod 16) _ Hacc). f_equal. lia. }
    pose proof (Z.div_mod n 16 ltac:(lia)) as Hdm.
    destruct (Z.eqb_spec (n / 16) 0) as [Hz | Hnz].
    + rewrite Hhead. f_equal. nia.
    + assert (Hdiv : 0 <= n / 16 < 16 ^ Z.of_nat fuel).
      { rewrite Nat2Z.inj_succ, Z.pow_succ_r in Hn by lia.
        split; [apply Z.div_pos; lia | apply Z.div_lt_upper_bound; lia]. }
      rewrite (IH (n / 16) _ _ Hdiv Hhead).
      f_equal. cbn [String.length].
      rewrite Nat2Z.inj_succ, Z.pow_succ_r by lia. nia.
Qed.

Lemma length_hex_digits (fuel : nat) (n : Z) (acc : string) (k : nat) :
  0 <= n < 16 ^ Z.of_nat k -> (1 <= k)%nat ->
  (String.length (hex_digits fuel n acc) <= String.length acc + k)%nat.
Proof.
  revert n acc k. induction fuel as [| fuel IH]; intros n acc k Hn Hk.
  - cbn. lia.
  - cbn [hex_digits].
    destruct (Z.eqb_spec (n / 16) 0) as [Hz | Hnz].
    + cbn [String.length]. lia.
    + destruct k as [| [| k]]; [lia | |].
      * change (16 ^ Z.of_nat 1) with 16 in Hn.
        exfalso. apply Hnz. apply Z.div_small. lia.
      * specialize (IH (n / 16) (String (hex_digit (n mod 16)) acc) (S k)).
        cbn [String.length] in IH.
        assert (0 <= n / 16 < 16 ^ Z.of_nat (S k)).
        { rewrite (Nat2Z.inj_succ (S k)), Z.pow_succ_r in Hn by lia.
          split; [apply Z.div_pos; lia | apply Z.div_lt_upper_bound; lia]. }
        specialize (IH ltac:(assumption) ltac:(lia)). lia.
Qed.

Lemma hex_value_zeros (k : nat) (s : string) :
  hex_value 0 (zeros k s) = hex_value 0 s.
Proof. induction k as [| k IH]; [reflexivity |]. cbn [zeros hex_value]. exact IH. Qed.

Lemma length_zeros (k : nat) (s : string) :
  String.length (zeros k s) = (k + String.length s)%nat.
Proof. induction k as [| k IH]; [reflexivity |]. cbn [zeros String.length]. now rewrite IH. Qed.

Lemma toString16_value (n : Z) :
  0 <= n -> hex_value 0 (toString16 n) = Some n.
Proof.
  intros Hn. unfold toString16.
  rewrite (hex_value_hex_digits _ n EmptyString 0); [f_equal; cbn; lia | | reflexivity].
  split; [exact Hn |].
  destruct (Z.eq_dec n 0) as [-> | Hnz]; [reflexivity |].
  pose proof (Z.log2_spec n ltac:(lia)) as [_ Hup].
  pose proof (Z.log2_nonneg n) as Hlog.
  rewrite Nat2Z.inj_succ, Z2Nat.id by lia.
  eapply Z.lt_le_trans; [exact Hup |].
  change 16 with (2 ^ 4). rewrite <- Z.pow_mul_r by lia.
  apply Z.pow_le_mono_r; lia.
Qed.

(** A value below [2 ^ 256] fits the 32 bytes of a voucher, and the
    payload spells it. *)
Lemma toBeHex_32 (n : Z) :
  0 <= n < 2 ^ 256 ->
  exists hex, toBeHex n 32 = inr hex /\ BigInt hex = inr n /\
              String.length hex = 66%nat.
Proof.
  intros Hn. unfold toBeHex.
  destruct (Z.ltb_spec n 0) as [Hneg | _]; [lia |].
  assert (Hlen : (String.length (toString16 n) <= 64)%nat).
  { unfold toString16.
    pose proof (length_hex_digits (S (Z.to_nat (Z.log2 n))) n EmptyString 64) as Hl.
    cbn [String.length] in Hl. apply Hl; [| lia].
    change (16 ^ Z.of_nat 64) with (2 ^ 256). exact Hn. }
  destruct (Nat.leb_spec (String.length (toString16 n)) (32 * 2)) as [_ | Hgt];
    [| lia].
  eexists. split; [reflexivity |].
  set (padded := zeros (32 * 2 - String.length (toString16 n)) (toString16 n)).
  assert (Hpl : String.length padded = 64%nat).
  { unfold padded. rewrite length_zeros. lia. }
  assert (Hpv : hex_value 0 padded = Some n).
  { unfold padded. rewrite hex_value_zeros. now apply toString16_value. }
  destruct padded as [| c rest]; [discriminate |].
  split.
  - unfold BigInt. now rewrite Hpv.
  - cbn [String.length] in *. lia.
Qed.

(** A value of [2 ^ 256] or more does not fit. *)
Lemma toBeHex_32_overflow : toBeHex (2 ^ 256) 32 = inl (Fault (NumericFault (2 ^ 256) 32)).
Proof. vm_compute. reflexivity. Qed.

Lemma nibble_range (c : ascii) (d : Z) : nibble c = Some d -> 0 <= d < 16.
Proof.
  unfold nibble.
  destruct ((48 <=? code c) && (code c <=? 57)) eqn:E1;
    [intros [= <-]; apply andb_prop in E1 as [?%Z.leb_le ?%Z.leb_le]; lia |].
  destruct ((97 <=? code c) && (code c <=? 102)) eqn:E2;
    [intros [= <-]; apply andb_prop in E2 as [?%Z.leb_le ?%Z.leb_le]; lia |].
  destruct ((65 <=? code c) && (code c <=? 70)) eqn:E3;
    [intros [= <-]; apply andb_prop in E3 as [?%Z.leb_le ?%Z.leb_le]; lia |].
  discriminate.
Qed.

(** Hexadecimal digits spell a number below 16 to the power of their
    count. *)
Lemma hex_value_bound (s : string) (acc v : Z) :
  0 <= acc -> hex_value acc s = Some v ->
  v < (acc + 1) * 16 ^ Z.of_nat (String.length s).
Proof.
  revert acc v. induction s as [| c s IH]; intros acc v Hacc Hv.
  - cbn in *. injection Hv as <-. lia.
  - cbn [hex_value String.length] in *.
    destruct (nibble c) as [d |] eqn:Hd; [| discriminate].
    pose proof (nibble_range _ _ Hd) as Hrange.
    specialize (IH (16 * acc + d) v ltac:(lia) Hv).
    rewrite Nat2Z.inj_succ, Z.pow_succ_r by lia.
    pose proof (Z.pow_pos_nonneg 16 (Z.of_nat (String.length s)) ltac:(lia) ltac:(lia)).
    nia.
Qed.

(** Every value of [2 ^ 256] or more makes [toBeHex(v, 32)] throw. *)
Lemma toBeHex_32_large (n : Z) :
  2 ^ 256 <= n -> toBeHex n 32 = inl (Fault (NumericFault n 32)).
Proof.
  intros Hn. unfold toBeHex.
  destruct (Z.ltb_spec n 0) as [Hneg | _]; [lia |].
  destruct (Nat.leb_spec (String.length (toString16 n)) (32 * 2)) as [Hlen | _];
    [| reflexivity].
  exfalso.
  pose proof (hex_value_bound _ 0 n ltac:(lia) (toString16_value n ltac:(lia))) as Hlt.
  assert (Hpow : 16 ^ Z.of_nat (String.length (toString16 n)) <= 16 ^ Z.of_nat 64).
  { apply Z.pow_le_mono_r; lia. }
  change (16 ^ Z.of_nat 64) with (2 ^ 256) in Hpow. lia.
Qed.


End LibFacts.

(** ** part_000: decoding a deposit *)

Section Part000Decode.
Import JS Lib Host Part000.
Context `{Runtime}.

Lemma slice_length_address (payload : list Byte.byte) :
  (20 <= length payload)%nat -> length (slice 0 20 payload) = 20%nat.
Proof.
  intros Hlen. unfold slice. rewrite length_firstn, length_skipn. lia.
Qed.

Lemma slice_amount_nonempty (payload : list Byte.byte) :
  (20 < length payload)%nat -> slice 20 52 payload <> [].
Proof.
  intros Hlen Hnil. apply (f_equal (@length _)) in Hnil.
  unfold slice in Hnil. rewrite length_firstn, length_skipn in Hnil.
  cbn [length] in Hnil. lia.
Qed.

Lemma parseDepositPayload_long (payload : list Byte.byte) :
  (52 <= length payload)%nat ->
  parseDepositPayload payload
  = inr (checksumAddress (hexlify (slice 0 20 payload)),
         be_uint (slice 20 52 payload)).
Proof.
  intros Hlen. unfold parseDepositPayload, try_result.
  destruct (Nat.ltb_spec (length payload) 52) as [Hlt | _]; [lia |].
  rewrite getAddress_hexlify by (apply slice_length_address; lia).
  cbn [rbind].
  rewrite BigInt_hexlify by (apply slice_amount_nonempty; lia).
  reflexivity.
Qed.

Lemma parseDepositPayload_short (payload : list Byte.byte) :
  (length payload < 52)%nat ->
  parseDepositPayload payload
  = inl (Error [Lit "Error parsing deposit payload: ";
                Lit "Payload too short for a deposit."]).
Proof.
  intros Hlen. unfold parseDepositPayload, try_result.
  destruct (Nat.ltb_spec (length payload) 52) as [_ | Hge]; [reflexivity | lia].
Qed.

(** A decoded deposit names an address and a non-negative amount. *)
Lemma parseDepositPayload_sound (payload : list Byte.byte) (r : string) (a : Z) :
  parseDepositPayload payload = inr (r, a) ->
  truthy (VString r) = true /\ inherited r = false /\ 0 <= a.
Proof.
  intros Hp.
  destruct (Nat.ltb_spec (length payload) 52) as [Hlt | Hge].
  - rewrite parseDepositPayload_short in Hp by exact Hlt. discriminate.
  - rewrite parseDepositPayload_long in Hp by exact Hge.
    injection Hp as <- <-. repeat split.
    apply be_uint_nonneg.
Qed.

End Part000Decode.

(** ** part_000: what [handleAdvance] does on each path *)

Section Part000Advance.
Import JS Lib Host Part000.
Context `{Runtime}.

Ltac run :=
  unfold handleAdvance, handleInspect, processDeposit, generateVoucher,
    sendNotice, sendReport, try_catch, mbind, lift, get, put, emit, mret, mthrow.

Lemma processDeposit_ok (recipient : string) (amount : Z) (balances : ledger) :
  truthy (VString recipient) = true ->
  processDeposit recipient amount balances
  = (inr tt, <[recipient := balanceOf balances recipient + amount]> balances, []).
Proof.
  intros Hr. run. rewrite Hr. cbn [negb]. unfold balanceOf.
  destruct (balances !! recipient) as [n |] eqn:Hlook; cbn [falsy].
  - destruct (Z.eqb_spec n 0) as [-> | Hn]; cbn.
    + rewrite lookup_insert_eq. cbn. now rewrite insert_insert_eq.
    + now rewrite Hlook.
  - cbn. rewrite lookup_insert_eq. cbn. now rewrite insert_insert_eq.
Qed.

Lemma getProp_object (parsed : value) (k : string) :
  truthy parsed && typeof_object parsed = true ->
  exists x, getProp parsed k = inr x.
Proof.
  destruct parsed; cbn; try discriminate; eauto.
  destruct (own fields k); eauto.
Qed.

(** The binary path. *)
Lemma handleAdvance_binary (requestData : requestData) (balances : ledger) :
  as_json requestData = None ->
  handleAdvance requestData balances
  = match parseDepositPayload (payload requestData), metadata requestData with
    | inl e, _ => (inr "reject", balances, [Report (Lit "Error: " :: message e)])
    | inr _, None =>
        (inr "reject", balances,
         [Report [Lit "Error: ";
                  OfFault (TypeError "Cannot read properties of undefined")]])
    | inr (recipient, amount), Some _ =>
        let total := balanceOf balances recipient + amount in
        (inr "accept", <[recipient := total]> balances,
         [Notice [Lit "Deposit OK: recipient="; Lit recipient;
                  Lit ", newBalance="; OfBigInt total]])
    end.
Proof.
  unfold as_json. intros Hjson.
  assert (Hcond : (let '(parsed, isJson) :=
                     match JSON_parse (TextDecoder_decode (payload requestData)) with
                     | Some v => (v, true)
                     | None => (VUndefined, false)
                     end in isJson && truthy parsed && typeof_object parsed) = false).
  { destruct (JSON_parse _) as [v |]; [| reflexivity].
    cbn. destruct (truthy v && typeof_object v); [discriminate | reflexivity]. }
  unfold handleAdvance.
  destruct (match JSON_parse (TextDecoder_decode (payload requestData)) with
            | Some v => (v, true)
            | None => (VUndefined, false)
            end) as [parsed isJson].
  cbv zeta in Hcond. rewrite Hcond.
  unfold try_catch, mbind, lift.
  destruct (parseDepositPayload (payload requestData)) as [e | [recipient amount]] eqn:Hp.
  - reflexivity.
  - destruct (metadata requestData) as [sender |]; [| reflexivity].
    destruct (parseDepositPayload_sound _ _ _ Hp) as (Htruthy & _ & _).
    rewrite (processDeposit_ok _ _ _ Htruthy).
    unfold get, sendNotice, emit, mret, shown. cbn.
    now rewrite lookup_insert_eq.
Qed.

(** The JSON path. *)
Lemma handleAdvance_json (requestData : requestData) (balances : ledger)
    (parsed win loss : value) :
  as_json requestData = Some parsed ->
  getProp parsed "win" = inr win ->
  getProp parsed "loss" = inr loss ->
  handleAdvance requestData balances
  = if truthy win && truthy loss
    then
      match getAddress win, getAddress loss with
      | inl e, _ | inr _, inl e =>
          (inr "reject", balances, [Report (Lit "Error: " :: message e)])
      | inr winner, inr loser =>
          let loserBalance := balanceOf balances loser in
          if 0 <? loserBalance
          then
            match toBeHex loserBalance 32 with
            | inr voucher =>
                (inr "accept", <[loser := 0]> balances,
                 [Voucher winner voucher;
                  Notice [Lit "Voucher issued: "; Lit winner; Lit " gets ";
                          OfBigInt loserBalance; Lit " wei"]])
            | inl e =>
                (inr "reject", balances, [Report (Lit "Error: " :: message e)])
            end
          else
            (inr "accept", balances,
             [Report [Lit "Loser "; Lit loser; Lit " has no balance to transfer."]])
      end
    else
      (inr "accept", balances,
       [Report [Lit "Unrecognized JSON structure: ";
                Lit (TextDecoder_decode (payload requestData))]]).
Proof.
  unfold as_json. intros Hjson Hwin Hloss.
  unfold handleAdvance.
  destruct (JSON_parse (TextDecoder_decode (payload requestData))) as [v |];
    [| discriminate].
  destruct (truthy v && typeof_object v) eqn:Hcond; [| discriminate].
  injection Hjson as ->.
  cbn [andb]. rewrite Hcond.
  run. rewrite Hwin, Hloss.
  destruct (truthy win && truthy loss); [| reflexivity].
  destruct (getAddress win) as [e | winner]; [reflexivity |].
  destruct (getAddress loss) as [e | loser]; [reflexivity |].
  destruct (0 <? balanceOf balances loser); [| reflexivity].
  destruct (toBeHex (balanceOf balances loser) 32) as [e | voucher]; reflexivity.
Qed.

End Part000Advance.


(** ** part_000: settlement *)

Section Part000Settle.
Import JS Lib Host Part000.
Context `{Runtime}.

Lemma getAddress_truthy (a : value) (r : string) :
  getAddress a = inr r -> truthy a = true.
Proof.
  unfold getAddress. destruct a as [| | b | f | s | elements | fields | name];
    try discriminate; try (intros _; reflexivity).
  destruct s as [| c s]; [discriminate | reflexivity].
Qed.

Lemma total_settle (balances : ledger) (k : string) (n : Z) :
  balances !! k = Some n -> total (<[k := 0]> balances) = total balances - n.
Proof.
  intros Hk. unfold total.
  rewrite (map_fold_delete_L _ _ k n balances) by (intros; lia || exact Hk).
  rewrite <- (insert_delete_eq balances k 0).
  rewrite map_fold_insert_L by (intros; lia || apply lookup_delete_eq).
  lia.
Qed.

(** A settlement whose loser holds [n], with [0 < n < 2 ^ 256]. *)
Lemma handleAdvance_settle (requestData : requestData) (balances : ledger)
    (parsed win loss : value) (winner loser : string) (n : Z) :
  as_json requestData = Some parsed ->
  getProp parsed "win" = inr win ->
  getProp parsed "loss" = inr loss ->
  getAddress win = inr winner ->
  getAddress loss = inr loser ->
  balances !! loser = Some n ->
  0 < n < 2 ^ 256 ->
  exists voucher,
    handleAdvance requestData balances
    = (inr "accept", <[loser := 0]> balances,
       [Voucher winner voucher;
        Notice [Lit "Voucher issued: "; Lit winner; Lit " gets ";
                OfBigInt n; Lit " wei"]])
    /\ BigInt voucher = inr n
    /\ String.length voucher = 66%nat.
Proof.
  intros Hjson Hwin Hloss Hwinner Hloser Hbal Hn.
  destruct (toBeHex_32 n ltac:(lia)) as (voucher & Hhex & Hback & Hwidth).
  exists voucher. split; [| split; [exact Hback | exact Hwidth]].
  rewrite (handleAdvance_json _ _ _ _ _ Hjson Hwin Hloss).
  rewrite (getAddress_truthy _ _ Hwinner), (getAddress_truthy _ _ Hloser).
  cbn [andb]. rewrite Hwinner, Hloser.
  unfold balanceOf. rewrite Hbal. cbv zeta.
  destruct (Z.ltb_spec 0 n) as [_ | Hle]; [| lia].
  now rewrite Hhex.
Qed.

(** A settlement whose loser holds [2 ^ 256] or more: the voucher
    cannot be built. *)
Lemma handleAdvance_settle_large (requestData : requestData) (balances : ledger)
    (parsed win loss : value) (winner loser : string) (n : Z) :
  as_json requestData = Some parsed ->
  getProp parsed "win" = inr win ->
  getProp parsed "loss" = inr loss ->
  getAddress win = inr winner ->
  getAddress loss = inr loser ->
  balances !! loser = Some n ->
  2 ^ 256 <= n ->
  handleAdvance requestData balances
  = (inr "reject", balances,
     [Report [Lit "Error: "; OfFault (NumericFault n 32)]]).
Proof.
  intros Hjson Hwin Hloss Hwinner Hloser Hbal Hn.
  rewrite (handleAdvance_json _ _ _ _ _ Hjson Hwin Hloss).
  rewrite (getAddress_truthy _ _ Hwinner), (getAddress_truthy _ _ Hloser).
  cbn [andb]. rewrite Hwinner, Hloser.
  unfold balanceOf. rewrite Hbal. cbv zeta.
  destruct (Z.ltb_spec 0 n) as [_ | Hle]; [| lia].
  now rewrite toBeHex_32_large.
Qed.

End Part000Settle.

Section SettleClaims.
Import JS Lib Host Part000.
Context `{Runtime}.

(** C1, as amended.  A settle input [{win, loss}] whose loser holds
    [n], with [0 < n < 2 ^ 256], is accepted; afterwards the loser's
    balance is zero and every other balance, the winner's included, is
    what it was; the events are one voucher, destined to the winner and
    spelling [n] in 32 bytes (the prefix [0x] and 64 hexadecimal
    digits that read as [n]), and the notice that announces it.  The
    winner is paid by the voucher, not by a credit in the ledger. *)
Theorem settle_pays_by_voucher (requestData : requestData) (balances : ledger)
    (parsed win loss : value) (winner loser : string) (n : Z) :
  as_json requestData = Some parsed ->
  getProp parsed "win" = inr win ->
  getProp parsed "loss" = inr loss ->
  getAddress win = inr winner ->
  getAddress loss = inr loser ->
  balances !! loser = Some n ->
  0 < n < 2 ^ 256 ->
  exists voucher after,
    handleAdvance requestData balances
    = (inr "accept", after,
       [Voucher winner voucher;
        Notice [Lit "Voucher issued: "; Lit winner; Lit " gets ";
                OfBigInt n; Lit " wei"]])
    /\ BigInt voucher = inr n
    /\ String.length voucher = 66%nat
    /\ after !! loser = Some 0
    /\ (forall k, k <> loser -> after !! k = balances !! k).
Proof.
  intros Hjson Hwin Hloss Hwinner Hloser Hbal Hn.
  destruct (handleAdvance_settle _ _ _ _ _ _ _ _ Hjson Hwin Hloss Hwinner Hloser Hbal Hn)
    as (voucher & Hrun & Hback & Hwidth).
  exists voucher, (<[loser := 0]> balances). repeat split; try assumption.
  - apply lookup_insert_eq.
  - intros k Hk. now apply lookup_insert_ne.
Qed.

(** C10, as amended.  When winner and loser are the same address and it
    holds [n > 0]: if [n < 2 ^ 256] the input is accepted, the voucher
    of [n], spelled in 32 bytes, goes to that address, its balance is
    set to zero and the sum of the balances on record drops by [n]; if
    [n >= 2 ^ 256] the voucher cannot be built, the input is rejected
    with that error reported, and the ledger is as it was. *)
Theorem settle_with_oneself (requestData : requestData) (balances : ledger)
    (parsed win loss : value) (a : string) (n : Z) :
  as_json requestData = Some parsed ->
  getProp parsed "win" = inr win ->
  getProp parsed "loss" = inr loss ->
  getAddress win = inr a ->
  getAddress loss = inr a ->
  balances !! a = Some n ->
  0 < n ->
  (n < 2 ^ 256 ->
   exists voucher after,
     handleAdvance requestData balances
     = (inr "accept", after,
        [Voucher a voucher;
         Notice [Lit "Voucher issued: "; Lit a; Lit " gets ";
                 OfBigInt n; Lit " wei"]])
     /\ BigInt voucher = inr n
     /\ String.length voucher = 66%nat
     /\ after !! a = Some 0
     /\ total after = total balances - n)
  /\ (2 ^ 256 <= n ->
      handleAdvance requestData balances
      = (inr "reject", balances,
         [Report [Lit "Error: "; OfFault (NumericFault n 32)]])).
Proof.
  intros Hjson Hwin Hloss Hwinner Hloser Hbal Hpos. split; intros Hn.
  - destruct (handleAdvance_settle _ _ _ _ _ _ _ _ Hjson Hwin Hloss Hwinner Hloser Hbal
                (conj Hpos Hn)) as (voucher & Hrun & Hback & Hwidth).
    exists voucher, (<[a := 0]> balances). repeat split; try assumption.
    + apply lookup_insert_eq.
    + now apply total_settle.
  - now apply (handleAdvance_settle_large _ _ parsed win loss a a).
Qed.

End SettleClaims.

Lemma settle_pays_by_voucher_witness :
  exists voucher after,
    Part000.handleAdvance (H := Reference.runtime) (Examples.settle_request Examples.bob Examples.alice)
      {[Examples.alice := 100]}
    = (inr "accept", after,
       [Host.Voucher Examples.bob voucher;
        Host.Notice [JS.Lit "Voucher issued: "; JS.Lit Examples.bob; JS.Lit " gets ";
                     JS.OfBigInt 100; JS.Lit " wei"]])
    /\ Lib.BigInt voucher = inr 100
    /\ String.length voucher = 66%nat
    /\ after !! Examples.alice = Some 0
    /\ (forall k, k <> Examples.alice ->
        after !! k = ({[Examples.alice := 100]} : gmap string Z) !! k).
Proof.
  apply (settle_pays_by_voucher (H := Reference.runtime)
           (Examples.settle_request Examples.bob Examples.alice)
           {[Examples.alice := 100]}
           (JS.VObject [("win", JS.VString Examples.bob);
                        ("loss", JS.VString Examples.alice)])
           (JS.VString Examples.bob) (JS.VString Examples.alice)
           Examples.bob Examples.alice 100);
    try (vm_compute; reflexivity).
  split; reflexivity.
Defined.

(** The winner is not credited: Bob's balance is 0 before and after
    Alice's 100 are settled in his favour, not [0 + 100]. *)
Lemma settle_leaves_winner_balance :
  Part000.balanceOf {[Examples.alice := 100]} Examples.alice = 100
  /\ Host.status_of
       (Part000.handleAdvance (H := Reference.runtime) (Examples.settle_request Examples.bob Examples.alice)
          {[Examples.alice := 100]}) = inr "accept"
  /\ Part000.balanceOf
       (Host.ledger_of
          (Part000.handleAdvance (H := Reference.runtime) (Examples.settle_request Examples.bob Examples.alice)
             {[Examples.alice := 100]})) Examples.bob
     <> Part000.balanceOf {[Examples.alice := 100]} Examples.bob + 100.
Proof.
  repeat split; try (vm_compute; reflexivity).
  vm_compute. discriminate.
Qed.

Lemma settle_with_oneself_witness :
  exists voucher after,
    Part000.handleAdvance (H := Reference.runtime)
      (Examples.settle_request Examples.alice Examples.alice) {[Examples.alice := 100]}
    = (inr "accept", after,
       [Host.Voucher Examples.alice voucher;
        Host.Notice [JS.Lit "Voucher issued: "; JS.Lit Examples.alice; JS.Lit " gets ";
                     JS.OfBigInt 100; JS.Lit " wei"]])
    /\ Lib.BigInt voucher = inr 100
    /\ String.length voucher = 66%nat
    /\ after !! Examples.alice = Some 0
    /\ Part000.total after = Part000.total {[Examples.alice := 100]} - 100.
Proof.
  refine (proj1 (settle_with_oneself (H := Reference.runtime)
                   (Examples.settle_request Examples.alice Examples.alice)
                   {[Examples.alice := 100]}
                   (JS.VObject [("win", JS.VString Examples.alice);
                                ("loss", JS.VString Examples.alice)])
                   (JS.VString Examples.alice) (JS.VString Examples.alice)
                   Examples.alice 100 _ _ _ _ _ _ _) _);
    vm_compute; reflexivity.
Defined.

(** Two accepted deposits of [2 ^ 255] leave Alice [2 ^ 256]; settling
    it with herself is then rejected, with no voucher, and her balance
    stays. *)
Lemma settle_beyond_32_bytes_rejected :
  Host.status_of
    (Part000.handleAdvance (H := Reference.runtime) Examples.big_deposit ∅) = inr "accept"
  /\ Part000.balanceOf Examples.after_big_deposits Examples.alice = 2 ^ 256
  /\ Host.listing
       (Part000.handleAdvance (H := Reference.runtime)
          (Examples.settle_request Examples.alice Examples.alice)
          Examples.after_big_deposits)
     = (inr "reject", [(Examples.alice, 2 ^ 256)],
        [Host.Report [JS.Lit "Error: "; JS.OfFault (JS.NumericFault (2 ^ 256) 32)]]).
Proof.
  repeat split; vm_compute; reflexivity.
Qed.


(** ** part_000: JSON or deposit *)

Section Disambiguation.
Import JS Lib Host Part000.
Context `{Runtime}.

Lemma as_json_Some (requestData : requestData) (parsed : value) :
  JSON_parse (TextDecoder_decode (payload requestData)) = Some parsed ->
  truthy parsed && typeof_object parsed = true ->
  as_json requestData = Some parsed.
Proof. unfold as_json. now intros -> ->. Qed.

Lemma as_json_None (requestData : requestData) :
  (forall parsed,
     JSON_parse (TextDecoder_decode (payload requestData)) = Some parsed ->
     truthy parsed && typeof_object parsed = false) ->
  as_json requestData = None.
Proof.
  unfold as_json. intros Hno.
  destruct (JSON_parse _) as [parsed |]; [| reflexivity].
  now rewrite (Hno parsed eq_refl).
Qed.

(** C2, as amended.  The payload is handled as JSON exactly when it
    parses to something truthy whose [typeof] is "object", that is to an
    object or an array.  Then no deposit is made of it: no balance
    changes other than to zero, no deposit notice is sent, and a value
    without both [win] and [loss] is reported as unrecognized and
    accepted, the ledger untouched.  Every other payload, one that does
    not parse or one that parses to null, a number, a string or a
    boolean, goes only to the binary path: the outcome is the one
    [parseDepositPayload] and the metadata decide. *)
Theorem json_object_or_deposit (requestData : requestData) (balances : ledger) :
  let decodedString := TextDecoder_decode (payload requestData) in
  (forall parsed,
     JSON_parse decodedString = Some parsed ->
     truthy parsed && typeof_object parsed = true ->
     (forall k,
        ledger_of (handleAdvance requestData balances) !! k = balances !! k
        \/ ledger_of (handleAdvance requestData balances) !! k = Some 0)
     /\ (forall m,
          ~ In (Notice (Lit "Deposit OK: recipient=" :: m))
               (events_of (handleAdvance requestData balances)))
     /\ (forall win loss,
          getProp parsed "win" = inr win ->
          getProp parsed "loss" = inr loss ->
          truthy win && truthy loss = false ->
          handleAdvance requestData balances
          = (inr "accept", balances,
             [Report [Lit "Unrecognized JSON structure: "; Lit decodedString]])))
  /\ ((forall parsed,
         JSON_parse decodedString = Some parsed ->
         truthy parsed && typeof_object parsed = false) ->
      handleAdvance requestData balances
      = match parseDepositPayload (payload requestData), metadata requestData with
        | inl e, _ => (inr "reject", balances, [Report (Lit "Error: " :: message e)])
        | inr _, None =>
            (inr "reject", balances,
             [Report [Lit "Error: ";
                      OfFault (TypeError "Cannot read properties of undefined")]])
        | inr (recipient, amount), Some _ =>
            let total := balanceOf balances recipient + amount in
            (inr "accept", <[recipient := total]> balances,
             [Notice [Lit "Deposit OK: recipient="; Lit recipient;
                      Lit ", newBalance="; OfBigInt total]])
        end).
Proof.
  cbv zeta. split.
  - intros parsed Hparse Hobject.
    pose proof (as_json_Some _ _ Hparse Hobject) as Hjson.
    destruct (getProp_object parsed "win" Hobject) as [win Hwin].
    destruct (getProp_object parsed "loss" Hobject) as [loss Hloss].
    pose proof (handleAdvance_json _ balances _ _ _ Hjson Hwin Hloss) as Hrun.
    repeat split.
    + intros k. rewrite Hrun.
      destruct (truthy win && truthy loss); [| now left].
      destruct (getAddress win) as [e | winner]; [now left |].
      destruct (getAddress loss) as [e | loser]; [now left |].
      cbv zeta. destruct (0 <? balanceOf balances loser); [| now left].
      destruct (toBeHex (balanceOf balances loser) 32) as [e | voucher]; [now left |].
      cbn [ledger_of fst snd].
      destruct (decide (loser = k)) as [-> | Hne].
      * right. apply lookup_insert_eq.
      * left. now apply lookup_insert_ne.
    + intros m. rewrite Hrun.
      destruct (truthy win && truthy loss);
        [| cbn; intros [[=] | []]].
      destruct (getAddress win) as [e | winner]; [cbn; intros [[=] | []] |].
      destruct (getAddress loss) as [e | loser]; [cbn; intros [[=] | []] |].
      cbv zeta. destruct (0 <? balanceOf balances loser); [| cbn; intros [[=] | []]].
      destruct (toBeHex (balanceOf balances loser) 32) as [e | voucher]; cbn.
      * intros [[=] | []].
      * intros [[=] | [[=] | []]].
    + intros win' loss' Hwin' Hloss' Hshape.
      rewrite Hwin in Hwin'. rewrite Hloss in Hloss'.
      injection Hwin' as <-. injection Hloss' as <-.
      rewrite Hrun, Hshape. reflexivity.
  - intros Hno. apply handleAdvance_binary. now apply as_json_None.
Qed.

End Disambiguation.

Lemma json_object_or_deposit_witness :
  Part000.handleAdvance (H := Reference.runtime) (Examples.text_request "{}") ∅
  = (inr "accept", ∅,
     [Host.Report [JS.Lit "Unrecognized JSON structure: "; JS.Lit "{}"]])
  /\ Part000.handleAdvance (H := Reference.runtime) (Examples.text_request "deposit") ∅
     = (inr "reject", ∅,
        [Host.Report [JS.Lit "Error: "; JS.Lit "Error parsing deposit payload: ";
                      JS.Lit "Payload too short for a deposit."]]).
Proof.
  split.
  - destruct (proj1 (json_object_or_deposit (H := Reference.runtime)
                       (Examples.text_request "{}") ∅) (JS.VObject [])
                ltac:(vm_compute; reflexivity) ltac:(vm_compute; reflexivity))
      as (_ & _ & Hshape).
    exact (Hshape JS.VUndefined JS.VUndefined eq_refl eq_refl eq_refl).
  - rewrite (proj2 (json_object_or_deposit (H := Reference.runtime)
                      (Examples.text_request "deposit") ∅)).
    + vm_compute; reflexivity.
    + intros parsed Hparse. vm_compute in Hparse. discriminate.
Defined.

(** Fifty-two digits parse as JSON, to a number, and are credited as a
    deposit all the same: the first twenty bytes name the recipient, the
    other thirty-two the amount. *)
Lemma json_number_taken_for_deposit :
  (exists f,
     JS.JSON_parse (Runtime := Reference.runtime)
       (JS.TextDecoder_decode (Runtime := Reference.runtime)
          (Host.payload Examples.digits52)) = Some (JS.VNumber f))
  /\ Host.listing (Part000.handleAdvance (H := Reference.runtime) Examples.digits52 ∅)
     = (inr "accept",
        [("0x3131313131313131313131313131313131313131",
          Lib.be_uint (repeat Byte.x31 32))],
        [Host.Notice [JS.Lit "Deposit OK: recipient=";
                      JS.Lit "0x3131313131313131313131313131313131313131";
                      JS.Lit ", newBalance=";
                      JS.OfBigInt (Lib.be_uint (repeat Byte.x31 32))]]).
Proof.
  split.
  - eexists. vm_compute. reflexivity.
  - vm_compute. reflexivity.
Qed.


(** ** part_000 and src/index.js: every request, step by step *)

Section Steps.
Import JS Lib Host Part000.
Context `{Runtime}.

Lemma handleAdvance_steps (requestData : requestData) (balances : ledger) :
  exists status after out,
    handleAdvance requestData balances = (inr status, after, out)
    /\ advance_step balances status after out.
Proof.
  destruct (as_json requestData) as [parsed |] eqn:Hjson.
  - assert (Hobject : truthy parsed && typeof_object parsed = true).
    { unfold as_json in Hjson. destruct (JSON_parse _) as [v |]; [| discriminate].
      destruct (truthy v && typeof_object v) eqn:E; [| discriminate].
      now injection Hjson as <-. }
    destruct (getProp_object parsed "win" Hobject) as [win Hwin].
    destruct (getProp_object parsed "loss" Hobject) as [loss Hloss].
    rewrite (handleAdvance_json _ balances _ _ _ Hjson Hwin Hloss).
    destruct (truthy win && truthy loss);
      [| do 3 eexists; split; [reflexivity | constructor]].
    destruct (getAddress win) as [e | winner];
      [do 3 eexists; split; [reflexivity | constructor] |].
    destruct (getAddress loss) as [e | loser];
      [do 3 eexists; split; [reflexivity | constructor] |].
    cbv zeta. destruct (Z.ltb_spec 0 (balanceOf balances loser)) as [Hpos | _];
      [| do 3 eexists; split; [reflexivity | constructor]].
    destruct (toBeHex (balanceOf balances loser) 32) as [e | voucher] eqn:Hhex;
      do 3 eexists; (split; [reflexivity |]).
    + constructor.
    + now constructor.
  - rewrite (handleAdvance_binary _ balances Hjson).
    destruct (parseDepositPayload (payload requestData)) as [e | [recipient amount]] eqn:Hp;
      [do 3 eexists; split; [reflexivity | constructor] |].
    destruct (metadata requestData) as [sender |].
    + do 3 eexists. split; [reflexivity |]. constructor.
      now destruct (parseDepositPayload_sound _ _ _ Hp) as (_ & _ & Hamount).
    + do 3 eexists. split; [reflexivity |].
      apply (step_reject _ [OfFault (TypeError "Cannot read properties of undefined")]).
Qed.

Lemma handleInspect_steps (requestData : requestData) (balances : ledger) :
  exists status out,
    handleInspect requestData balances = (inr status, balances, out)
    /\ inspect_step status out.
Proof.
  unfold handleInspect, try_catch, mbind, lift, get, sendReport, emit, mret.
  destruct (JSON_parse (TextDecoder_decode (payload requestData))) as [parsed |];
    cbn; [| do 2 eexists; split; [reflexivity | constructor]].
  destruct (getProp parsed "action") as [e | action];
    cbn; [do 2 eexists; split; [reflexivity | constructor] |].
  destruct (getProp parsed "user") as [e | user];
    cbn; [do 2 eexists; split; [reflexivity | constructor] |].
  destruct (is_string action "balance" && truthy user);
    cbn; [| do 2 eexists; split; [reflexivity | constructor]].
  destruct (ToPropertyKey user) as [e | key];
    cbn; do 2 eexists; (split; [reflexivity | constructor]).
Qed.

Lemma advance_step_nonneg (balances after : ledger) (status : string) (out : list event) :
  advance_step balances status after out -> nonneg balances -> nonneg after.
Proof.
  intros Hstep Hnn.
  assert (Hbal : forall k, 0 <= balanceOf balances k).
  { intros k. unfold balanceOf. destruct (balances !! k) as [n |] eqn:E; [eauto | lia]. }
  destruct Hstep as [recipient amount Hamount | winner loser voucher _ _ | m | m];
    try exact Hnn; intros k n.
  - destruct (decide (recipient = k)) as [-> | Hne].
    + rewrite lookup_insert_eq. intros [= <-]. specialize (Hbal k). lia.
    + rewrite lookup_insert_ne by exact Hne. apply Hnn.
  - destruct (decide (loser = k)) as [-> | Hne].
    + rewrite lookup_insert_eq. intros [= <-]. lia.
    + rewrite lookup_insert_ne by exact Hne. apply Hnn.
Qed.

Lemma advance_step_reject (balances after : ledger) (out : list event) :
  advance_step balances "reject" after out -> after = balances.
Proof. intros Hstep. now inversion Hstep. Qed.

End Steps.

(** ** src/index.js: decoding and crediting a deposit *)

Section IndexJsFacts.
Import JS Lib Host.
Context `{Runtime}.

Lemma index_processDeposit_same (recipient : string) (amount : Z) :
  IndexJs.processDeposit recipient amount = Part000.processDeposit recipient amount.
Proof. reflexivity. Qed.

Lemma index_handleInspect_same (requestData : requestData) :
  IndexJs.handleInspect requestData = Part000.handleInspect requestData.
Proof. reflexivity. Qed.

(** Fewer than twenty bytes: no address. *)
Lemma index_parse_no_address (payload : list Byte.byte) :
  (length payload < 20)%nat ->
  IndexJs.parseDepositPayload payload
  = inl (Error [Lit "Error parsing deposit payload: ";
                Lit "Invalid deposit payload: Address extraction failed."]).
Proof.
  intros Hlen. unfold IndexJs.parseDepositPayload, try_result.
  assert (Hs : length (Part000.slice 0 20 payload) = length payload).
  { unfold Part000.slice. rewrite length_firstn, length_skipn. lia. }
  destruct (Nat.eqb_spec (length (Part000.slice 0 20 payload)) 20) as [Heq | _];
    [lia | reflexivity].
Qed.

(** Exactly twenty bytes: an address and no amount, and [BigInt("0x")]
    throws. *)
Lemma index_parse_no_amount (payload : list Byte.byte) :
  length payload = 20%nat ->
  IndexJs.parseDepositPayload payload
  = inl (Error [Lit "Error parsing deposit payload: ";
                OfFault (BigIntSyntaxError "0x")]).
Proof.
  intros Hlen. unfold IndexJs.parseDepositPayload, try_result.
  rewrite (slice_length_address payload) by lia.
  rewrite getAddress_hexlify by (apply slice_length_address; lia).
  assert (Hnil : Part000.slice 20 52 payload = []).
  { apply length_zero_iff_nil. unfold Part000.slice.
    rewrite length_firstn, length_skipn. lia. }
  rewrite Hnil. reflexivity.
Qed.

(** More than twenty bytes: a deposit, whose amount is read from the
    bytes that are there, at most thirty-two. *)
Lemma index_parse_deposit (payload : list Byte.byte) :
  (20 < length payload)%nat ->
  IndexJs.parseDepositPayload payload
  = inr (checksumAddress (hexlify (Part000.slice 0 20 payload)),
         be_uint (Part000.slice 20 52 payload)).
Proof.
  intros Hlen. unfold IndexJs.parseDepositPayload, try_result.
  rewrite (slice_length_address payload) by lia.
  rewrite getAddress_hexlify by (apply slice_length_address; lia).
  cbn [Nat.eqb negb rbind].
  rewrite BigInt_hexlify by (apply slice_amount_nonempty; lia).
  reflexivity.
Qed.

Lemma index_parse_sound (payload : list Byte.byte) (r : string) (a : Z) :
  IndexJs.parseDepositPayload payload = inr (r, a) ->
  truthy (VString r) = true /\ 0 <= a.
Proof.
  intros Hp.
  destruct (lt_eq_lt_dec (length payload) 20) as [[Hlt | Heq] | Hgt].
  - rewrite index_parse_no_address in Hp by exact Hlt. discriminate.
  - rewrite index_parse_no_amount in Hp by exact Heq. discriminate.
  - rewrite index_parse_deposit in Hp by exact Hgt.
    injection Hp as <- <-. split; [reflexivity | apply be_uint_nonneg].
Qed.

Lemma index_handleAdvance_eq (requestData : requestData) (balances : IndexJs.ledger) :
  IndexJs.handleAdvance requestData balances
  = match metadata requestData, IndexJs.parseDepositPayload (payload requestData) with
    | None, _ =>
        (inr "reject", balances,
         [Report [Lit "Error: ";
                  OfFault (TypeError "Cannot read properties of undefined")]])
    | Some _, inl e => (inr "reject", balances, [Report (Lit "Error: " :: message e)])
    | Some _, inr (recipient, amount) =>
        let total := Part000.balanceOf balances recipient + amount in
        (inr "accept", <[recipient := total]> balances,
         [Notice [Lit "Deposit OK: recipient="; Lit recipient;
                  Lit ", newBalance="; OfBigInt total]])
    end.
Proof.
  unfold IndexJs.handleAdvance, try_catch, mbind, lift.
  destruct (metadata requestData) as [sender |]; [| reflexivity].
  destruct (IndexJs.parseDepositPayload (payload requestData))
    as [e | [recipient amount]] eqn:Hp; [reflexivity |].
  destruct (index_parse_sound _ _ _ Hp) as [Htruthy _].
  rewrite index_processDeposit_same, (processDeposit_ok _ _ _ Htruthy).
  unfold get, IndexJs.sendNotice, emit, mret, Part000.shown. cbn.
  now rewrite lookup_insert_eq.
Qed.

Lemma index_handleAdvance_steps (requestData : requestData) (balances : IndexJs.ledger) :
  exists status after out,
    IndexJs.handleAdvance requestData balances = (inr status, after, out)
    /\ Part000.advance_step balances status after out.
Proof.
  rewrite index_handleAdvance_eq.
  destruct (metadata requestData) as [sender |].
  - destruct (IndexJs.parseDepositPayload (payload requestData))
      as [e | [recipient amount]] eqn:Hp;
      do 3 eexists; (split; [reflexivity |]); constructor.
    now destruct (index_parse_sound _ _ _ Hp).
  - do 3 eexists. split; [reflexivity |].
    apply (Part000.step_reject _ [OfFault (TypeError "Cannot read properties of undefined")]).
Qed.

End IndexJsFacts.


(** ** The sign of balances *)

Section Sign.
Import JS Lib Host Part000.
Context `{Runtime}.

Lemma ledger_after_nonneg
    (advance inspect : requestData -> M ledger string)
    (answers : list finishResp) (balances : ledger) :
  (forall requestData balances,
     exists status after out,
       advance requestData balances = (inr status, after, out)
       /\ advance_step balances status after out) ->
  (forall requestData balances,
     exists status out,
       inspect requestData balances = (inr status, balances, out)
       /\ inspect_step status out) ->
  nonneg balances ->
  nonneg (ledger_after advance inspect balances answers).
Proof.
  intros Hadv Hins. revert balances.
  induction answers as [| [| request_type data] rest IH]; intros balances Hnn;
    cbn [ledger_after]; [exact Hnn | now apply IH |].
  unfold dispatch.
  destruct (String.eqb request_type "advance_state").
  - destruct (Hadv data balances) as (status & after & out & -> & Hstep).
    apply IH. eapply advance_step_nonneg; eassumption.
  - destruct (String.eqb request_type "inspect_state"); [| now apply IH].
    destruct (Hins data balances) as (status & out & -> & _). now apply IH.
Qed.

(** C5, as amended.  In the two variants that keep BigInt balances
    (part_000 and src/index.js) no balance is negative in any ledger the
    request loop can reach, and a request that is rejected, like every
    Inspect request, leaves the ledger as it was.  (The JSON variant,
    part_001, checks no sign: see [negative_deposit_accepted].) *)
Theorem balances_never_negative (answers : list finishResp) :
  nonneg (ledger_after handleAdvance handleInspect ∅ answers)
  /\ nonneg (ledger_after IndexJs.handleAdvance IndexJs.handleInspect ∅ answers)
  /\ (forall requestData balances after out,
        handleAdvance requestData balances = (inr "reject", after, out)
        \/ IndexJs.handleAdvance requestData balances = (inr "reject", after, out) ->
        after = balances)
  /\ (forall requestData balances,
        ledger_of (handleInspect requestData balances) = balances
        /\ ledger_of (IndexJs.handleInspect requestData balances) = balances).
Proof.
  assert (Hempty : nonneg ∅) by (intros k n; now rewrite lookup_empty).
  split; [| split; [| split]].
  - apply ledger_after_nonneg;
      auto using handleAdvance_steps, handleInspect_steps.
  - apply ledger_after_nonneg;
      auto using index_handleAdvance_steps, handleInspect_steps.
  - intros requestData balances after out [Hrun | Hrun].
    + destruct (handleAdvance_steps requestData balances)
        as (status & after' & out' & Heq & Hstep).
      rewrite Hrun in Heq. injection Heq as <- <- <-.
      now apply advance_step_reject in Hstep.
    + destruct (index_handleAdvance_steps requestData balances)
        as (status & after' & out' & Heq & Hstep).
      rewrite Hrun in Heq. injection Heq as <- <- <-.
      now apply advance_step_reject in Hstep.
  - intros requestData balances.
    change (IndexJs.handleInspect requestData balances)
      with (handleInspect requestData balances).
    destruct (handleInspect_steps requestData balances) as (status & out & -> & _).
    split; reflexivity.
Qed.

End Sign.

Lemma balances_never_negative_witness :
  Part000.nonneg
    (Host.ledger_after (Part000.handleAdvance (H := Reference.runtime))
       (Part000.handleInspect (H := Reference.runtime)) ∅
       [Host.Request "advance_state" (Examples.deposit_request Examples.alice_bytes 1000);
        Host.Request "advance_state" (Examples.settle_request Examples.bob Examples.alice)])
  /\ Host.ledger_of
       (Part000.handleAdvance (H := Reference.runtime) (Examples.text_request "deposit") ∅)
     = ∅.
Proof.
  split.
  - exact (proj1 (balances_never_negative (H := Reference.runtime) _)).
  - refine (proj1 (proj2 (proj2 (balances_never_negative (H := Reference.runtime) [])))
              (Examples.text_request "deposit") ∅ _
              [Host.Report [JS.Lit "Error: "; JS.Lit "Error parsing deposit payload: ";
                            JS.Lit "Payload too short for a deposit."]] _).
    left. vm_compute. reflexivity.
Defined.

(** part_001 accepts a deposit of [-5] and records a negative balance. *)
Lemma negative_deposit_accepted :
  Host.listing
    (Part001.handleAdvance (H := Reference.runtime)
       (Examples.json_deposit Examples.alice "-5") ∅)
  = (inr "accept", [(Examples.alice, JS.VNumber (-5)%float)],
     [Host.Notice [JS.Lit "Deposit OK: sender="; JS.OfValue (JS.VString Examples.alice);
                   JS.Lit ", newBalance="; JS.OfValue (JS.VNumber (-5)%float)]])
  /\ PrimFloat.ltb (-5)%float 0%float = true.
Proof.
  split; vm_compute; reflexivity.
Qed.


(** ** part_001: deposits and transfers between plain keys *)

Section Part001Facts.
Import JS Lib Host Part001.
Context `{Runtime}.

Lemma add_numbers (a b : float) :
  add (VNumber a) (VNumber b) = inr (VNumber (PrimFloat.add a b)).
Proof. reflexivity. Qed.

Lemma sub_numbers (a b : float) :
  sub (VNumber a) (VNumber b) = inr (VNumber (PrimFloat.sub a b)).
Proof. reflexivity. Qed.

Lemma lessThan_numbers (a b : float) :
  lessThan (VNumber a) (VNumber b) = inr (PrimFloat.ltb a b).
Proof. reflexivity. Qed.

Lemma plain_key_not_proto (k : string) :
  plain_key k -> String.eqb k "__proto__" = false.
Proof.
  intros [_ Hinh]. destruct (String.eqb_spec k "__proto__") as [-> | _];
    [discriminate | reflexivity].
Qed.

Lemma balances_set_plain (k : string) (v : value) (balances : ledger) :
  plain_key k -> balances_set k v balances = <[k := v]> balances.
Proof. intros Hk. unfold balances_set. now rewrite plain_key_not_proto. Qed.

Lemma balances_get_numeric (balances : ledger) (k : string) :
  plain_key k -> numeric balances k ->
  or_zero (balances_get balances k) = VNumber (held balances k)
  /\ ((truthy (balances_get balances k) = true
       /\ balances_get balances k = VNumber (held balances k)
       /\ PrimFloat.eqb (held balances k) PrimFloat.zero = false)
      \/ (truthy (balances_get balances k) = false
          /\ held balances k = PrimFloat.zero)).
Proof.
  intros [_ Hinh] [Hnone | [b Hsome]]; unfold balances_get, held, or_zero.
  - rewrite Hnone, Hinh. split; [reflexivity | right; split; reflexivity].
  - rewrite Hsome. destruct (truthy (VNumber b)) eqn:Ht.
    + split; [reflexivity | left; repeat split].
      cbn in Ht. now apply negb_true_iff, orb_false_iff in Ht as [-> _].
    + split; [reflexivity | right; split; reflexivity].
Qed.

Ltac step :=
  cbn -[balances_get balances_set truthy add sub lessThan interpolate or_zero
        credit debit held].

(** [if (!balances[k]) balances[k] = 0; balances[k] += n], as the two
    handlers write it, is [credit]. *)
Lemma credit_run (k : string) (amount : float) (balances : ledger) :
  plain_key k -> numeric balances k ->
  let start :=
    if negb (truthy (balances_get balances k))
    then balances_set k (VNumber PrimFloat.zero) balances
    else balances in
  rbind (add (balances_get start k) (VNumber amount))
        (fun total => ret (balances_set k total start))
  = inr (credit k amount balances).
Proof.
  intros Hkey Hnum. cbv zeta.
  destruct (balances_get_numeric balances k Hkey Hnum)
    as [_ [(Ht & Hget & _) | (Ht & Hheld)]]; rewrite Ht; step.
  - rewrite Hget, add_numbers. step. now rewrite balances_set_plain.
  - rewrite !balances_set_plain by exact Hkey.
    unfold balances_get. rewrite lookup_insert_eq, add_numbers. step.
    rewrite balances_set_plain by exact Hkey.
    unfold credit. now rewrite insert_insert_eq, Hheld.
Qed.


Lemma numeric_debit (balances : ledger) (k from : string) (amount : float) :
  numeric balances k -> numeric (debit from amount balances) k.
Proof.
  intros Hk. unfold numeric, debit.
  destruct (decide (from = k)) as [-> | Hne].
  - right. rewrite lookup_insert_eq. eauto.
  - now rewrite lookup_insert_ne.
Qed.

(** [processTransfer] between plain keys that hold numbers. *)
Lemma processTransfer_eq (parsed : value) (from to : string) (amount : float)
    (balances : ledger) :
  getProp parsed "from" = inr (VString from) ->
  getProp parsed "to" = inr (VString to) ->
  getProp parsed "amount" = inr (VNumber amount) ->
  plain_key from -> plain_key to ->
  numeric balances from -> numeric balances to ->
  processTransfer parsed balances
  = if PrimFloat.eqb (held balances from) PrimFloat.zero
       || PrimFloat.ltb (held balances from) amount
    then (inl (Error [Lit "Insufficient balance in "; OfValue (VString from);
                      Lit ". Current: "; OfValue (VNumber (held balances from));
                      Lit ", needed: "; OfValue (VNumber amount)]),
          balances, [])
    else (inr tt, credit to amount (debit from amount balances), []).
Proof.
  intros Hfrom Hto Hamount Hkf Hkt Hnf Hnt.
  unfold processTransfer, mbind, lift, get, put, mret, mthrow.
  rewrite Hfrom, Hto, Hamount.
  replace (truthy (VString from)) with true by (symmetry; apply Hkf).
  replace (truthy (VString to)) with true by (symmetry; apply Hkt).
  step.
  destruct (balances_get_numeric balances from Hkf Hnf)
    as [Hor [(Ht & Hget & Hnz) | (Ht & Hheld)]]; rewrite Ht, Hor; step.
  - rewrite Hget, lessThan_numbers, Hnz. step.
    destruct (PrimFloat.ltb (held balances from) amount); [reflexivity |].
    rewrite sub_numbers. step.
    rewrite (balances_set_plain from) by exact Hkf.
    fold (debit from amount balances).
    pose proof (credit_run to amount (debit from amount balances) Hkt
                  (numeric_debit _ _ _ _ Hnt)) as Hrun.
    cbv zeta in Hrun.
    destruct (negb (truthy (balances_get (debit from amount balances) to))); step;
      (destruct (add _ _) as [e | total]; cbn in Hrun;
      [discriminate | injection Hrun as <-; reflexivity]).
  - rewrite Hheld. reflexivity.
Qed.
Lemma SFcompare_refl (s : bool) (m : positive) (e : Z) :
  SpecFloat.SFcompare (SpecFloat.S754_finite s m e) (SpecFloat.S754_finite s m e) = Some Eq.
Proof.
  cbn. rewrite Z.compare_refl.
  assert (Hm : Pos.compare_cont Eq m m = Eq) by apply Pos.compare_refl.
  rewrite Hm. now destruct s.
Qed.



Lemma inspect_balance_001 (requestData : requestData) (parsed : value) (user : string)
    (balances : ledger) :
  JSON_parse (TextDecoder_decode (payload requestData)) = Some parsed ->
  getProp parsed "action" = inr (VString "balance") ->
  getProp parsed "user" = inr (VString user) ->
  plain_key user -> numeric balances user ->
  handleInspect requestData balances
  = (inr "accept", balances,
     [Report [Lit "Balance of "; OfValue (VString user); Lit " = ";
              OfValue (VNumber (held balances user))]]).
Proof.
  intros Hparse Haction Huser Hkey Hnum.
  destruct (balances_get_numeric balances user Hkey Hnum) as [Hor _].
  unfold handleInspect, try_catch, mbind, lift, get, sendReport, emit, mret.
  rewrite Hparse. step. rewrite Haction, Huser. step.
  replace (truthy (VString user)) with true by (symmetry; apply Hkey).
  step. rewrite Hor. reflexivity.
Qed.

Lemma inspect_balance_000 (requestData : requestData) (parsed : value) (user : string)
    (balances : gmap string Z) :
  JSON_parse (TextDecoder_decode (payload requestData)) = Some parsed ->
  getProp parsed "action" = inr (VString "balance") ->
  getProp parsed "user" = inr (VString user) ->
  plain_key user ->
  Part000.handleInspect requestData balances
  = (inr "accept", balances,
     [Report [Lit "Balance of "; OfValue (VString user); Lit " = ";
              OfBigInt (Part000.balanceOf balances user); Lit " wei"]]).
Proof.
  intros Hparse Haction Huser [Htruthy Hinh].
  unfold Part000.handleInspect, try_catch, mbind, lift, get, Part000.sendReport, emit, mret.
  rewrite Hparse. step. rewrite Haction, Huser. step. rewrite Htruthy. step.
  unfold Part000.lookup_or_zero, Part000.balanceOf. rewrite Hinh.
  now destruct (balances !! user).
Qed.

(** C4, as amended.  A transfer between plain keys, over balances that
    are numbers: when the sender's balance counts for zero (unset, zero
    or NaN) or is less than the amount, [processTransfer] throws
    "Insufficient balance" and the ledger is untouched; otherwise it
    returns with the sender debited and then the receiver credited, and
    no other balance changed. *)
Theorem transfer_all_or_nothing (parsed : value) (from to : string) (amount : float)
    (balances : ledger) :
  getProp parsed "from" = inr (VString from) ->
  getProp parsed "to" = inr (VString to) ->
  getProp parsed "amount" = inr (VNumber amount) ->
  plain_key from -> plain_key to ->
  numeric balances from -> numeric balances to ->
  (PrimFloat.eqb (held balances from) PrimFloat.zero
   || PrimFloat.ltb (held balances from) amount = true ->
   processTransfer parsed balances
   = (inl (Error [Lit "Insufficient balance in "; OfValue (VString from);
                  Lit ". Current: "; OfValue (VNumber (held balances from));
                  Lit ", needed: "; OfValue (VNumber amount)]),
      balances, []))
  /\ (PrimFloat.eqb (held balances from) PrimFloat.zero
      || PrimFloat.ltb (held balances from) amount = false ->
      exists after,
        processTransfer parsed balances = (inr tt, after, [])
        /\ after = credit to amount (debit from amount balances)
        /\ (forall k, k <> from -> k <> to -> after !! k = balances !! k)
        /\ (from <> to ->
            after !! from = Some (VNumber (PrimFloat.sub (held balances from) amount))
            /\ after !! to = Some (VNumber (PrimFloat.add (held balances to) amount)))).
Proof.
  intros Hfrom Hto Hamount Hkf Hkt Hnf Hnt.
  rewrite (processTransfer_eq _ _ _ _ _ Hfrom Hto Hamount Hkf Hkt Hnf Hnt).
  split; intros ->; [reflexivity |].
  eexists. split; [reflexivity |]. split; [reflexivity |]. split.
  - intros k Hk1 Hk2. unfold credit, debit.
    rewrite lookup_insert_ne by congruence. now rewrite lookup_insert_ne by congruence.
  - intros Hne. unfold credit. split.
    + rewrite lookup_insert_ne by congruence. apply lookup_insert_eq.
    + rewrite lookup_insert_eq. do 3 f_equal.
      unfold held, debit. now rewrite lookup_insert_ne by congruence.
Qed.


End Part001Facts.


Lemma transfer_all_or_nothing_witness :
  (exists after,
     Part001.processTransfer (H := Reference.runtime)
       (JS.VObject [("from", JS.VString Examples.alice); ("to", JS.VString Examples.bob);
                    ("amount", JS.VNumber 20%float)])
       {[Examples.alice := JS.VNumber 100%float]}
     = (inr tt, after, [])
     /\ after !! Examples.alice = Some (JS.VNumber 80%float)
     /\ after !! Examples.bob = Some (JS.VNumber 20%float))
  /\ Part001.processTransfer (H := Reference.runtime)
       (JS.VObject [("from", JS.VString Examples.alice); ("to", JS.VString Examples.bob);
                    ("amount", JS.VNumber 200%float)])
       {[Examples.alice := JS.VNumber 100%float]}
     = (inl (JS.Error [JS.Lit "Insufficient balance in ";
                       JS.OfValue (JS.VString Examples.alice);
                       JS.Lit ". Current: ";
                       JS.OfValue (JS.VNumber
                                     (Part001.held {[Examples.alice := JS.VNumber 100%float]}
                                        Examples.alice));
                       JS.Lit ", needed: "; JS.OfValue (JS.VNumber 200%float)]),
        {[Examples.alice := JS.VNumber 100%float]}, []).
Proof.
  assert (Hplain : forall k, k = Examples.alice \/ k = Examples.bob -> Part001.plain_key k).
  { intros k [-> | ->]; split; reflexivity. }
  assert (Hnum : forall k, k = Examples.alice \/ k = Examples.bob ->
                   Part001.numeric {[Examples.alice := JS.VNumber 100%float]} k).
  { intros k [-> | ->]; [right; eexists | left]; reflexivity. }
  split.
  - destruct (proj2 (transfer_all_or_nothing (H := Reference.runtime)
                       (JS.VObject [("from", JS.VString Examples.alice);
                                    ("to", JS.VString Examples.bob);
                                    ("amount", JS.VNumber 20%float)])
                       Examples.alice Examples.bob 20%float
                       {[Examples.alice := JS.VNumber 100%float]}
                       eq_refl eq_refl eq_refl
                       (Hplain _ (or_introl eq_refl)) (Hplain _ (or_intror eq_refl))
                       (Hnum _ (or_introl eq_refl)) (Hnum _ (or_intror eq_refl)))
                ltac:(vm_compute; reflexivity))
      as (after & Hrun & _ & _ & Hends).
    exists after. split; [exact Hrun |].
    destruct (Hends ltac:(discriminate)) as [-> ->].
    split; vm_compute; reflexivity.
  - apply (proj1 (transfer_all_or_nothing (H := Reference.runtime)
                    (JS.VObject [("from", JS.VString Examples.alice);
                                 ("to", JS.VString Examples.bob);
                                 ("amount", JS.VNumber 200%float)])
                    Examples.alice Examples.bob 200%float
                    {[Examples.alice := JS.VNumber 100%float]}
                    eq_refl eq_refl eq_refl
                    (Hplain _ (or_introl eq_refl)) (Hplain _ (or_intror eq_refl))
                    (Hnum _ (or_introl eq_refl)) (Hnum _ (or_intror eq_refl)))).
    vm_compute. reflexivity.
Defined.

(** A transfer of 0 from an address that holds nothing: the balance, 0,
    is not less than the amount, and the transfer is rejected all the
    same, as lacking funds. *)
Lemma transfer_of_nothing_rejected :
  PrimFloat.ltb (Part001.held ∅ Examples.alice) 0%float = false
  /\ Host.listing
       (Part001.handleAdvance (H := Reference.runtime)
          (Examples.json_transfer Examples.alice Examples.bob "0") ∅)
     = (inr "reject", [],
        [Host.Report [JS.Lit "Error: "; JS.Lit "Insufficient balance in ";
                      JS.OfValue (JS.VString Examples.alice); JS.Lit ". Current: ";
                      JS.OfValue (JS.VNumber 0%float); JS.Lit ", needed: ";
                      JS.OfValue (JS.VNumber 0%float)]]).
Proof.
  split; vm_compute; reflexivity.
Qed.



(** ** The request loops *)

Section Loops.
Import JS Lib Host.
Context `{Runtime}.



Lemma loop_never_crashed {S} (advance inspect : requestData -> M S string)
    (answers : list finishResp) (resultStatus : string) (balances : S) :
  total_handler advance -> total_handler inspect ->
  never_crashed (loop advance inspect resultStatus balances answers)
  /\ length (loop advance inspect resultStatus balances answers) = Datatypes.S (length answers).
Proof.
  intros Hadv Hins. revert resultStatus balances.
  induction answers as [| [| request_type data] rest IH]; intros resultStatus balances;
    cbn [loop].
  - split; [| reflexivity]. intros e ex out [<- | []]. discriminate.
  - destruct (IH resultStatus balances) as [Hnc Hlen]. split; [| cbn; now rewrite Hlen].
    intros e ex out [<- | Hin]; [discriminate | now apply Hnc].
  - unfold dispatch.
    destruct (String.eqb request_type "advance_state");
      [destruct (Hadv data balances) as (status & after & out & ->) |
       destruct (String.eqb request_type "inspect_state");
       [destruct (Hins data balances) as (status & after & out & ->) |]].
    + destruct (IH status after) as [Hnc Hlen]. split; [| cbn; now rewrite Hlen].
      intros e ex out' [<- | Hin]; [discriminate | now apply Hnc].
    + destruct (IH status after) as [Hnc Hlen]. split; [| cbn; now rewrite Hlen].
      intros e ex out' [<- | Hin]; [discriminate | now apply Hnc].
    + destruct (IH resultStatus balances) as [Hnc Hlen]. split; [| cbn; now rewrite Hlen].
      intros e ex out' [<- | Hin]; [discriminate | now apply Hnc].
Qed.


(** *** Handlers return *)

Lemma mbind_returns {L A B} (c : M L A) (k : A -> M L B) (s s' : L)
    (b : B) (out : list event) :
  mbind c k s = (inr b, s', out) ->
  exists a s1 out1 out2,
    c s = (inr a, s1, out1) /\ k a s1 = (inr b, s', out2) /\ out = out1 ++ out2.
Proof.
  unfold mbind. destruct (c s) as [[[e | a] s1] out1]; [discriminate |].
  destruct (k a s1) as [[r s2] out2] eqn:Hk. intros [= -> -> <-].
  now exists a, s1, out1, out2.
Qed.

(** A [try] whose [catch] reports the error and returns "reject". *)
Lemma try_catch_report {L} (body : M L string) (s : L) :
  exists status after out,
    try_catch body
      (fun err => mbind (emit (Report (Lit "Error: " :: message err)))
                    (fun _ => mret "reject")) s
    = (inr status, after, out)
    /\ (body s = (inr status, after, out)
        \/ status = "reject"
           /\ exists e pre, body s = (inl e, after, pre)
                /\ out = pre ++ [Report (Lit "Error: " :: message e)]).
Proof.
  unfold try_catch. destruct (body s) as [[[e | status] after] out].
  - do 3 eexists. split; [reflexivity |]. right. split; [reflexivity |].
    exists e, out. split; reflexivity.
  - do 3 eexists. split; [reflexivity |]. now left.
Qed.

Lemma advance001_returns (requestData : requestData) (balances : Part001.ledger) :
  exists status after out,
    Part001.handleAdvance requestData balances = (inr status, after, out)
    /\ (status = "accept"
        \/ status = "reject"
           /\ exists pre m, out = pre ++ [Report (Lit "Error: " :: m)]).
Proof.
  unfold Part001.handleAdvance, Part001.sendReport.
  match goal with
  | |- context [try_catch ?body _] =>
      destruct (try_catch_report body balances)
        as (status & after & out & Hrun & [Hbody | (-> & e & pre & _ & ->)])
  end.
  - exists status, after, out. split; [exact Hrun |]. left.
    apply mbind_returns in Hbody as (parsed & s1 & o1 & o2 & _ & Hbody & _).
    apply mbind_returns in Hbody as (action & s2 & o3 & o4 & _ & Hbody & _).
    apply mbind_returns in Hbody as (u & s3 & o5 & o6 & _ & Hbody & _).
    now injection Hbody as <-.
  - do 3 eexists. split; [exact Hrun |]. right. split; [reflexivity |]. eauto.
Qed.

Lemma inspect001_returns (requestData : requestData) (balances : Part001.ledger) :
  exists status after out,
    Part001.handleInspect requestData balances = (inr status, after, out).
Proof.
  unfold Part001.handleInspect, try_catch.
  match goal with
  | |- context [match ?body with _ => _ end] =>
      destruct body as [[[e | status] after] out]
  end; do 3 eexists; reflexivity.
Qed.

Lemma handlers_total :
  total_handler Part000.handleAdvance /\ total_handler Part000.handleInspect
  /\ total_handler IndexJs.handleAdvance /\ total_handler IndexJs.handleInspect
  /\ total_handler Part001.handleAdvance /\ total_handler Part001.handleInspect.
Proof.
  repeat split; intros requestData balances.
  - destruct (handleAdvance_steps requestData balances) as (s & a & o & Hrun & _); eauto.
  - destruct (handleInspect_steps requestData balances) as (s & o & Hrun & _); eauto.
  - destruct (index_handleAdvance_steps requestData balances) as (s & a & o & Hrun & _); eauto.
  - destruct (handleInspect_steps requestData balances) as (s & o & Hrun & _); eauto.
  - destruct (advance001_returns requestData balances) as (s & a & o & Hrun & _); eauto.
  - apply inspect001_returns.
Qed.


End Loops.



(** ** Where a variant departs from the others *)

(** C3 at src/index.js: a payload of 21 bytes, shorter than the 52 of a
    deposit, is decoded all the same, the one byte after the address
    read as the amount, and the deposit is credited.  (part_000 checks
    the length first: [parseDepositPayload_short].) *)
Lemma index_decodes_short_payload :
  length (Host.payload Examples.short_deposit) = 21%nat
  /\ IndexJs.parseDepositPayload (H := Reference.runtime)
       (Host.payload Examples.short_deposit)
     = inr (Examples.alice, 1)
  /\ Host.listing
       (IndexJs.handleAdvance (H := Reference.runtime) Examples.short_deposit ∅)
     = (inr "accept", [(Examples.alice, 1)],
        [Host.Notice [JS.Lit "Deposit OK: recipient="; JS.Lit Examples.alice;
                      JS.Lit ", newBalance="; JS.OfBigInt 1]]).
Proof.
  repeat split; vm_compute; reflexivity.
Qed.

(** C7 at part_000: the deposit path keys the ledger by the checksummed
    address, and the inspect path looks the [user] string up as it is
    written.  After a deposit of 1000 to Carol, a query in checksummed
    casing reports 1000 and a query in lower case reports 0. *)
Lemma inspect_reads_key_verbatim :
  Lib.getAddress (H := Reference.runtime) (JS.VString Examples.carol_lower)
  = inr Examples.carol
  /\ map_to_list Examples.carol_funded = [(Examples.carol, 1000)]
  /\ Host.events_of
       (Part000.handleInspect (H := Reference.runtime)
          (Examples.balance_request Examples.carol) Examples.carol_funded)
     = [Host.Report [JS.Lit "Balance of "; JS.OfValue (JS.VString Examples.carol);
                     JS.Lit " = "; JS.OfBigInt 1000; JS.Lit " wei"]]
  /\ Host.events_of
       (Part000.handleInspect (H := Reference.runtime)
          (Examples.balance_request Examples.carol_lower) Examples.carol_funded)
     = [Host.Report [JS.Lit "Balance of "; JS.OfValue (JS.VString Examples.carol_lower);
                     JS.Lit " = "; JS.OfBigInt 0; JS.Lit " wei"]].
Proof.
  repeat split; vm_compute; reflexivity.
Qed.

(** C8 at part_001: an Inspect payload that is not JSON makes
    [handleInspect] return "reject" and post nothing, where the same
    payload sent as Advance is reported. *)
Lemma inspect_error_goes_unreported :
  Host.listing
    (Part001.handleInspect (H := Reference.runtime) (Examples.text_request "hello") ∅)
  = (inr "reject", [], [])
  /\ Host.listing
       (Part001.handleAdvance (H := Reference.runtime) (Examples.text_request "hello") ∅)
     = (inr "reject", [],
        [Host.Report [JS.Lit "Error: "; JS.OfFault (JS.JSONSyntaxError "hello")]]).
Proof.
  split; vm_compute; reflexivity.
Qed.


(** ** Canonical addresses *)

Section Canonical.
Import JS Lib.
Context `{Runtime}.

Lemma lower_upper (c : ascii) : lower (upper c) = lower c.
Proof.
  destruct c as [[|] [|] [|] [|] [|] [|] [|] [|]]; reflexivity.
Qed.

Lemma substring_all (s : string) : String.substring 0 (String.length s) s = s.
Proof. induction s as [| c s IH]; [reflexivity |]. cbn. now rewrite IH. Qed.

Lemma length_smap (f : ascii -> ascii) (s : string) :
  String.length (smap f s) = String.length s.
Proof. induction s as [| c s IH]; [reflexivity |]. cbn. now rewrite IH. Qed.

(** The casing of the checksum leaves the lower-case text. *)
Lemma toLowerCase_checksum_digits (hash : list Byte.byte) (digits : string) :
  toLowerCase (checksum_digits hash digits) = toLowerCase digits.
Proof.
  revert digits. induction hash as [| h hash IH]; intros digits.
  - now destruct digits as [| c0 [| c1 rest]].
  - destruct digits as [| c0 [| c1 rest]]; try reflexivity.
    cbn [checksum_digits toLowerCase smap]. fold (toLowerCase (checksum_digits hash rest)).
    fold (toLowerCase rest). rewrite IH.
    destruct (8 <=? byte_val h / 16), (8 <=? byte_val h mod 16);
      now rewrite ?lower_upper.
Qed.

Lemma toLowerCase_hex_of_bytes (bs : list Byte.byte) :
  toLowerCase (hex_of_bytes bs) = hex_of_bytes bs.
Proof.
  induction bs as [| b bs IH]; [reflexivity |].
  destruct (byte_nibbles b) as [Hhi Hlo].
  cbn [hex_of_bytes toLowerCase smap]. fold (toLowerCase (hex_of_bytes bs)).
  now rewrite IH, (lower_hex_digit _ Hhi), (lower_hex_digit _ Hlo).
Qed.

(** The text of an address, past the [0x]. *)
Lemma checksumAddress_body (body : string) :
  checksumAddress (String "0" (String "x" body))
  = String "0" (String "x"
      (checksum_digits (Keccak.keccak256 (list_byte_of_string (toLowerCase body)))
                       (toLowerCase body))).
Proof.
  unfold checksumAddress. cbn [String.length String.substring].
  replace (S (S (String.length body)) - 2)%nat with (String.length body) by lia.
  now rewrite substring_all.
Qed.

(** The canonical form of twenty bytes spells the same bytes. *)
Lemma checksumAddress_hexlify_lower (bs : list Byte.byte) :
  toLowerCase (checksumAddress (hexlify bs)) = hexlify bs.
Proof.
  unfold hexlify. rewrite checksumAddress_body.
  cbn [toLowerCase smap]. fold (toLowerCase (checksum_digits
    (Keccak.keccak256 (list_byte_of_string (toLowerCase (hex_of_bytes bs))))
    (toLowerCase (hex_of_bytes bs)))).
  now rewrite toLowerCase_checksum_digits, !toLowerCase_hex_of_bytes.
Qed.

Lemma isAddress_inv (s : string) :
  isAddress s = true ->
  exists body, s = String "0" (String "x" body)
               /\ String.length body = 40%nat /\ all_hex body = true.
Proof.
  destruct s as [| a [| b body]]; try discriminate;
    destruct a as [[|] [|] [|] [|] [|] [|] [|] [|]]; try discriminate;
    destruct b as [[|] [|] [|] [|] [|] [|] [|] [|]]; try discriminate.
  cbn [isAddress]. intros [Hlen Hhex]%andb_prop.
  exists body. repeat split; [now apply Nat.eqb_eq | exact Hhex].
Qed.

Lemma toLowerCase_idempotent (s : string) : toLowerCase (toLowerCase s) = toLowerCase s.
Proof.
  induction s as [| c s IH]; [reflexivity |].
  cbn [toLowerCase smap]. fold (toLowerCase s). fold (toLowerCase (toLowerCase s)).
  rewrite IH. f_equal.
  destruct c as [[|] [|] [|] [|] [|] [|] [|] [|]]; reflexivity.
Qed.

(** X6.  [getAddress] does not see the casing of its argument, and what it
    returns is the argument in another casing. *)
Theorem getAddress_ignores_case (s s' : string) :
  isAddress s = true -> isAddress s' = true ->
  toLowerCase s = toLowerCase s' ->
  getAddress (VString s) = getAddress (VString s')
  /\ exists canonical,
       getAddress (VString s) = inr canonical /\ toLowerCase canonical = toLowerCase s.
Proof.
  intros Hs Hs' Hlow. unfold getAddress. rewrite Hs, Hs'.
  destruct (isAddress_inv s Hs) as (body & -> & _ & _).
  destruct (isAddress_inv s' Hs') as (body' & -> & _ & _).
  rewrite !checksumAddress_body.
  cbn [toLowerCase smap] in Hlow. injection Hlow as Hbody.
  fold (toLowerCase body) in Hbody. fold (toLowerCase body') in Hbody.
  rewrite Hbody. split; [reflexivity |].
  eexists. split; [reflexivity |].
  cbn [toLowerCase smap].
  fold (toLowerCase (checksum_digits
    (Keccak.keccak256 (list_byte_of_string (toLowerCase body'))) (toLowerCase body'))).
  fold (toLowerCase body).
  now rewrite toLowerCase_checksum_digits, <- Hbody, toLowerCase_idempotent.
Qed.

End Canonical.

(** ** Further properties of the three variants *)

Section Further.
Import JS Lib Host.
Context `{Runtime}.

Lemma be_uint_bound (bs : list Byte.byte) : be_uint bs < 256 ^ Z.of_nat (length bs).
Proof.
  unfold be_uint.
  assert (Hgen : forall acc k, 0 <= k -> 0 <= acc < 256 ^ k ->
            fold_left (fun a b => 256 * a + byte_val b) bs acc
            < 256 ^ (k + Z.of_nat (length bs))).
  { induction bs as [| b bs IH]; intros acc k Hk Hacc; cbn [fold_left length].
    - rewrite Z.add_0_r. lia.
    - replace (k + Z.of_nat (Datatypes.S (length bs)))
        with ((k + 1) + Z.of_nat (length bs)) by lia.
      apply IH; [lia |]. rewrite Z.pow_add_r, Z.pow_1_r by lia.
      pose proof (byte_val_range b). lia. }
  apply (Hgen 0 0); [lia | cbn; lia].
Qed.

Lemma amount_slice_bound (payload : list Byte.byte) :
  0 <= be_uint (Part000.slice 20 52 payload) < 2 ^ 256.
Proof.
  split; [apply be_uint_nonneg |].
  eapply Z.lt_le_trans; [apply be_uint_bound |].
  change (2 ^ 256) with (256 ^ Z.of_nat 32).
  apply Z.pow_le_mono_r; [lia |].
  unfold Part000.slice. rewrite length_firstn, length_skipn. lia.
Qed.

Lemma total_insert (balances : Part000.ledger) (k : string) (v : Z) :
  Part000.total (<[k := v]> balances)
  = Part000.total balances - Part000.balanceOf balances k + v.
Proof.
  unfold Part000.total, Part000.balanceOf.
  destruct (balances !! k) as [n |] eqn:Hk.
  - rewrite (map_fold_delete_L _ _ k n balances) by (intros; lia || exact Hk).
    rewrite <- (insert_delete_eq balances k v).
    rewrite map_fold_insert_L by (intros; lia || apply lookup_delete_eq).
    lia.
  - rewrite map_fold_insert_L by (intros; lia || exact Hk). lia.
Qed.

(** X1.  part_000 decodes a deposit: a payload of fewer than 52 bytes is
    refused as too short; of any other payload the first 20 bytes give
    the recipient, in checksummed casing, and the 32 bytes after them
    the amount, as an unsigned big-endian integer below [2 ^ 256]. *)
Theorem deposit_payload_decoded (payload : list Byte.byte) :
  Part000.parseDepositPayload payload
  = (if (length payload <? 52)%nat
     then inl (Error [Lit "Error parsing deposit payload: ";
                      Lit "Payload too short for a deposit."])
     else inr (checksumAddress (hexlify (Part000.slice 0 20 payload)),
               be_uint (Part000.slice 20 52 payload)))
  /\ toLowerCase (checksumAddress (hexlify (Part000.slice 0 20 payload)))
     = hexlify (Part000.slice 0 20 payload)
  /\ 0 <= be_uint (Part000.slice 20 52 payload) < 2 ^ 256.
Proof.
  split; [| split].
  - destruct (Nat.ltb_spec (length payload) 52) as [Hlt | Hge].
    + now apply parseDepositPayload_short.
    + now apply parseDepositPayload_long.
  - apply checksumAddress_hexlify_lower.
  - apply amount_slice_bound.
Qed.

(** X5.  A binary deposit in part_000 adds the amount to the recipient's
    balance, leaves every other balance, raises the total by the
    amount and posts one notice. *)
Theorem deposit_credits_recipient (requestData : requestData)
    (balances : Part000.ledger) (sender recipient : string) (amount : Z) :
  Part000.as_json requestData = None ->
  metadata requestData = Some sender ->
  Part000.parseDepositPayload (payload requestData) = inr (recipient, amount) ->
  exists after,
    Part000.handleAdvance requestData balances
    = (inr "accept", after,
       [Notice [Lit "Deposit OK: recipient="; Lit recipient; Lit ", newBalance=";
                OfBigInt (Part000.balanceOf balances recipient + amount)]])
    /\ Part000.balanceOf after recipient = Part000.balanceOf balances recipient + amount
    /\ (forall k, k <> recipient -> after !! k = balances !! k)
    /\ Part000.total after = Part000.total balances + amount.
Proof.
  intros Hjson Hmeta Hparse.
  rewrite (handleAdvance_binary _ balances Hjson), Hparse, Hmeta. cbv zeta.
  eexists. split; [reflexivity |]. split; [| split].
  - unfold Part000.balanceOf at 1. now rewrite lookup_insert_eq.
  - intros k Hk. now rewrite lookup_insert_ne.
  - rewrite total_insert. lia.
Qed.

(** X4.  Settling in part_000 against a loser with nothing on record is
    accepted: one report, no voucher, the ledger as it was. *)
Theorem settle_without_balance (requestData : requestData) (balances : Part000.ledger)
    (parsed win loss : value) (winner loser : string) :
  Part000.as_json requestData = Some parsed ->
  getProp parsed "win" = inr win ->
  getProp parsed "loss" = inr loss ->
  getAddress win = inr winner ->
  getAddress loss = inr loser ->
  Part000.balanceOf balances loser <= 0 ->
  Part000.handleAdvance requestData balances
  = (inr "accept", balances,
     [Report [Lit "Loser "; Lit loser; Lit " has no balance to transfer."]]).
Proof.
  intros Hjson Hwin Hloss Hwinner Hloser Hbal.
  rewrite (handleAdvance_json _ _ _ _ _ Hjson Hwin Hloss).
  rewrite (getAddress_truthy _ _ Hwinner), (getAddress_truthy _ _ Hloser).
  cbn [andb]. rewrite Hwinner, Hloser. cbv zeta.
  destruct (Z.ltb_spec 0 (Part000.balanceOf balances loser)) as [Hpos | _];
    [lia | reflexivity].
Qed.

(** X7.  The voucher part_000 posts carries its amount as 32 big-endian
    bytes in hex, which read back as the amount. *)
Theorem voucher_carries_amount (recipient : string) (amount : Z)
    (balances : Part000.ledger) :
  0 <= amount < 2 ^ 256 ->
  exists voucher,
    Part000.generateVoucher recipient amount balances
    = (inr tt, balances, [Voucher recipient voucher])
    /\ BigInt voucher = inr amount
    /\ String.length voucher = 66%nat.
Proof.
  intros Hamount.
  destruct (toBeHex_32 amount Hamount) as (voucher & Hhex & Hback & Hlen).
  exists voucher. split; [| now split].
  unfold Part000.generateVoucher, mbind, lift, emit. now rewrite Hhex.
Qed.

End Further.

Section Survival.
Import JS Lib Host.
Context `{Runtime}.

Lemma loop001_never_crashed (answers : list finishResp) (balances : Part001.ledger) :
  never_crashed (Part001.loop balances answers).
Proof.
  remember (length answers) as n eqn:Hn.
  revert answers balances Hn.
  induction n as [n IH] using lt_wf_ind. intros answers balances Hn.
  destruct answers as [| [| request_type data] rest]; cbn [Part001.loop].
  - intros e ex out [<- | []]. discriminate.
  - intros e ex out [<- | Hin]; [discriminate |].
    revert Hin. apply (IH (length rest)); [cbn in Hn; lia | reflexivity].
  - assert (Hrest : forall status after,
              never_crashed
                (match rest with
                 | [] => [{| sent := status; got := Pending |}]
                 | _ :: rest' =>
                     {| sent := status; got := Dropped |} :: Part001.loop after rest'
                 end)).
    { intros status after. destruct rest as [| answer rest'].
      - intros e ex out [<- | []]. discriminate.
      - intros e ex out [<- | Hin]; [discriminate |].
        revert Hin. apply (IH (length rest')); [cbn in Hn; lia | reflexivity]. }
    unfold dispatch.
    destruct (String.eqb request_type "advance_state");
      [destruct (advance001_returns data balances) as (status & after & out & -> & _) |
       destruct (String.eqb request_type "inspect_state");
       [destruct (inspect001_returns data balances) as (status & after & out & ->) |]];
      (intros e ex out' [<- | Hin]; [discriminate | revert Hin; apply Hrest]).
Qed.

(** X2.  Every handler of the three variants returns on every request, and
    none of the three loops dies on a request, whatever the host
    answers. *)
Theorem handlers_always_answer (answers : list finishResp) :
  (total_handler Part000.handleAdvance /\ total_handler Part000.handleInspect
   /\ total_handler IndexJs.handleAdvance /\ total_handler IndexJs.handleInspect
   /\ total_handler Part001.handleAdvance /\ total_handler Part001.handleInspect)
  /\ never_crashed (Part000.mainLoop answers)
  /\ never_crashed (IndexJs.mainLoop answers)
  /\ never_crashed (Part001.mainLoop answers).
Proof.
  pose proof handlers_total as (Ha0 & Hi0 & Ha1 & Hi1 & Ha2 & Hi2).
  split; [now repeat split |]. split; [| split].
  - apply loop_never_crashed; assumption.
  - apply loop_never_crashed; assumption.
  - apply loop001_never_crashed.
Qed.

Lemma inspect001_reads_only (requestData : requestData) (balances : Part001.ledger) :
  exists status out,
    Part001.handleInspect requestData balances = (inr status, balances, out)
    /\ (out = [] \/ exists m, out = [Report m]).
Proof.
  unfold Part001.handleInspect, try_catch, mbind, lift, get, Part001.sendReport,
    emit, mret.
  destruct (JSON_parse (TextDecoder_decode (payload requestData))) as [parsed |];
    cbn -[interpolate]; [| do 2 eexists; split; [reflexivity | now left]].
  destruct (getProp parsed "action") as [e | action];
    cbn -[interpolate]; [do 2 eexists; split; [reflexivity | now left] |].
  destruct (getProp parsed "user") as [e | user];
    cbn -[interpolate]; [do 2 eexists; split; [reflexivity | now left] |].
  destruct (is_string action "balance" && truthy user);
    cbn -[interpolate]; [| do 2 eexists; split; [reflexivity | now left]].
  destruct (ToPropertyKey user) as [e | key];
    cbn -[interpolate]; [do 2 eexists; split; [reflexivity | now left] |].
  destruct (interpolate _) as [e | m];
    cbn; do 2 eexists; (split; [reflexivity | eauto]).
Qed.

(** X3.  Inspect is a read: in the three variants [handleInspect] leaves
    the ledger as it found it and posts at most one report, so asking
    again gives the same answer. *)
Theorem inspect_is_read_only (requestData : requestData) :
  (forall balances : Part000.ledger,
     ledger_of (Part000.handleInspect requestData balances) = balances
     /\ (length (events_of (Part000.handleInspect requestData balances)) <= 1)%nat
     /\ Part000.handleInspect requestData
          (ledger_of (Part000.handleInspect requestData balances))
        = Part000.handleInspect requestData balances)
  /\ (forall balances : IndexJs.ledger,
        ledger_of (IndexJs.handleInspect requestData balances) = balances
        /\ (length (events_of (IndexJs.handleInspect requestData balances)) <= 1)%nat
        /\ IndexJs.handleInspect requestData
             (ledger_of (IndexJs.handleInspect requestData balances))
           = IndexJs.handleInspect requestData balances)
  /\ (forall balances : Part001.ledger,
        ledger_of (Part001.handleInspect requestData balances) = balances
        /\ (length (events_of (Part001.handleInspect requestData balances)) <= 1)%nat
        /\ Part001.handleInspect requestData
             (ledger_of (Part001.handleInspect requestData balances))
           = Part001.handleInspect requestData balances).
Proof.
  assert (H0 : forall balances : Part000.ledger,
            ledger_of (Part000.handleInspect requestData balances) = balances
            /\ (length (events_of (Part000.handleInspect requestData balances)) <= 1)%nat
            /\ Part000.handleInspect requestData
                 (ledger_of (Part000.handleInspect requestData balances))
               = Part000.handleInspect requestData balances).
  { intros balances.
    destruct (handleInspect_steps requestData balances) as (status & out & Hrun & Hstep).
    rewrite Hrun. cbn [ledger_of events_of fst snd]. rewrite Hrun.
    repeat split. destruct Hstep; cbn; lia. }
  split; [exact H0 |]. split; [exact H0 |].
  intros balances.
  destruct (inspect001_reads_only requestData balances)
    as (status & out & Hrun & [-> | [m ->]]);
    rewrite Hrun; cbn [ledger_of events_of fst snd]; rewrite Hrun;
    repeat split; cbn; lia.
Qed.

(** X8.  In part_001 an Advance payload that parses as JSON [null]
    is rejected, reading its [action] being a TypeError that is
    reported; one that parses as any other value and whose action is
    neither "deposit" nor "transfer" is accepted, and nothing is posted
    for it. *)
Theorem part001_other_action_accepted (requestData : requestData)
    (balances : Part001.ledger) (parsed : value) :
  JSON_parse (TextDecoder_decode (payload requestData)) = Some parsed ->
  (parsed = VNull ->
   Part001.handleAdvance requestData balances
   = (inr "reject", balances,
      [Report [Lit "Error: "; OfFault (TypeError "Cannot read properties")]]))
  /\ (forall action,
        getProp parsed "action" = inr action ->
        is_string action "deposit" = false ->
        is_string action "transfer" = false ->
        Part001.handleAdvance requestData balances = (inr "accept", balances, [])).
Proof.
  intros Hparse. split.
  - intros ->. unfold Part001.handleAdvance, try_catch, mbind, lift, mret.
    rewrite Hparse. reflexivity.
  - intros action Haction Hdep Htra.
    unfold Part001.handleAdvance, try_catch, mbind, lift, mret.
    rewrite Hparse. cbn [ret]. rewrite Haction, Hdep, Htra. reflexivity.
Qed.

(** X9.  An address with no balance on record is reported as holding zero,
    in part_000 and in part_001. *)
Theorem unknown_address_reads_zero (query : requestData) (parsed : value) (a : string) :
  Part001.plain_key a ->
  JSON_parse (TextDecoder_decode (payload query)) = Some parsed ->
  getProp parsed "action" = inr (VString "balance") ->
  getProp parsed "user" = inr (VString a) ->
  (forall balances : Part000.ledger,
     balances !! a = None ->
     Part000.handleInspect query balances
     = (inr "accept", balances,
        [Report [Lit "Balance of "; OfValue (VString a); Lit " = ";
                 OfBigInt 0; Lit " wei"]]))
  /\ (forall balances : Part001.ledger,
        balances !! a = None ->
        Part001.handleInspect query balances
        = (inr "accept", balances,
           [Report [Lit "Balance of "; OfValue (VString a); Lit " = ";
                    OfValue (VNumber PrimFloat.zero)]])).
Proof.
  intros Hkey Hparse Haction Huser. split; intros balances Hnone.
  - rewrite (inspect_balance_000 _ _ _ _ Hparse Haction Huser Hkey).
    unfold Part000.balanceOf. now rewrite Hnone.
  - rewrite (inspect_balance_001 _ _ _ _ Hparse Haction Huser Hkey) by now left.
    unfold Part001.held. now rewrite Hnone.
Qed.

End Survival.

Lemma getAddress_ignores_case_witness :
  Lib.getAddress (H := Reference.runtime) (JS.VString Examples.carol_lower)
  = Lib.getAddress (H := Reference.runtime) (JS.VString Examples.carol)
  /\ exists canonical,
       Lib.getAddress (H := Reference.runtime) (JS.VString Examples.carol_lower)
       = inr canonical
       /\ Lib.toLowerCase canonical = Lib.toLowerCase Examples.carol_lower.
Proof.
  apply (getAddress_ignores_case (H := Reference.runtime)
           Examples.carol_lower Examples.carol);
    vm_compute; reflexivity.
Defined.

Lemma deposit_credits_recipient_witness :
  exists after,
    Part000.handleAdvance (H := Reference.runtime)
      (Examples.deposit_request Examples.alice_bytes 5) {[Examples.alice := 100]}
    = (inr "accept", after,
       [Host.Notice [JS.Lit "Deposit OK: recipient="; JS.Lit Examples.alice;
                     JS.Lit ", newBalance=";
                     JS.OfBigInt (Part000.balanceOf {[Examples.alice := 100]} Examples.alice + 5)]])
    /\ Part000.balanceOf after Examples.alice
       = Part000.balanceOf {[Examples.alice := 100]} Examples.alice + 5
    /\ (forall k, k <> Examples.alice ->
        after !! k = ({[Examples.alice := 100]} : gmap string Z) !! k)
    /\ Part000.total after = Part000.total {[Examples.alice := 100]} + 5.
Proof.
  apply (deposit_credits_recipient (H := Reference.runtime)
           (Examples.deposit_request Examples.alice_bytes 5) {[Examples.alice := 100]}
           Examples.bob Examples.alice 5);
    vm_compute; reflexivity.
Defined.

Lemma settle_without_balance_witness :
  Part000.handleAdvance (H := Reference.runtime)
    (Examples.settle_request Examples.bob Examples.alice) ∅
  = (inr "accept", ∅,
     [Host.Report [JS.Lit "Loser "; JS.Lit Examples.alice;
                   JS.Lit " has no balance to transfer."]]).
Proof.
  apply (settle_without_balance (H := Reference.runtime)
           (Examples.settle_request Examples.bob Examples.alice) ∅
           (JS.VObject [("win", JS.VString Examples.bob);
                        ("loss", JS.VString Examples.alice)])
           (JS.VString Examples.bob) (JS.VString Examples.alice)
           Examples.bob Examples.alice);
    try (vm_compute; reflexivity).
  vm_compute. discriminate.
Defined.

Lemma voucher_carries_amount_witness :
  exists voucher,
    Part000.generateVoucher Examples.bob 100 ∅
    = (inr tt, ∅, [Host.Voucher Examples.bob voucher])
    /\ Lib.BigInt voucher = inr 100
    /\ String.length voucher = 66%nat.
Proof.
  apply (voucher_carries_amount Examples.bob 100 ∅). split; [lia | reflexivity].
Defined.

Lemma part001_other_action_accepted_witness :
  Part001.handleAdvance (H := Reference.runtime)
    (Examples.settle_request Examples.bob Examples.alice) ∅
  = (inr "accept", ∅, [])
  /\ Part001.handleAdvance (H := Reference.runtime) (Examples.text_request "null") ∅
     = (inr "reject", ∅,
        [Host.Report [JS.Lit "Error: ";
                      JS.OfFault (JS.TypeError "Cannot read properties")]]).
Proof.
  split.
  - refine (proj2 (part001_other_action_accepted (H := Reference.runtime)
                     (Examples.settle_request Examples.bob Examples.alice) ∅
                     (JS.VObject [("win", JS.VString Examples.bob);
                                  ("loss", JS.VString Examples.alice)]) _)
              JS.VUndefined _ _ _);
      vm_compute; reflexivity.
  - refine (proj1 (part001_other_action_accepted (H := Reference.runtime)
                     (Examples.text_request "null") ∅ JS.VNull _) _);
      vm_compute; reflexivity.
Defined.

Lemma unknown_address_reads_zero_witness :
  Part000.handleInspect (H := Reference.runtime)
    (Examples.balance_request Examples.alice) ∅
  = (inr "accept", ∅,
     [Host.Report [JS.Lit "Balance of "; JS.OfValue (JS.VString Examples.alice);
                   JS.Lit " = "; JS.OfBigInt 0; JS.Lit " wei"]])
  /\ Part001.handleInspect (H := Reference.runtime)
       (Examples.balance_request Examples.alice) ∅
     = (inr "accept", ∅,
        [Host.Report [JS.Lit "Balance of "; JS.OfValue (JS.VString Examples.alice);
                      JS.Lit " = "; JS.OfValue (JS.VNumber PrimFloat.zero)]]).
Proof.
  destruct (unknown_address_reads_zero (H := Reference.runtime)
              (Examples.balance_request Examples.alice)
              (JS.VObject [("action", JS.VString "balance");
                           ("user", JS.VString Examples.alice)])
              Examples.alice
              ltac:(split; reflexivity)
              ltac:(vm_compute; reflexivity) eq_refl eq_refl) as [H0 H1].
  split; [apply H0 | apply H1]; reflexivity.
Defined.


(** ** Ledger keys, payouts and reads *)

Section Keys.
Import JS Lib Host Views.
Context `{Runtime}.

Lemma is_hex_upper (c : ascii) : is_hex (upper c) = is_hex c.
Proof.
  destruct c as [[|] [|] [|] [|] [|] [|] [|] [|]]; reflexivity.
Qed.

Lemma is_hex_lower (c : ascii) : is_hex (lower c) = is_hex c.
Proof.
  destruct c as [[|] [|] [|] [|] [|] [|] [|] [|]]; reflexivity.
Qed.

Lemma all_hex_toLowerCase (s : string) : all_hex (toLowerCase s) = all_hex s.
Proof.
  induction s as [| c s IH]; [reflexivity |].
  cbn [toLowerCase smap all_hex]. fold (toLowerCase s).
  now rewrite IH, is_hex_lower.
Qed.

Lemma all_hex_checksum_digits (hash : list Byte.byte) (digits : string) :
  all_hex (checksum_digits hash digits) = all_hex digits.
Proof.
  revert digits. induction hash as [| h hash IH]; intros digits.
  - now destruct digits as [| c0 [| c1 rest]].
  - destruct digits as [| c0 [| c1 rest]]; try reflexivity.
    cbn [checksum_digits all_hex]. rewrite IH.
    destruct (8 <=? byte_val h / 16), (8 <=? byte_val h mod 16);
      now rewrite ?is_hex_upper.
Qed.

Lemma length_checksum_digits (hash : list Byte.byte) (digits : string) :
  String.length (checksum_digits hash digits) = String.length digits.
Proof.
  revert digits. induction hash as [| h hash IH]; intros digits.
  - now destruct digits as [| c0 [| c1 rest]].
  - destruct digits as [| c0 [| c1 rest]]; try reflexivity.
    cbn [checksum_digits String.length]. now rewrite IH.
Qed.

(** What [getAddress] returns it returns again when given it. *)
Lemma getAddress_fixed (a : value) (k : string) :
  getAddress a = inr k -> getAddress (VString k) = inr k.
Proof.
  intros Hk. destruct (getAddress_inv _ _ Hk) as (s & Hs & ->).
  destruct (isAddress_inv s Hs) as (body & -> & Hlen & Hhex).
  rewrite checksumAddress_body.
  set (low := toLowerCase body).
  set (digits := checksum_digits (Keccak.keccak256 (list_byte_of_string low)) low).
  assert (Hlow : toLowerCase digits = low).
  { unfold digits. rewrite toLowerCase_checksum_digits. apply toLowerCase_idempotent. }
  unfold getAddress.
  assert (Hfixed : isAddress (String "0" (String "x" digits)) = true).
  { cbn [isAddress]. unfold digits.
    rewrite length_checksum_digits, all_hex_checksum_digits.
    unfold low, toLowerCase. rewrite length_smap. fold (toLowerCase body).
    rewrite all_hex_toLowerCase, Hhex, Hlen. reflexivity. }
  rewrite Hfixed, checksumAddress_body, Hlow. reflexivity.
Qed.

End Keys.

Section Invariants.
Import JS Lib Host Views.
Context `{Runtime}.

Lemma canonical_insert (balances : gmap string Z) (k : string) (v : Z) :
  canonical_keys balances -> getAddress (VString k) = inr k ->
  canonical_keys (<[k := v]> balances).
Proof.
  intros Hall Hk k' n. destruct (decide (k = k')) as [<- | Hne].
  - intros _. exact Hk.
  - rewrite lookup_insert_ne by exact Hne. apply Hall.
Qed.

Lemma parse_recipient_fixed (payload : list Byte.byte) (r : string) (a : Z) :
  Part000.parseDepositPayload payload = inr (r, a)
  \/ IndexJs.parseDepositPayload payload = inr (r, a) ->
  getAddress (VString r) = inr r.
Proof.
  assert (Hfix : (20 <= length payload)%nat ->
            getAddress (VString (checksumAddress (hexlify (Part000.slice 0 20 payload))))
            = inr (checksumAddress (hexlify (Part000.slice 0 20 payload)))).
  { intros Hlen. apply (getAddress_fixed (VString (hexlify (Part000.slice 0 20 payload)))).
    apply getAddress_hexlify, slice_length_address, Hlen. }
  intros [Hp | Hp].
  - destruct (Nat.ltb_spec (length payload) 52) as [Hlt | Hge].
    + rewrite parseDepositPayload_short in Hp by exact Hlt. discriminate.
    + rewrite parseDepositPayload_long in Hp by exact Hge.
      injection Hp as <- _. apply Hfix. lia.
  - destruct (lt_eq_lt_dec (length payload) 20) as [[Hlt | Heq] | Hgt].
    + rewrite index_parse_no_address in Hp by exact Hlt. discriminate.
    + rewrite index_parse_no_amount in Hp by exact Heq. discriminate.
    + rewrite index_parse_deposit in Hp by exact Hgt.
      injection Hp as <- _. apply Hfix. lia.
Qed.

Lemma as_json_object (requestData : requestData) (parsed : value) :
  Part000.as_json requestData = Some parsed ->
  truthy parsed && typeof_object parsed = true.
Proof.
  unfold Part000.as_json. destruct (JSON_parse _) as [v |]; [| discriminate].
  destruct (truthy v && typeof_object v) eqn:E; [| discriminate].
  now intros [= <-].
Qed.

Lemma handleAdvance_keys (requestData : requestData) (balances : Part000.ledger) :
  canonical_keys balances ->
  canonical_keys (ledger_of (Part000.handleAdvance requestData balances)).
Proof.
  intros Hall.
  destruct (Part000.as_json requestData) as [parsed |] eqn:Hjson.
  - pose proof (as_json_object _ _ Hjson) as Hobject.
    destruct (getProp_object parsed "win" Hobject) as [win Hwin].
    destruct (getProp_object parsed "loss" Hobject) as [loss Hloss].
    rewrite (handleAdvance_json _ balances _ _ _ Hjson Hwin Hloss).
    destruct (truthy win && truthy loss); [| exact Hall].
    destruct (getAddress win) as [e | winner]; [exact Hall |].
    destruct (getAddress loss) as [e | loser] eqn:Hloser; [exact Hall |].
    cbv zeta. destruct (0 <? Part000.balanceOf balances loser); [| exact Hall].
    destruct (toBeHex (Part000.balanceOf balances loser) 32); [exact Hall |].
    cbn [ledger_of fst snd]. apply canonical_insert; [exact Hall |].
    exact (getAddress_fixed _ _ Hloser).
  - rewrite (handleAdvance_binary _ balances Hjson).
    destruct (Part000.parseDepositPayload (payload requestData))
      as [e | [recipient amount]] eqn:Hp; [exact Hall |].
    destruct (metadata requestData); [| exact Hall].
    cbn [ledger_of fst snd]. apply canonical_insert; [exact Hall |].
    apply (parse_recipient_fixed (payload requestData) recipient amount). now left.
Qed.

Lemma index_handleAdvance_keys (requestData : requestData) (balances : IndexJs.ledger) :
  canonical_keys balances ->
  canonical_keys (ledger_of (IndexJs.handleAdvance requestData balances)).
Proof.
  intros Hall. rewrite index_handleAdvance_eq.
  destruct (metadata requestData); [| exact Hall].
  destruct (IndexJs.parseDepositPayload (payload requestData))
    as [e | [recipient amount]] eqn:Hp; [exact Hall |].
  cbn [ledger_of fst snd]. apply canonical_insert; [exact Hall |].
  apply (parse_recipient_fixed (payload requestData) recipient amount). now right.
Qed.

Lemma inspect_ledger (requestData : requestData) (balances : Part000.ledger) :
  ledger_of (Part000.handleInspect requestData balances) = balances.
Proof.
  now destruct (handleInspect_steps requestData balances) as (status & out & -> & _).
Qed.

(** What every Advance keeps and no Inspect touches holds of the
    ledger after any run. *)
Lemma ledger_after_keeps {L} (P : L -> Prop)
    (advance inspect : requestData -> M L string)
    (answers : list finishResp) (balances : L) :
  (forall requestData balances, P balances -> P (ledger_of (advance requestData balances))) ->
  (forall requestData balances, ledger_of (inspect requestData balances) = balances) ->
  P balances ->
  P (ledger_after advance inspect balances answers).
Proof.
  intros Hadv Hins. revert balances.
  induction answers as [| [| request_type data] rest IH]; intros balances HP;
    cbn [ledger_after]; [exact HP | now apply IH |].
  unfold dispatch.
  destruct (String.eqb request_type "advance_state").
  - specialize (Hadv data balances HP).
    destruct (advance data balances) as [[r after] out]. now apply IH.
  - destruct (String.eqb request_type "inspect_state"); [| now apply IH].
    specialize (Hins data balances).
    destruct (inspect data balances) as [[r after] out].
    cbn [ledger_of fst snd] in Hins. subst after. now apply IH.
Qed.

(** X10.  In part_000 and in src/index.js every key of a ledger the
    request loop can reach is an address in checksummed casing: a
    string [getAddress] accepts and returns as it is. *)
Theorem ledger_keys_canonical (answers : list finishResp) :
  canonical_keys (ledger_after Part000.handleAdvance Part000.handleInspect ∅ answers)
  /\ canonical_keys (ledger_after IndexJs.handleAdvance IndexJs.handleInspect ∅ answers).
Proof.
  assert (Hempty : canonical_keys ∅) by (intros k n; now rewrite lookup_empty).
  split; apply ledger_after_keeps;
    auto using handleAdvance_keys, index_handleAdvance_keys, inspect_ledger.
Qed.

(** X11.  In part_000 and in src/index.js the ledger after a run is the
    ledger after its Advance requests alone: Inspect requests, requests
    of another type and empty answers leave no trace in it. *)
Theorem ledger_ignores_reads (answers : list finishResp) (balances : gmap string Z) :
  ledger_after Part000.handleAdvance Part000.handleInspect balances answers
  = ledger_after Part000.handleAdvance Part000.handleInspect balances
      (List.filter is_advance answers)
  /\ ledger_after IndexJs.handleAdvance IndexJs.handleInspect balances answers
     = ledger_after IndexJs.handleAdvance IndexJs.handleInspect balances
         (List.filter is_advance answers).
Proof.
  assert (Hgen : forall advance : requestData -> M (gmap string Z) string,
            forall balances,
            ledger_after advance Part000.handleInspect balances answers
            = ledger_after advance Part000.handleInspect balances
                (List.filter is_advance answers)).
  { intros advance. induction answers as [| [| request_type data] rest IH];
      intros start; [reflexivity | exact (IH start) |].
    cbn [List.filter is_advance ledger_after]. unfold dispatch.
    destruct (String.eqb request_type "advance_state") eqn:Hadv.
    - cbn [ledger_after]. unfold dispatch. rewrite Hadv.
      destruct (advance data start) as [[r after] out]. apply IH.
    - destruct (String.eqb request_type "inspect_state"); [| apply IH].
      pose proof (inspect_ledger data start) as Hsame.
      destruct (Part000.handleInspect data start) as [[r after] out].
      cbn [ledger_of fst snd] in Hsame. subst after. apply IH. }
  split; apply Hgen.
Qed.

Lemma total_nonneg (balances : Part000.ledger) :
  Part000.nonneg balances -> 0 <= Part000.total balances.
Proof.
  unfold Part000.total.
  induction balances as [| k n m Hk _ IH] using map_first_key_ind; intros Hnn.
  - now rewrite map_fold_empty.
  - rewrite map_fold_insert_L by (intros; lia || exact Hk).
    assert (0 <= n) by (apply (Hnn k); apply lookup_insert_eq).
    assert (Part000.nonneg m).
    { intros k' n' Hk'. apply (Hnn k'). rewrite lookup_insert_ne; [exact Hk' |].
      intros ->. congruence. }
    specialize (IH ltac:(assumption)). lia.
Qed.

Lemma balanceOf_le_total (balances : Part000.ledger) (k : string) :
  Part000.nonneg balances -> 0 <= Part000.balanceOf balances k <= Part000.total balances.
Proof.
  intros Hnn. unfold Part000.balanceOf.
  destruct (balances !! k) as [n |] eqn:Hk.
  - pose proof (Hnn k n Hk).
    assert (Hrest : 0 <= Part000.total (delete k balances)).
    { apply total_nonneg. intros k' n' Hk'. apply (Hnn k').
      apply lookup_delete_Some in Hk'. tauto. }
    unfold Part000.total in *.
    rewrite (map_fold_delete_L _ _ k n balances) by (intros; lia || exact Hk). lia.
  - pose proof (total_nonneg balances Hnn). lia.
Qed.

(** A voucher payload reads back as the amount it was made from. *)
Lemma toBeHex_reads_back (n : Z) (voucher : string) :
  toBeHex n 32 = inr voucher -> BigInt voucher = inr n.
Proof.
  unfold toBeHex. destruct (Z.ltb_spec n 0) as [_ | Hn]; [discriminate |].
  destruct (Nat.leb_spec (String.length (toString16 n)) (32 * 2)) as [Hlen | _];
    [| discriminate].
  intros [= <-].
  set (padded := zeros (64 - String.length (toString16 n)) (toString16 n)).
  assert (Hpl : String.length padded = 64%nat).
  { unfold padded. rewrite length_zeros. lia. }
  assert (Hpv : hex_value 0 padded = Some n).
  { unfold padded. rewrite hex_value_zeros. now apply toString16_value. }
  destruct padded as [| c rest]; [discriminate |].
  unfold BigInt. now rewrite Hpv.
Qed.

(** X12.  part_000 never pays out more than it holds: over a ledger
    with no negative balance, the vouchers one Advance request posts
    pay at most the ledger's total, the total drops by no more than
    they pay, and when a voucher is posted the total drops by exactly
    the amount its payload spells. *)
Theorem vouchers_backed_by_ledger (requestData : requestData)
    (balances : Part000.ledger) :
  Part000.nonneg balances ->
  0 <= paid_out (events_of (Part000.handleAdvance requestData balances))
    <= Part000.total balances
  /\ Part000.total balances
     - paid_out (events_of (Part000.handleAdvance requestData balances))
     <= Part000.total (ledger_of (Part000.handleAdvance requestData balances))
  /\ (forall winner voucher,
        In (Voucher winner voucher)
           (events_of (Part000.handleAdvance requestData balances)) ->
        BigInt voucher
        = inr (Part000.total balances
               - Part000.total (ledger_of (Part000.handleAdvance requestData balances)))).
Proof.
  intros Hnn. pose proof (total_nonneg balances Hnn) as Htotal.
  destruct (handleAdvance_steps requestData balances)
    as (status & after & out & -> & Hstep).
  cbn [events_of ledger_of fst snd].
  destruct Hstep as [recipient amount Hamount | winner loser voucher Hpos Hhex | m | m].
  - cbn. rewrite total_insert. repeat split; try lia.
    intros w v [Hin | []]. discriminate.
  - pose proof (toBeHex_reads_back _ _ Hhex) as Hback.
    pose proof (balanceOf_le_total balances loser Hnn) as Hle.
    cbn. rewrite Hback, total_insert. repeat split; try lia.
    intros w v [[= <- <-] | [Hin | []]]; [| discriminate].
    rewrite Hback. f_equal. lia.
  - cbn. repeat split; try lia. intros w v [Hin | []]. discriminate.
  - cbn. repeat split; try lia. intros w v [Hin | []]. discriminate.
Qed.

End Invariants.

Section Variants.
Import JS Lib Host Views.
Context `{Runtime}.

(** X13.  src/index.js decodes a deposit from whatever bytes there
    are: fewer than 20 give no address, exactly 20 an address and no
    amount ([BigInt] of the bare prefix throws), and more than 20 the
    address of the first 20 and the big-endian integer of the bytes
    after them, up to the 52nd. *)
Theorem index_payload_decoded (payload : list Byte.byte) :
  IndexJs.parseDepositPayload payload
  = (if (length payload <? 20)%nat
     then inl (Error [Lit "Error parsing deposit payload: ";
                      Lit "Invalid deposit payload: Address extraction failed."])
     else if (length payload =? 20)%nat
     then inl (Error [Lit "Error parsing deposit payload: ";
                      OfFault (BigIntSyntaxError "0x")])
     else inr (checksumAddress (hexlify (Part000.slice 0 20 payload)),
               be_uint (Part000.slice 20 52 payload)))
  /\ 0 <= be_uint (Part000.slice 20 52 payload) < 2 ^ 256.
Proof.
  split; [| apply amount_slice_bound].
  destruct (Nat.ltb_spec (length payload) 20) as [Hlt | Hge].
  - now apply index_parse_no_address.
  - destruct (Nat.eqb_spec (length payload) 20) as [Heq | Hne].
    + now apply index_parse_no_amount.
    + apply index_parse_deposit. lia.
Qed.

(** X14.  src/index.js takes every Advance payload for a deposit,
    JSON text included: with its metadata present, a request of more
    than 20 bytes is accepted and credited, and a shorter one is
    rejected; without metadata the request is rejected before the
    payload is read. *)
Theorem index_advance_outcome (requestData : requestData) (balances : IndexJs.ledger) :
  IndexJs.handleAdvance requestData balances
  = match metadata requestData with
    | None =>
        (inr "reject", balances,
         [Report [Lit "Error: ";
                  OfFault (TypeError "Cannot read properties of undefined")]])
    | Some _ =>
        if (length (payload requestData) <? 20)%nat
        then (inr "reject", balances,
              [Report [Lit "Error: "; Lit "Error parsing deposit payload: ";
                       Lit "Invalid deposit payload: Address extraction failed."]])
        else if (length (payload requestData) =? 20)%nat
        then (inr "reject", balances,
              [Report [Lit "Error: "; Lit "Error parsing deposit payload: ";
                       OfFault (BigIntSyntaxError "0x")]])
        else
          let recipient :=
            checksumAddress (hexlify (Part000.slice 0 20 (payload requestData))) in
          let total :=
            Part000.balanceOf balances recipient
            + be_uint (Part000.slice 20 52 (payload requestData)) in
          (inr "accept", <[recipient := total]> balances,
           [Notice [Lit "Deposit OK: recipient="; Lit recipient;
                    Lit ", newBalance="; OfBigInt total]])
    end.
Proof.
  rewrite index_handleAdvance_eq.
  destruct (metadata requestData) as [sender |]; [| reflexivity].
  destruct (Nat.ltb_spec (length (payload requestData)) 20) as [Hlt | Hge].
  - now rewrite index_parse_no_address.
  - destruct (Nat.eqb_spec (length (payload requestData)) 20) as [Heq | Hne].
    + now rewrite index_parse_no_amount.
    + now rewrite index_parse_deposit by lia.
Qed.

(** X15.  On a payload of 52 bytes or more the two decoders agree, and
    on a request with such a payload that part_000 does not take for
    JSON the two Advance handlers do the same. *)
Theorem index_agrees_with_part000 (requestData : requestData)
    (balances : gmap string Z) :
  (52 <= length (payload requestData))%nat ->
  IndexJs.parseDepositPayload (payload requestData)
  = Part000.parseDepositPayload (payload requestData)
  /\ (Part000.as_json requestData = None ->
      IndexJs.handleAdvance requestData balances
      = Part000.handleAdvance requestData balances).
Proof.
  intros Hlen.
  assert (Hsame : IndexJs.parseDepositPayload (payload requestData)
                  = Part000.parseDepositPayload (payload requestData)).
  { rewrite index_parse_deposit by lia. now rewrite parseDepositPayload_long. }
  split; [exact Hsame |]. intros Hjson.
  rewrite index_handleAdvance_eq, (handleAdvance_binary _ balances Hjson), Hsame.
  rewrite parseDepositPayload_long by exact Hlen.
  now destruct (metadata requestData).
Qed.

(** X16.  A {win, loss} request in part_000 one of whose addresses
    [getAddress] refuses is rejected with that error reported: no
    voucher, the ledger as it was. *)
Theorem settle_invalid_address_rejected (requestData : requestData)
    (balances : Part000.ledger) (parsed win loss : value) (e : exn) :
  Part000.as_json requestData = Some parsed ->
  getProp parsed "win" = inr win ->
  getProp parsed "loss" = inr loss ->
  truthy win && truthy loss = true ->
  getAddress win = inl e
  \/ (exists winner, getAddress win = inr winner) /\ getAddress loss = inl e ->
  Part000.handleAdvance requestData balances
  = (inr "reject", balances, [Report (Lit "Error: " :: message e)]).
Proof.
  intros Hjson Hwin Hloss Htruthy Hbad.
  rewrite (handleAdvance_json _ _ _ _ _ Hjson Hwin Hloss), Htruthy.
  destruct Hbad as [-> | [[winner ->] ->]]; reflexivity.
Qed.

(** X17.  In part_000 a deposit to an account that holds nothing can
    always be paid out: settling against that account right after
    posts a voucher for exactly the amount deposited, leaves the
    account at zero and the ledger's total where it was before the
    deposit. *)
Theorem first_deposit_can_be_settled (deposit settle : requestData)
    (balances : Part000.ledger) (sender recipient winner : string) (amount : Z)
    (parsed win loss : value) :
  Part000.as_json deposit = None ->
  metadata deposit = Some sender ->
  Part000.parseDepositPayload (payload deposit) = inr (recipient, amount) ->
  0 < amount ->
  Part000.balanceOf balances recipient = 0 ->
  Part000.as_json settle = Some parsed ->
  getProp parsed "win" = inr win ->
  getProp parsed "loss" = inr loss ->
  getAddress win = inr winner ->
  getAddress loss = inr recipient ->
  exists after voucher,
    Part000.handleAdvance deposit balances
    = (inr "accept", after,
       [Notice [Lit "Deposit OK: recipient="; Lit recipient; Lit ", newBalance=";
                OfBigInt amount]])
    /\ Part000.handleAdvance settle after
       = (inr "accept", <[recipient := 0]> after,
          [Voucher winner voucher;
           Notice [Lit "Voucher issued: "; Lit winner; Lit " gets ";
                   OfBigInt amount; Lit " wei"]])
    /\ BigInt voucher = inr amount
    /\ Part000.total (<[recipient := 0]> after) = Part000.total balances.
Proof.
  intros Hdj Hmeta Hparse Hpos Hzero Hsj Hwin Hloss Hwinner Hloser.
  assert (Hbound : amount < 2 ^ 256).
  { destruct (Nat.ltb_spec (length (payload deposit)) 52) as [Hlt | Hge].
    - rewrite parseDepositPayload_short in Hparse by exact Hlt. discriminate.
    - rewrite parseDepositPayload_long in Hparse by exact Hge.
      injection Hparse as _ <-. apply amount_slice_bound. }
  rewrite (handleAdvance_binary _ balances Hdj), Hparse, Hmeta. cbv zeta.
  rewrite Hzero, Z.add_0_l.
  destruct (handleAdvance_settle settle (<[recipient := amount]> balances)
              parsed win loss winner recipient amount Hsj Hwin Hloss Hwinner Hloser
              ltac:(apply lookup_insert_eq) ltac:(lia)) as (voucher & Hrun & Hback & _).
  exists (<[recipient := amount]> balances), voucher.
  split; [reflexivity |]. split; [exact Hrun |]. split; [exact Hback |].
  assert (Hheld : Part000.balanceOf (<[recipient := amount]> balances) recipient = amount).
  { unfold Part000.balanceOf. now rewrite lookup_insert_eq. }
  rewrite !total_insert, Hheld, Hzero. lia.
Qed.

End Variants.

(** ** part_001: a request from end to end *)

Section Part001Requests.
Import JS Lib Host Part001.
Context `{Runtime}.

Ltac step :=
  cbn -[balances_get balances_set truthy add sub lessThan interpolate or_zero
        credit debit held Number].

Ltac run :=
  cbn -[balances_get balances_set truthy add sub lessThan interpolate or_zero
        credit debit held].

(** [processDeposit] for any amount [Number] converts. *)
Lemma processDeposit_number (parsed : value) (sender : string) (a : value) (n : float)
    (balances : ledger) :
  getProp parsed "sender" = inr (VString sender) ->
  getProp parsed "amount" = inr a ->
  nullish a = false -> Number a = inr n ->
  plain_key sender -> numeric balances sender ->
  processDeposit parsed balances = (inr tt, credit sender n balances, []).
Proof.
  intros Hsender Hamount Hnull Hn Hkey Hnum.
  pose proof (credit_run sender n balances Hkey Hnum) as Hrun. cbv zeta in Hrun.
  unfold processDeposit, mbind, lift, get, put, mret, mthrow.
  rewrite Hsender, Hamount, Hnull.
  replace (truthy (VString sender)) with true by (symmetry; apply Hkey).
  step.
  destruct (negb (truthy (balances_get balances sender))); step; rewrite Hn; step;
    (destruct (add _ _) as [e | total]; cbn in Hrun;
      [discriminate | injection Hrun as <-; reflexivity]).
Qed.

Lemma credit_lookup (k : string) (n : float) (balances : ledger) :
  credit k n balances !! k = Some (VNumber (PrimFloat.add (held balances k) n))
  /\ forall k', k' <> k -> credit k n balances !! k' = balances !! k'.
Proof.
  unfold credit. split; [apply lookup_insert_eq |].
  intros k' Hne. now rewrite lookup_insert_ne by congruence.
Qed.

Lemma handleAdvance_deposit (requestData : requestData) (balances : ledger)
    (parsed a : value) (sender : string) (n : float) :
  JSON_parse (TextDecoder_decode (payload requestData)) = Some parsed ->
  getProp parsed "action" = inr (VString "deposit") ->
  getProp parsed "sender" = inr (VString sender) ->
  getProp parsed "amount" = inr a ->
  nullish a = false -> Number a = inr n ->
  plain_key sender -> numeric balances sender ->
  handleAdvance requestData balances
  = (inr "accept", credit sender n balances,
     [Notice [Lit "Deposit OK: sender="; OfValue (VString sender);
              Lit ", newBalance=";
              OfValue (VNumber (PrimFloat.add (held balances sender) n))]]).
Proof.
  intros Hparse Haction Hsender Hamount Hnull Hn Hkey Hnum.
  destruct (credit_lookup sender n balances) as [Hown _].
  unfold handleAdvance, try_catch, mbind at 1 2 3, lift at 1 2.
  rewrite Hparse. step. rewrite Haction. step.
  unfold mbind at 1.
  rewrite (processDeposit_number _ _ _ _ _ Hsender Hamount Hnull Hn Hkey Hnum).
  unfold mbind, lift, get, sendNotice, emit, mret.
  rewrite Hsender. step.
  unfold balances_get. rewrite Hown. reflexivity.
Qed.

(** X18.  A JSON deposit in part_001 — sender a plain key, amount
    anything but null that [Number] converts to [n] — is accepted: [n]
    is added to what the sender's balance counts for, no other balance
    changes, and one notice gives the new balance. *)
Theorem part001_deposit_accepted (requestData : requestData) (balances : ledger)
    (parsed a : value) (sender : string) (n : float) :
  JSON_parse (TextDecoder_decode (payload requestData)) = Some parsed ->
  getProp parsed "action" = inr (VString "deposit") ->
  getProp parsed "sender" = inr (VString sender) ->
  getProp parsed "amount" = inr a ->
  nullish a = false -> Number a = inr n ->
  plain_key sender -> numeric balances sender ->
  exists after,
    handleAdvance requestData balances
    = (inr "accept", after,
       [Notice [Lit "Deposit OK: sender="; OfValue (VString sender);
                Lit ", newBalance=";
                OfValue (VNumber (PrimFloat.add (held balances sender) n))]])
    /\ after !! sender = Some (VNumber (PrimFloat.add (held balances sender) n))
    /\ (forall k, k <> sender -> after !! k = balances !! k).
Proof.
  intros Hparse Haction Hsender Hamount Hnull Hn Hkey Hnum.
  exists (credit sender n balances).
  destruct (credit_lookup sender n balances) as [Hown Hothers].
  split; [| split; assumption].
  now apply (handleAdvance_deposit _ _ parsed a).
Qed.

Lemma is_nan_spec (n : float) :
  is_nan n = true -> Prim2SF n = SpecFloat.S754_nan.
Proof.
  unfold is_nan. rewrite FloatAxioms.eqb_spec.
  destruct (Prim2SF n) as [[|] | [|] | | s m e]; try discriminate; try reflexivity.
  unfold SpecFloat.SFeqb. rewrite SFcompare_refl. discriminate.
Qed.

Lemma add_nan (b n : float) : is_nan n = true -> is_nan (PrimFloat.add b n) = true.
Proof.
  intros Hn. apply is_nan_spec in Hn.
  unfold is_nan. rewrite FloatAxioms.eqb_spec, FloatAxioms.add_spec, Hn.
  now destruct (Prim2SF b) as [[|] | [|] | | s m e].
Qed.

(** X19.  A deposit in part_001 whose amount [Number] turns into NaN
    (a text that is no number, say) is accepted all the same, and the
    sender's balance on record becomes NaN, whatever it was: from
    then on it counts for zero. *)
Theorem part001_nan_deposit_wipes_balance (requestData : requestData)
    (balances : ledger) (parsed a : value) (sender : string) (n : float) :
  JSON_parse (TextDecoder_decode (payload requestData)) = Some parsed ->
  getProp parsed "action" = inr (VString "deposit") ->
  getProp parsed "sender" = inr (VString sender) ->
  getProp parsed "amount" = inr a ->
  nullish a = false -> Number a = inr n -> is_nan n = true ->
  plain_key sender -> numeric balances sender ->
  status_of (handleAdvance requestData balances) = inr "accept"
  /\ exists r,
       ledger_of (handleAdvance requestData balances) !! sender = Some (VNumber r)
       /\ is_nan r = true
       /\ held (ledger_of (handleAdvance requestData balances)) sender = PrimFloat.zero.
Proof.
  intros Hparse Haction Hsender Hamount Hnull Hn Hnan Hkey Hnum.
  rewrite (handleAdvance_deposit _ _ parsed a sender n) by assumption.
  cbn [status_of ledger_of fst snd]. split; [reflexivity |].
  destruct (credit_lookup sender n balances) as [Hown _].
  pose proof (add_nan (held balances sender) n Hnan) as Hr.
  exists (PrimFloat.add (held balances sender) n).
  split; [exact Hown |]. split; [exact Hr |].
  unfold held at 1. rewrite Hown. cbn [truthy]. rewrite Hr.
  now rewrite orb_true_r.
Qed.

(** X20.  A JSON transfer in part_001 between plain keys that hold
    numbers: when the sender's balance counts for zero or is less than
    the amount the request is rejected, the ledger is untouched and
    one report says "Insufficient balance"; otherwise it is accepted,
    the sender debited, the receiver credited, and one notice posted. *)
Theorem part001_transfer_outcome (requestData : requestData) (balances : ledger)
    (parsed : value) (from to : string) (amount : float) :
  JSON_parse (TextDecoder_decode (payload requestData)) = Some parsed ->
  getProp parsed "action" = inr (VString "transfer") ->
  getProp parsed "from" = inr (VString from) ->
  getProp parsed "to" = inr (VString to) ->
  getProp parsed "amount" = inr (VNumber amount) ->
  plain_key from -> plain_key to ->
  numeric balances from -> numeric balances to ->
  handleAdvance requestData balances
  = if PrimFloat.eqb (held balances from) PrimFloat.zero
       || PrimFloat.ltb (held balances from) amount
    then (inr "reject", balances,
          [Report [Lit "Error: "; Lit "Insufficient balance in ";
                   OfValue (VString from); Lit ". Current: ";
                   OfValue (VNumber (held balances from));
                   Lit ", needed: "; OfValue (VNumber amount)]])
    else (inr "accept", credit to amount (debit from amount balances),
          [Notice [Lit "Transfer OK: from="; OfValue (VString from);
                   Lit ", to="; OfValue (VString to);
                   Lit ", amount="; OfValue (VNumber amount)]]).
Proof.
  intros Hparse Haction Hfrom Hto Hamount Hkf Hkt Hnf Hnt.
  unfold handleAdvance, try_catch, mbind at 1 2 3, lift at 1 2.
  rewrite Hparse. step. rewrite Haction. step.
  unfold mbind at 1.
  rewrite (processTransfer_eq _ _ _ _ _ Hfrom Hto Hamount Hkf Hkt Hnf Hnt).
  destruct (PrimFloat.eqb (held balances from) PrimFloat.zero
            || PrimFloat.ltb (held balances from) amount); [reflexivity |].
  unfold mbind, lift, sendNotice, emit, mret.
  rewrite Hfrom, Hto, Hamount. reflexivity.
Qed.

(** X21.  part_001 rejects a deposit with no sender or no amount, and
    a transfer with no source, no destination or no amount: the ledger
    is untouched and one report names the missing fields. *)
Theorem part001_missing_fields_rejected (requestData : requestData)
    (balances : ledger) (parsed : value) :
  JSON_parse (TextDecoder_decode (payload requestData)) = Some parsed ->
  (forall sender amount,
     getProp parsed "action" = inr (VString "deposit") ->
     getProp parsed "sender" = inr sender ->
     getProp parsed "amount" = inr amount ->
     truthy sender = false \/ nullish amount = true ->
     handleAdvance requestData balances
     = (inr "reject", balances,
        [Report [Lit "Error: ";
                 Lit "Missing 'sender' or 'amount' in deposit input"]]))
  /\ (forall from to amount,
        getProp parsed "action" = inr (VString "transfer") ->
        getProp parsed "from" = inr from ->
        getProp parsed "to" = inr to ->
        getProp parsed "amount" = inr amount ->
        truthy from = false \/ truthy to = false \/ nullish amount = true ->
        handleAdvance requestData balances
        = (inr "reject", balances,
           [Report [Lit "Error: ";
                    Lit "Missing 'from', 'to' or 'amount' in transfer input"]])).
Proof.
  intros Hparse. split.
  - intros sender amount Haction Hsender Hamount Hmissing.
    assert (Hcheck : negb (truthy sender) || nullish amount = true).
    { destruct Hmissing as [-> | ->]; [reflexivity | apply orb_true_r]. }
    unfold handleAdvance, try_catch, mbind at 1 2 3, lift at 1 2.
    rewrite Hparse. step. rewrite Haction. step.
    unfold mbind at 1. unfold processDeposit, mbind, lift, mthrow.
    now rewrite Hsender, Hamount, Hcheck.
  - intros from to amount Haction Hfrom Hto Hamount Hmissing.
    assert (Hcheck : negb (truthy from) || negb (truthy to) || nullish amount = true).
    { destruct Hmissing as [-> | [-> | ->]];
        [reflexivity | now rewrite orb_true_r | apply orb_true_r]. }
    unfold handleAdvance, try_catch, mbind at 1 2 3, lift at 1 2.
    rewrite Hparse. step. rewrite Haction. step.
    unfold mbind at 1. unfold processTransfer, mbind, lift, mthrow.
    now rewrite Hfrom, Hto, Hamount, Hcheck.
Qed.

(** X22.  A rejected transfer in part_001 can still take the money:
    when the destination is an object that cannot be turned into a
    key (it has a [toString] member of its own), the sender, who holds
    enough, is debited first, the look-up of the destination then
    throws, and the request is rejected with the debit in place and
    nobody credited. *)
Theorem part001_rejected_transfer_keeps_debit (requestData : requestData)
    (balances : ledger) (parsed hidden : value) (from : string)
    (fields : list (string * value)) (amount : float) :
  JSON_parse (TextDecoder_decode (payload requestData)) = Some parsed ->
  getProp parsed "action" = inr (VString "transfer") ->
  getProp parsed "from" = inr (VString from) ->
  getProp parsed "to" = inr (VObject fields) ->
  getProp parsed "amount" = inr (VNumber amount) ->
  own fields "toString" = Some hidden ->
  plain_key from -> numeric balances from ->
  PrimFloat.eqb (held balances from) PrimFloat.zero
  || PrimFloat.ltb (held balances from) amount = false ->
  handleAdvance requestData balances
  = (inr "reject", debit from amount balances,
     [Report [Lit "Error: ";
              OfFault (TypeError "Cannot convert object to primitive value")]])
  /\ debit from amount balances !! from
     = Some (VNumber (PrimFloat.sub (held balances from) amount))
  /\ (forall k, k <> from -> debit from amount balances !! k = balances !! k).
Proof.
  intros Hparse Haction Hfrom Hto Hamount Hown Hkf Hnf Hfunds.
  split; [| split].
  - apply orb_false_iff in Hfunds as [Hnz Hlt].
    unfold handleAdvance, try_catch, mbind at 1 2 3, lift at 1 2.
    rewrite Hparse. step. rewrite Haction. step.
    unfold mbind at 1. unfold processTransfer, mbind, lift, get, put, mret, mthrow.
    rewrite Hfrom, Hto, Hamount.
    replace (truthy (VString from)) with true by (symmetry; apply Hkf).
    change (truthy (VObject fields)) with true.
    step.
    destruct (balances_get_numeric balances from Hkf Hnf)
      as [Hor [(Ht & Hget & _) | (Ht & Hheld)]].
    + rewrite Ht. run. rewrite Hget, lessThan_numbers, Hlt. run.
      rewrite sub_numbers. run. rewrite Hown.
      rewrite (balances_set_plain from) by exact Hkf. reflexivity.
    + rewrite Hheld in Hnz. discriminate.
  - unfold debit. apply lookup_insert_eq.
  - intros k Hk. unfold debit. now rewrite lookup_insert_ne by congruence.
Qed.

End Part001Requests.

(** ** What a handler posts when it rejects, and when it has nothing to say *)

Section Reports.
Import JS Lib Host Views.
Context `{Runtime}.

Lemma silent_lift {L A} (r : result A) : silent (lift (S := L) r).
Proof. now intros s. Qed.

Lemma silent_get {L} : silent (get (S := L)).
Proof. now intros s. Qed.

Lemma silent_put {L} (s' : L) : silent (put s').
Proof. now intros s. Qed.

Lemma silent_mret {L A} (a : A) : silent (mret (S := L) a).
Proof. now intros s. Qed.

Lemma silent_mthrow {L A} (e : exn) : silent (mthrow (S := L) (A := A) e).
Proof. now intros s. Qed.

Lemma silent_mbind {L A B} (c : M L A) (k : A -> M L B) :
  silent c -> (forall a, silent (k a)) -> silent (mbind c k).
Proof.
  intros Hc Hk s. unfold mbind. specialize (Hc s).
  destruct (c s) as [[[e | a] s1] out1]; cbn in Hc; subst out1; [reflexivity |].
  specialize (Hk a s1). now destruct (k a s1) as [[r s2] out2].
Qed.

Lemma quiet_silent {L A} (c : M L A) : silent c -> quiet_failure c.
Proof. intros Hc s e s' out Hrun. specialize (Hc s). now rewrite Hrun in Hc. Qed.

Lemma quiet_mbind {L A B} (c : M L A) (k : A -> M L B) :
  silent c -> (forall a, quiet_failure (k a)) -> quiet_failure (mbind c k).
Proof.
  intros Hc Hk s e s' out. unfold mbind. specialize (Hc s).
  destruct (c s) as [[[e1 | a] s1] out1]; cbn in Hc; subst out1.
  - now intros [= _ _ <-].
  - specialize (Hk a s1). destruct (k a s1) as [[[e2 | b] s2] out2]; [| discriminate].
    intros [= _ _ <-]. now rewrite (Hk e2 s2 out2 eq_refl).
Qed.

Lemma quiet_then_return {L A B} (c : M L A) (b : B) :
  quiet_failure c -> quiet_failure (mbind c (fun _ => mret b)).
Proof.
  intros Hc s e s' out. unfold mbind, mret.
  destruct (c s) as [[[e1 | a] s1] out1] eqn:Hrun; [| discriminate].
  intros [= _ _ <-]. exact (Hc s e1 s1 out1 Hrun).
Qed.

Lemma quiet_emit {L} (e : event) : quiet_failure (emit (S := L) e).
Proof. intros s e' s' out. discriminate. Qed.

Ltac hush :=
  repeat first
    [ apply silent_lift | apply silent_get | apply silent_put
    | apply silent_mret | apply silent_mthrow
    | apply silent_mbind; [| intros ?]
    | match goal with
      | |- silent (if ?b then _ else _) => destruct b
      end ].

Lemma processDeposit_silent (parsed : value) : silent (Part001.processDeposit parsed).
Proof. unfold Part001.processDeposit. hush. Qed.

Lemma processTransfer_silent (parsed : value) : silent (Part001.processTransfer parsed).
Proof. unfold Part001.processTransfer. hush. Qed.

Lemma advance001_rejects (requestData : requestData) (balances : Part001.ledger) :
  status_of (Part001.handleAdvance requestData balances) = inr "reject" ->
  exists m, events_of (Part001.handleAdvance requestData balances)
            = [Report (Lit "Error: " :: m)].
Proof.
  unfold Part001.handleAdvance, Part001.sendReport.
  match goal with
  | |- context [try_catch ?body _] =>
      assert (Hquiet : quiet_failure body);
      [| destruct (try_catch_report body balances)
           as (status & after & out & Hrun & [Hbody | (-> & e & pre & Hbody & ->)])]
  end.
  - apply quiet_mbind; [apply silent_lift | intros parsed].
    apply quiet_mbind; [apply silent_lift | intros action].
    apply quiet_then_return.
    destruct (is_string action "deposit");
      [| destruct (is_string action "transfer"); [| apply quiet_silent, silent_mret]].
    + apply quiet_mbind; [apply processDeposit_silent | intros _].
      do 4 (apply quiet_mbind; [first [apply silent_lift | apply silent_get] | intros ?]).
      apply quiet_emit.
    + apply quiet_mbind; [apply processTransfer_silent | intros _].
      do 4 (apply quiet_mbind; [apply silent_lift | intros ?]).
      apply quiet_emit.
  - rewrite Hrun. cbn [status_of events_of fst snd]. intros [= ->].
    apply mbind_returns in Hbody as (parsed & s1 & o1 & o2 & _ & Hbody & _).
    apply mbind_returns in Hbody as (action & s2 & o3 & o4 & _ & Hbody & _).
    apply mbind_returns in Hbody as (u & s3 & o5 & o6 & _ & Hbody & _).
    discriminate Hbody.
  - rewrite Hrun. cbn [status_of events_of fst snd]. intros _.
    rewrite (Hquiet balances e after pre Hbody). eauto.
Qed.

(** X23.  Whenever a handler of part_000 or of src/index.js, or the
    Advance handler of part_001, returns "reject", it has posted
    exactly one event: a report whose text begins with "Error: ". *)
Theorem rejections_are_reported (requestData : requestData) :
  (forall balances : Part000.ledger,
     status_of (Part000.handleAdvance requestData balances) = inr "reject" ->
     exists m, events_of (Part000.handleAdvance requestData balances)
               = [Report (Lit "Error: " :: m)])
  /\ (forall balances : Part000.ledger,
        status_of (Part000.handleInspect requestData balances) = inr "reject" ->
        exists m, events_of (Part000.handleInspect requestData balances)
                  = [Report (Lit "Error: " :: m)])
  /\ (forall balances : IndexJs.ledger,
        status_of (IndexJs.handleAdvance requestData balances) = inr "reject" ->
        exists m, events_of (IndexJs.handleAdvance requestData balances)
                  = [Report (Lit "Error: " :: m)])
  /\ (forall balances : IndexJs.ledger,
        status_of (IndexJs.handleInspect requestData balances) = inr "reject" ->
        exists m, events_of (IndexJs.handleInspect requestData balances)
                  = [Report (Lit "Error: " :: m)])
  /\ (forall balances : Part001.ledger,
        status_of (Part001.handleAdvance requestData balances) = inr "reject" ->
        exists m, events_of (Part001.handleAdvance requestData balances)
                  = [Report (Lit "Error: " :: m)]).
Proof.
  assert (Hinspect : forall balances : Part000.ledger,
            status_of (Part000.handleInspect requestData balances) = inr "reject" ->
            exists m, events_of (Part000.handleInspect requestData balances)
                      = [Report (Lit "Error: " :: m)]).
  { intros balances.
    destruct (handleInspect_steps requestData balances) as (status & out & -> & Hstep).
    cbn [status_of events_of fst snd]. intros [= ->]. inversion Hstep; eauto. }
  split; [| split; [exact Hinspect | split; [| split; [exact Hinspect |]]]].
  - intros balances.
    destruct (handleAdvance_steps requestData balances)
      as (status & after & out & -> & Hstep).
    cbn [status_of events_of fst snd]. intros [= ->]. inversion Hstep; eauto.
  - intros balances.
    destruct (index_handleAdvance_steps requestData balances)
      as (status & after & out & -> & Hstep).
    cbn [status_of events_of fst snd]. intros [= ->]. inversion Hstep; eauto.
  - apply advance001_rejects.
Qed.

(** X24.  An Inspect request that parses as JSON but asks for no
    balance (its action is not "balance", or it names no user) is
    accepted without a word in all three variants: no report, no
    error, the ledger as it was. *)
Theorem inspect_other_query_silent (requestData : requestData)
    (parsed action user : value) :
  JSON_parse (TextDecoder_decode (payload requestData)) = Some parsed ->
  getProp parsed "action" = inr action ->
  getProp parsed "user" = inr user ->
  is_string action "balance" && truthy user = false ->
  (forall balances : Part000.ledger,
     Part000.handleInspect requestData balances = (inr "accept", balances, []))
  /\ (forall balances : IndexJs.ledger,
        IndexJs.handleInspect requestData balances = (inr "accept", balances, []))
  /\ (forall balances : Part001.ledger,
        Part001.handleInspect requestData balances = (inr "accept", balances, [])).
Proof.
  intros Hparse Haction Huser Hother.
  assert (H0 : forall balances : Part000.ledger,
            Part000.handleInspect requestData balances = (inr "accept", balances, [])).
  { intros balances. unfold Part000.handleInspect, try_catch, mbind, lift, mret.
    rewrite Hparse. cbn [ret]. now rewrite Haction, Huser, Hother. }
  split; [exact H0 | split; [exact H0 |]].
  intros balances. unfold Part001.handleInspect, try_catch, mbind, lift, mret.
  rewrite Hparse. cbn [ret]. now rewrite Haction, Huser, Hother.
Qed.

End Reports.

(** ** part_000: requests one after another *)

Section Sequences.
Import JS Lib Host Views.
Context `{Runtime}.

Lemma deposit_ledger (requestData : requestData) (balances : Part000.ledger)
    (sender recipient : string) (amount : Z) :
  Part000.as_json requestData = None ->
  metadata requestData = Some sender ->
  Part000.parseDepositPayload (payload requestData) = inr (recipient, amount) ->
  ledger_of (Part000.handleAdvance requestData balances)
  = <[recipient := Part000.balanceOf balances recipient + amount]> balances.
Proof.
  intros Hjson Hmeta Hparse.
  now rewrite (handleAdvance_binary _ balances Hjson), Hparse, Hmeta.
Qed.

(** X25.  Binary deposits in part_000 commute: two of them leave the
    same ledger in either order, to one recipient or to two. *)
Theorem deposits_commute (first second : requestData) (balances : Part000.ledger)
    (s1 s2 r1 r2 : string) (a1 a2 : Z) :
  Part000.as_json first = None -> metadata first = Some s1 ->
  Part000.parseDepositPayload (payload first) = inr (r1, a1) ->
  Part000.as_json second = None -> metadata second = Some s2 ->
  Part000.parseDepositPayload (payload second) = inr (r2, a2) ->
  ledger_of (Part000.handleAdvance second
               (ledger_of (Part000.handleAdvance first balances)))
  = ledger_of (Part000.handleAdvance first
                 (ledger_of (Part000.handleAdvance second balances))).
Proof.
  intros Hj1 Hm1 Hp1 Hj2 Hm2 Hp2.
  rewrite (deposit_ledger first balances _ _ _ Hj1 Hm1 Hp1).
  rewrite (deposit_ledger second balances _ _ _ Hj2 Hm2 Hp2).
  rewrite (deposit_ledger second _ _ _ _ Hj2 Hm2 Hp2).
  rewrite (deposit_ledger first _ _ _ _ Hj1 Hm1 Hp1).
  unfold Part000.balanceOf.
  destruct (decide (r1 = r2)) as [<- | Hne].
  - rewrite !lookup_insert_eq, !insert_insert_eq. f_equal. lia.
  - rewrite (lookup_insert_ne _ r1 r2) by exact Hne.
    rewrite (lookup_insert_ne _ r2 r1) by congruence.
    now apply insert_insert_ne.
Qed.

(** X26.  part_000 pays a loser's balance out once: after a settlement
    that posted a voucher, the same request again is accepted with a
    report that the loser has nothing left, posts no voucher and
    leaves the ledger as the first one left it. *)
Theorem settle_pays_once (requestData : requestData) (balances : Part000.ledger)
    (parsed win loss : value) (winner loser : string) (n : Z) :
  Part000.as_json requestData = Some parsed ->
  getProp parsed "win" = inr win ->
  getProp parsed "loss" = inr loss ->
  getAddress win = inr winner ->
  getAddress loss = inr loser ->
  balances !! loser = Some n ->
  0 < n < 2 ^ 256 ->
  exists voucher after,
    Part000.handleAdvance requestData balances
    = (inr "accept", after,
       [Voucher winner voucher;
        Notice [Lit "Voucher issued: "; Lit winner; Lit " gets ";
                OfBigInt n; Lit " wei"]])
    /\ Part000.handleAdvance requestData after
       = (inr "accept", after,
          [Report [Lit "Loser "; Lit loser; Lit " has no balance to transfer."]]).
Proof.
  intros Hjson Hwin Hloss Hwinner Hloser Hbal Hn.
  destruct (handleAdvance_settle requestData balances parsed win loss winner loser n
              Hjson Hwin Hloss Hwinner Hloser Hbal Hn) as (voucher & Hrun & _).
  exists voucher, (<[loser := 0]> balances). split; [exact Hrun |].
  rewrite (handleAdvance_json _ _ _ _ _ Hjson Hwin Hloss).
  rewrite (getAddress_truthy _ _ Hwinner), (getAddress_truthy _ _ Hloser).
  cbn [andb]. rewrite Hwinner, Hloser. cbv zeta.
  unfold Part000.balanceOf. now rewrite lookup_insert_eq.
Qed.

End Sequences.

(** ** Keys the prototype answers for, and a variant that never pays *)

Section Edges.
Import JS Lib Host Views.
Context `{Runtime}.

(** X27.  src/index.js never pays out: an Advance request posts no
    voucher and lowers no balance. *)
Theorem index_never_pays_out (requestData : requestData) (balances : IndexJs.ledger) :
  (forall winner voucher,
     ~ In (Voucher winner voucher) (events_of (IndexJs.handleAdvance requestData balances)))
  /\ (forall k,
        Part000.balanceOf balances k
        <= Part000.balanceOf (ledger_of (IndexJs.handleAdvance requestData balances)) k).
Proof.
  rewrite index_handleAdvance_eq.
  destruct (metadata requestData) as [sender |].
  - destruct (IndexJs.parseDepositPayload (payload requestData))
      as [e | [recipient amount]] eqn:Hp; cbn [events_of ledger_of fst snd].
    + split; [intros w v [Hin | []]; discriminate | intros k; lia].
    + destruct (index_parse_sound _ _ _ Hp) as [_ Hamount].
      split; [intros w v [Hin | []]; discriminate |].
      intros k. unfold Part000.balanceOf at 2.
      destruct (decide (recipient = k)) as [<- | Hne].
      * rewrite lookup_insert_eq. lia.
      * rewrite lookup_insert_ne by exact Hne. unfold Part000.balanceOf. lia.
  - cbn [events_of ledger_of fst snd].
    split; [intros w v [Hin | []]; discriminate | intros k; lia].
Qed.

(** X28.  In part_001 a deposit whose sender names a member every
    object inherits ([toString], [constructor], [__proto__], ...) and
    has no entry yet is accepted, and credits no number: what is read
    as the balance is the inherited member, so the sum is a text, the
    member's source followed by the amount, stored under that name —
    or dropped, under [__proto__]. *)
Theorem part001_inherited_sender (requestData : requestData)
    (balances : Part001.ledger) (parsed a : value) (sender : string) (n : float) :
  JSON_parse (TextDecoder_decode (payload requestData)) = Some parsed ->
  getProp parsed "action" = inr (VString "deposit") ->
  getProp parsed "sender" = inr (VString sender) ->
  getProp parsed "amount" = inr a ->
  nullish a = false -> Number a = inr n ->
  inherited sender = true -> balances !! sender = None ->
  status_of (Part001.handleAdvance requestData balances) = inr "accept"
  /\ ledger_of (Part001.handleAdvance requestData balances)
     = Part001.balances_set sender
         (VString (native_text sender +:+ Number_toString n)) balances.
Proof.
  intros Hparse Haction Hsender Hamount Hnull Hn Hinh Hnone.
  assert (Htruthy : truthy (VString sender) = true).
  { destruct sender; [discriminate | reflexivity]. }
  assert (Hget : Part001.balances_get balances sender = VNative sender).
  { unfold Part001.balances_get. now rewrite Hnone, Hinh. }
  assert (Hrun : exists out,
            Part001.handleAdvance requestData balances
            = (inr "accept",
               Part001.balances_set sender
                 (VString (native_text sender +:+ Number_toString n)) balances, out)).
  { unfold Part001.handleAdvance, try_catch, mbind at 1 2 3, lift at 1 2.
    rewrite Hparse. cbn [ret]. rewrite Haction.
    cbn -[Part001.processDeposit interpolate Part001.balances_get].
    unfold mbind at 1.
    assert (Hdep : Part001.processDeposit parsed balances
                   = (inr tt,
                      Part001.balances_set sender
                        (VString (native_text sender +:+ Number_toString n)) balances, [])).
    { unfold Part001.processDeposit, mbind, lift, get, put, mret, mthrow.
      rewrite Hsender, Hamount, Hnull, Htruthy.
      cbn -[Part001.balances_get Part001.balances_set Number add].
      rewrite Hget. cbn -[Part001.balances_get Part001.balances_set Number add].
      rewrite Hget, Hn. reflexivity. }
    rewrite Hdep. unfold mbind, lift, get, Part001.sendNotice, emit, mret.
    rewrite Hsender. cbn -[interpolate Part001.balances_get Part001.balances_set].
    set (after := Part001.balances_set sender _ balances).
    assert (Hshown : exists v s, Part001.balances_get after sender = v
                                 /\ ToString v = inr s).
    { unfold after, Part001.balances_set, Part001.balances_get.
      destruct (String.eqb sender "__proto__").
      - rewrite Hnone, Hinh. eauto.
      - rewrite lookup_insert_eq. eauto. }
    destruct Hshown as (v & s & -> & Hs).
    cbn [interpolate ToString rbind ret]. rewrite Hs. eexists. reflexivity. }
  destruct Hrun as [out ->]. split; reflexivity.
Qed.

End Edges.

Lemma part001_inherited_sender_witness :
  Host.status_of
    (Part001.handleAdvance (H := Reference.runtime)
       (Examples.json_deposit "toString" "5") ∅) = inr "accept"
  /\ Host.ledger_of
       (Part001.handleAdvance (H := Reference.runtime)
          (Examples.json_deposit "toString" "5") ∅)
     = Part001.balances_set "toString"
         (JS.VString (JS.native_text (Runtime := Reference.runtime) "toString"
                      +:+ JS.Number_toString (Runtime := Reference.runtime) 5%float)) ∅.
Proof.
  apply (part001_inherited_sender (H := Reference.runtime)
           (Examples.json_deposit "toString" "5") ∅
           (JS.VObject [("action", JS.VString "deposit");
                        ("sender", JS.VString "toString");
                        ("memo", JS.VString ""); ("amount", JS.VNumber 5%float)])
           (JS.VNumber 5%float) "toString" 5%float);
    vm_compute; reflexivity.
Defined.

(** ** The theorems above at concrete requests *)

Lemma vouchers_backed_by_ledger_witness :
  0 <= Views.paid_out
         (Host.events_of
            (Part000.handleAdvance (H := Reference.runtime)
               (Examples.settle_request Examples.bob Examples.alice)
               {[Examples.alice := 100]}))
    <= Part000.total {[Examples.alice := 100]}.
Proof.
  assert (Hnn : Part000.nonneg {[Examples.alice := 100]}).
  { intros k n Hk. apply lookup_singleton_Some in Hk as [_ <-]. lia. }
  exact (proj1 (vouchers_backed_by_ledger (H := Reference.runtime)
                  (Examples.settle_request Examples.bob Examples.alice)
                  {[Examples.alice := 100]} Hnn)).
Defined.

Lemma index_agrees_with_part000_witness :
  IndexJs.parseDepositPayload (H := Reference.runtime)
    (Host.payload (Examples.deposit_request Examples.alice_bytes 5))
  = Part000.parseDepositPayload (H := Reference.runtime)
      (Host.payload (Examples.deposit_request Examples.alice_bytes 5))
  /\ (Part000.as_json (H := Reference.runtime)
        (Examples.deposit_request Examples.alice_bytes 5) = None ->
      IndexJs.handleAdvance (H := Reference.runtime)
        (Examples.deposit_request Examples.alice_bytes 5) ∅
      = Part000.handleAdvance (H := Reference.runtime)
          (Examples.deposit_request Examples.alice_bytes 5) ∅).
Proof.
  apply (index_agrees_with_part000 (H := Reference.runtime)
           (Examples.deposit_request Examples.alice_bytes 5) ∅).
  vm_compute. lia.
Defined.

Lemma settle_invalid_address_rejected_witness :
  Part000.handleAdvance (H := Reference.runtime)
    (Examples.settle_request "nobody" Examples.alice) {[Examples.alice := 100]}
  = (inr "reject", {[Examples.alice := 100]},
     [Host.Report
        (JS.Lit "Error: "
         :: JS.message (JS.Fault (JS.InvalidAddressError (JS.VString "nobody"))))]).
Proof.
  apply (settle_invalid_address_rejected (H := Reference.runtime)
           (Examples.settle_request "nobody" Examples.alice) {[Examples.alice := 100]}
           (JS.VObject [("win", JS.VString "nobody");
                        ("loss", JS.VString Examples.alice)])
           (JS.VString "nobody") (JS.VString Examples.alice));
    try (vm_compute; reflexivity).
  left. vm_compute. reflexivity.
Defined.

Lemma first_deposit_can_be_settled_witness :
  exists after voucher,
    Part000.handleAdvance (H := Reference.runtime)
      (Examples.deposit_request Examples.alice_bytes 5) ∅
    = (inr "accept", after,
       [Host.Notice [JS.Lit "Deposit OK: recipient="; JS.Lit Examples.alice;
                     JS.Lit ", newBalance="; JS.OfBigInt 5]])
    /\ Part000.handleAdvance (H := Reference.runtime)
         (Examples.settle_request Examples.bob Examples.alice) after
       = (inr "accept", <[Examples.alice := 0]> after,
          [Host.Voucher Examples.bob voucher;
           Host.Notice [JS.Lit "Voucher issued: "; JS.Lit Examples.bob; JS.Lit " gets ";
                        JS.OfBigInt 5; JS.Lit " wei"]])
    /\ Lib.BigInt voucher = inr 5
    /\ Part000.total (<[Examples.alice := 0]> after) = Part000.total ∅.
Proof.
  apply (first_deposit_can_be_settled (H := Reference.runtime)
           (Examples.deposit_request Examples.alice_bytes 5)
           (Examples.settle_request Examples.bob Examples.alice) ∅
           Examples.bob Examples.alice Examples.bob 5
           (JS.VObject [("win", JS.VString Examples.bob);
                        ("loss", JS.VString Examples.alice)])
           (JS.VString Examples.bob) (JS.VString Examples.alice));
    vm_compute; reflexivity.
Defined.

Lemma part001_deposit_accepted_witness :
  exists after,
    Part001.handleAdvance (H := Reference.runtime)
      (Examples.json_deposit Examples.alice "5") {[Examples.alice := JS.VNumber 100%float]}
    = (inr "accept", after,
       [Host.Notice
          [JS.Lit "Deposit OK: sender="; JS.OfValue (JS.VString Examples.alice);
           JS.Lit ", newBalance=";
           JS.OfValue
             (JS.VNumber
                (PrimFloat.add
                   (Part001.held {[Examples.alice := JS.VNumber 100%float]} Examples.alice)
                   5%float))]])
    /\ after !! Examples.alice
       = Some (JS.VNumber
                 (PrimFloat.add
                    (Part001.held {[Examples.alice := JS.VNumber 100%float]} Examples.alice)
                    5%float))
    /\ (forall k, k <> Examples.alice ->
        after !! k
        = ({[Examples.alice := JS.VNumber 100%float]} : gmap string JS.value) !! k).
Proof.
  apply (part001_deposit_accepted (H := Reference.runtime)
           (Examples.json_deposit Examples.alice "5")
           {[Examples.alice := JS.VNumber 100%float]}
           (JS.VObject [("action", JS.VString "deposit");
                        ("sender", JS.VString Examples.alice);
                        ("memo", JS.VString ""); ("amount", JS.VNumber 5%float)])
           (JS.VNumber 5%float) Examples.alice 5%float);
    try (vm_compute; reflexivity).
  - split; reflexivity.
  - right. eexists. reflexivity.
Defined.

Lemma part001_nan_deposit_wipes_balance_witness :
  Host.status_of
    (Part001.handleAdvance (H := Reference.runtime)
       (Samples.deposit_of_text Examples.alice)
       {[Examples.alice := JS.VNumber 100%float]}) = inr "accept"
  /\ exists r,
       Host.ledger_of
         (Part001.handleAdvance (H := Reference.runtime)
            (Samples.deposit_of_text Examples.alice)
            {[Examples.alice := JS.VNumber 100%float]}) !! Examples.alice
       = Some (JS.VNumber r)
       /\ JS.is_nan r = true
       /\ Part001.held
            (Host.ledger_of
               (Part001.handleAdvance (H := Reference.runtime)
                  (Samples.deposit_of_text Examples.alice)
                  {[Examples.alice := JS.VNumber 100%float]})) Examples.alice
          = PrimFloat.zero.
Proof.
  apply (part001_nan_deposit_wipes_balance (H := Reference.runtime)
           (Samples.deposit_of_text Examples.alice)
           {[Examples.alice := JS.VNumber 100%float]}
           (JS.VObject [("action", JS.VString "deposit");
                        ("sender", JS.VString Examples.alice);
                        ("memo", JS.VString ""); ("amount", JS.VString "abc")])
           (JS.VString "abc") Examples.alice PrimFloat.nan);
    try (vm_compute; reflexivity).
  - split; reflexivity.
  - right. eexists. reflexivity.
Defined.

Lemma part001_transfer_outcome_witness :
  Part001.handleAdvance (H := Reference.runtime)
    (Examples.json_transfer Examples.alice Examples.bob "20")
    {[Examples.alice := JS.VNumber 100%float]}
  = if PrimFloat.eqb
         (Part001.held {[Examples.alice := JS.VNumber 100%float]} Examples.alice)
         PrimFloat.zero
       || PrimFloat.ltb
            (Part001.held {[Examples.alice := JS.VNumber 100%float]} Examples.alice)
            20%float
    then (inr "reject", {[Examples.alice := JS.VNumber 100%float]},
          [Host.Report [JS.Lit "Error: "; JS.Lit "Insufficient balance in ";
                        JS.OfValue (JS.VString Examples.alice); JS.Lit ". Current: ";
                        JS.OfValue
                          (JS.VNumber
                             (Part001.held {[Examples.alice := JS.VNumber 100%float]}
                                Examples.alice));
                        JS.Lit ", needed: "; JS.OfValue (JS.VNumber 20%float)]])
    else (inr "accept",
          Part001.credit Examples.bob 20%float
            (Part001.debit Examples.alice 20%float
               {[Examples.alice := JS.VNumber 100%float]}),
          [Host.Notice [JS.Lit "Transfer OK: from="; JS.OfValue (JS.VString Examples.alice);
                        JS.Lit ", to="; JS.OfValue (JS.VString Examples.bob);
                        JS.Lit ", amount="; JS.OfValue (JS.VNumber 20%float)]]).
Proof.
  apply (part001_transfer_outcome (H := Reference.runtime)
           (Examples.json_transfer Examples.alice Examples.bob "20")
           {[Examples.alice := JS.VNumber 100%float]}
           (JS.VObject [("action", JS.VString "transfer");
                        ("from", JS.VString Examples.alice);
                        ("to", JS.VString Examples.bob);
                        ("amount", JS.VNumber 20%float)])
           Examples.alice Examples.bob 20%float);
    try (vm_compute; reflexivity); try (split; reflexivity).
  - right. eexists. reflexivity.
  - left. reflexivity.
Defined.

Lemma part001_missing_fields_rejected_witness :
  Part001.handleAdvance (H := Reference.runtime)
    (Examples.json_deposit "" "5") ∅
  = (inr "reject", ∅,
     [Host.Report [JS.Lit "Error: ";
                   JS.Lit "Missing 'sender' or 'amount' in deposit input"]]).
Proof.
  apply (proj1 (part001_missing_fields_rejected (H := Reference.runtime)
                  (Examples.json_deposit "" "5") ∅
                  (JS.VObject [("action", JS.VString "deposit");
                               ("sender", JS.VString "");
                               ("memo", JS.VString ""); ("amount", JS.VNumber 5%float)])
                  ltac:(vm_compute; reflexivity))
           (JS.VString "") (JS.VNumber 5%float) eq_refl eq_refl eq_refl).
  left. reflexivity.
Defined.

Lemma part001_rejected_transfer_keeps_debit_witness :
  Part001.handleAdvance (H := Reference.runtime)
    (Samples.transfer_to_object Examples.alice "20")
    {[Examples.alice := JS.VNumber 100%float]}
  = (inr "reject",
     Part001.debit Examples.alice 20%float {[Examples.alice := JS.VNumber 100%float]},
     [Host.Report [JS.Lit "Error: ";
                   JS.OfFault (JS.TypeError "Cannot convert object to primitive value")]])
  /\ Part001.debit Examples.alice 20%float {[Examples.alice := JS.VNumber 100%float]}
       !! Examples.alice
     = Some (JS.VNumber
               (PrimFloat.sub
                  (Part001.held {[Examples.alice := JS.VNumber 100%float]} Examples.alice)
                  20%float))
  /\ (forall k, k <> Examples.alice ->
      Part001.debit Examples.alice 20%float {[Examples.alice := JS.VNumber 100%float]} !! k
      = ({[Examples.alice := JS.VNumber 100%float]} : gmap string JS.value) !! k).
Proof.
  apply (part001_rejected_transfer_keeps_debit (H := Reference.runtime)
           (Samples.transfer_to_object Examples.alice "20")
           {[Examples.alice := JS.VNumber 100%float]}
           (JS.VObject [("action", JS.VString "transfer");
                        ("from", JS.VString Examples.alice);
                        ("to", JS.VObject [("toString", JS.VNumber 1%float)]);
                        ("amount", JS.VNumber 20%float)])
           (JS.VNumber 1%float) Examples.alice
           [("toString", JS.VNumber 1%float)] 20%float);
    try (vm_compute; reflexivity).
  - split; reflexivity.
  - right. eexists. reflexivity.
Defined.

Lemma inspect_other_query_silent_witness :
  Part000.handleInspect (H := Reference.runtime) (Examples.text_request "{}") ∅
  = (inr "accept", ∅, [])
  /\ Part001.handleInspect (H := Reference.runtime) (Examples.text_request "{}") ∅
     = (inr "accept", ∅, []).
Proof.
  destruct (inspect_other_query_silent (H := Reference.runtime)
              (Examples.text_request "{}") (JS.VObject []) JS.VUndefined JS.VUndefined
              ltac:(vm_compute; reflexivity) eq_refl eq_refl eq_refl)
    as (H0 & _ & H1).
  split; [apply H0 | apply H1].
Defined.

Lemma deposits_commute_witness :
  Host.ledger_of
    (Part000.handleAdvance (H := Reference.runtime)
       (Examples.deposit_request Examples.carol_bytes 7)
       (Host.ledger_of
          (Part000.handleAdvance (H := Reference.runtime)
             (Examples.deposit_request Examples.alice_bytes 5) ∅)))
  = Host.ledger_of
      (Part000.handleAdvance (H := Reference.runtime)
         (Examples.deposit_request Examples.alice_bytes 5)
         (Host.ledger_of
            (Part000.handleAdvance (H := Reference.runtime)
               (Examples.deposit_request Examples.carol_bytes 7) ∅))).
Proof.
  apply (deposits_commute (H := Reference.runtime)
           (Examples.deposit_request Examples.alice_bytes 5)
           (Examples.deposit_request Examples.carol_bytes 7) ∅
           Examples.bob Examples.bob Examples.alice Examples.carol 5 7);
    vm_compute; reflexivity.
Defined.

Lemma settle_pays_once_witness :
  exists voucher after,
    Part000.handleAdvance (H := Reference.runtime)
      (Examples.settle_request Examples.bob Examples.alice) {[Examples.alice := 100]}
    = (inr "accept", after,
       [Host.Voucher Examples.bob voucher;
        Host.Notice [JS.Lit "Voucher issued: "; JS.Lit Examples.bob; JS.Lit " gets ";
                     JS.OfBigInt 100; JS.Lit " wei"]])
    /\ Part000.handleAdvance (H := Reference.runtime)
         (Examples.settle_request Examples.bob Examples.alice) after
       = (inr "accept", after,
          [Host.Report [JS.Lit "Loser "; JS.Lit Examples.alice;
                        JS.Lit " has no balance to transfer."]]).
Proof.
  apply (settle_pays_once (H := Reference.runtime)
           (Examples.settle_request Examples.bob Examples.alice)
           {[Examples.alice := 100]}
           (JS.VObject [("win", JS.VString Examples.bob);
                        ("loss", JS.VString Examples.alice)])
           (JS.VString Examples.bob) (JS.VString Examples.alice)
           Examples.bob Examples.alice 100);
    try (vm_compute; reflexivity).
  split; reflexivity.
Defined.


(** ** part_000: an address wrapped in an array *)

Section Wrapped.
Import JS Lib Host.
Context `{Runtime}.


End Wrapped.

